(** * The storefront data layer: transport client, resource services and
      the shop context, embedded from the TypeScript sources.

    Layout of the file:
    - [Js]         : the JavaScript values the code handles (JSON payloads,
                     numbers as IEEE-754 doubles, truthiness, [Math.max],
                     thrown values);
    - [Data]       : the interfaces of the services and of the shop context
                     as records, and the reading of a payload at an
                     interface;
    - [Effects]    : what [fetch] is given and answers, envelopes, notices;
    - [Monad]      : the world the code runs in (network, auth token, React
                     state cells, notices) and a state-and-exception monad
                     with [try]/[catch]/[finally];
    - [Config]     : [api.config.ts];
    - [Transport]  : [ApiClient] of [api.client.ts];
    - [CartService] ... [ProductService] : the resource services, and
                     [Services], their methods as one type;
    - [Shop]       : the [ShopProvider] of [ShopContext.updated.tsx];
    - [Logic]      : predicates on computations;
    - [Reading], [Spec], [Scenario] : a concrete payload reading, the
                     specification's wording of the response
                     normalization, and concrete backends;
    - the theorems. *)

From Stdlib Require Import ZArith Bool List String Lia.
From Stdlib Require Import Floats.
Import ListNotations.

Set Warnings "-register-all".

Local Open Scope string_scope.
Local Open Scope Z_scope.

(* ===================================================================== *)
(** * JavaScript values *)
(* ===================================================================== *)

Module Js.

(** A JavaScript [number] is a binary64 float; the kernel's primitive
    floats are exactly that. *)
Definition number := float.
Bind Scope float_scope with number.

(** A value as [response.json()] or a property read can produce it.
    Objects keep their properties in insertion order. *)
Inductive JSValue : Type :=
| JUndefined
| JNull
| JBool (b : bool)
| JNum (n : number)
| JStr (s : string)
| JArr (items : list JSValue)
| JObj (props : list (string * JSValue)).

(** [ToBoolean]: what [if (v)], [!v] and [v || w] test. *)
Definition truthy (v : JSValue) : bool :=
  match v with
  | JUndefined | JNull => false
  | JBool b => b
  | JNum n => negb (PrimFloat.is_zero n || PrimFloat.is_nan n)
  | JStr s => negb (String.eqb s "")
  | JArr _ | JObj _ => true
  end.

(** [a || b] *)
Definition js_or (a b : JSValue) : JSValue := if truthy a then a else b.

(** [a ?? b] *)
Definition js_nullish (a b : JSValue) : JSValue :=
  match a with
  | JUndefined | JNull => b
  | _ => a
  end.

Fixpoint assoc (k : string) (props : list (string * JSValue)) : JSValue :=
  match props with
  | [] => JUndefined
  | (k', v) :: rest => if String.eqb k k' then v else assoc k rest
  end.

(** [v.k] for a [v] that is neither [null] nor [undefined]: own
    properties of an object, [undefined] for the keys the code reads
    ([data], [message], [errors]) on a primitive or an array. *)
Definition prop (k : string) (v : JSValue) : JSValue :=
  match v with
  | JObj props => assoc k props
  | _ => JUndefined
  end.

(** [v.k] throws a [TypeError] exactly on [null] and [undefined]. *)
Definition nullish (v : JSValue) : bool :=
  match v with
  | JUndefined | JNull => true
  | _ => false
  end.

(** [Math.max(a, b)]: [NaN] if either argument is, and [+0] above [-0]. *)
Definition Math_max (a b : number) : number :=
  if (PrimFloat.is_nan a || PrimFloat.is_nan b)%bool then PrimFloat.nan
  else if (a <? b)%float then b
  else if (b <? a)%float then a
  else if (PrimFloat.is_zero a && PrimFloat.get_sign a)%bool then b
  else a.

(** What can be thrown: an [Error] instance (with its [name]; the
    [message] is kept as the value the constructor received, which is the
    message itself whenever that value is a string), or any other value. *)
Inductive Exn : Type :=
| JsError (name : string) (message : JSValue)
| JsThrown (v : JSValue).

(** [new Error(m)] *)
Definition new_Error (m : JSValue) : Exn := JsError "Error" m.

(** [error instanceof Error ? error.message : fallback] *)
Definition message_or (e : Exn) (fallback : string) : JSValue :=
  match e with
  | JsError _ m => m
  | JsThrown _ => JStr fallback
  end.

End Js.
Export Js.

(* ===================================================================== *)
(** * The declared interfaces *)
(* ===================================================================== *)

Module Data.

(** [cart.service.ts]: interface CartItem. *)
Record CartItem := {
  ci_id : string;
  ci_productId : string;
  ci_product : JSValue;
  ci_quantity : number;
  ci_size : string;
  ci_color : string;
  ci_price : number;
  ci_addedAt : string
}.

(** [cart.service.ts]: interface Cart. *)
Record Cart := {
  cart_id : string;
  cart_userId : string;
  cart_items : list CartItem;
  cart_subtotal : number;
  cart_shipping : number;
  cart_tax : number;
  cart_total : number;
  cart_createdAt : string;
  cart_updatedAt : string
}.

(** [ShopContext.updated.tsx]: interface PromoCode. *)
Inductive PromoType := percentage | fixed.

Record PromoCode := {
  promo_code : string;
  promo_discount : number;
  promo_type : PromoType
}.

(** [user.service.ts]: interfaces WishlistItem and Wishlist. *)
Record WishlistItem := {
  wi_id : string;
  wi_productId : string;
  wi_product : JSValue;
  wi_addedAt : string
}.

Record Wishlist := {
  wl_id : string;
  wl_userId : string;
  wl_items : list WishlistItem;
  wl_createdAt : string;
  wl_updatedAt : string
}.

(** [user.service.ts]: interface UserProfile. *)
Record UserProfile := {
  up_id : string;
  up_email : string;
  up_firstName : string;
  up_lastName : string;
  up_phoneNumber : option string;
  up_dateOfBirth : option string;
  up_gender : option string;
  up_avatar : option string;
  up_emailVerified : bool;
  up_createdAt : string;
  up_updatedAt : string
}.

(** [user.service.ts]: interface Notification. *)
Record Notification := {
  n_id : string;
  n_type : string;
  n_title : string;
  n_message : string;
  n_read : bool;
  n_createdAt : string;
  n_data : option JSValue
}.

(** The page [getNotifications] resolves with. *)
Record NotificationPage := {
  np_notifications : list Notification;
  np_total : number;
  np_unreadCount : number;
  np_page : number;
  np_limit : number;
  np_totalPages : number
}.

(** [order.service.ts]: interface Address. *)
Record Address := {
  a_id : string;
  a_fullName : string;
  a_addressLine1 : string;
  a_addressLine2 : option string;
  a_city : string;
  a_state : string;
  a_postalCode : string;
  a_country : string;
  a_phoneNumber : string;
  a_isDefault : bool
}.

(** Orders and returns are held and handed on, never read: they are
    kept as the payload itself. *)
Definition Order := JSValue.
Definition Return := JSValue.

Record OrderListResponse := {
  ol_orders : list Order;
  ol_total : number;
  ol_page : number;
  ol_limit : number;
  ol_totalPages : number
}.

Record ReturnListResponse := {
  rl_returns : list Return;
  rl_total : number;
  rl_page : number;
  rl_limit : number;
  rl_totalPages : number
}.

(** [product.service.ts]: interfaces Product and ProductSearchResponse. *)
Record Product := {
  p_id : string;
  p_name : string;
  p_description : string;
  p_price : number;
  p_originalPrice : option number;
  p_category : string;
  p_subcategory : option string;
  p_brand : string;
  p_images : list string;
  p_sizes : list string;
  p_colors : list string;
  p_inStock : bool;
  p_stock : option number;
  p_rating : number;
  p_reviews : number;
  p_createdAt : option string;
  p_updatedAt : option string
}.

Record ProductSearchResponse := {
  ps_products : list Product;
  ps_total : number;
  ps_page : number;
  ps_limit : number;
  ps_totalPages : number
}.

(** [ShopContext.updated.tsx]: interface User. *)
Record User := {
  u_id : string;
  u_name : string;
  u_email : string;
  u_phone : option string;
  u_addresses : list Address
}.

(** The state cells of [ShopProvider] ([useState]). *)
Record Store := {
  cart : option Cart;
  wishlist : option Wishlist;
  user : option User;
  orders : list Order;
  returns : list Return;
  notifications : list Notification;
  appliedPromo : option PromoCode;
  loading : bool;
  error : option JSValue
}.

(** The reading of a payload at the interface the code declares for it
    ([apiClient.get<Cart>], [response.data] returned as [Cart]).  The
    TypeScript cast is unchecked, so nothing is assumed of the reading. *)
Class View (T : Type) := view : JSValue -> T.

(** A payload that is only handed on is read as itself. *)
#[export] Instance View_payload : View JSValue := fun v => v.

Class Views := {
  View_Cart :: View Cart;
  View_Wishlist :: View Wishlist;
  View_UserProfile :: View UserProfile;
  View_NotificationPage :: View NotificationPage;
  View_Address :: View Address;
  View_Addresses :: View (list Address);
  View_OrderListResponse :: View OrderListResponse;
  View_ReturnListResponse :: View ReturnListResponse;
  View_Product :: View Product;
  View_ProductSearchResponse :: View ProductSearchResponse
}.

End Data.
Export Data.

(* ===================================================================== *)
(** * The world the code runs in *)
(* ===================================================================== *)

Module Effects.

(** ** What [fetch] is given *)

(** The second argument of [request]: the path itself, or, for [get],
    [url.pathname + url.search] of the [URL] built from the base, the
    endpoint and the appended parameters.  The text the platform's [URL]
    class produces is kept symbolic. *)
Inductive Target : Type :=
| Path (endpoint : string)
| PathAndSearch (full : string) (searchParams : list (string * JSValue)).

(** One entry of a [FormData]. *)
Inductive FormValue : Type :=
| FormText (v : JSValue)          (* formData.append(key, value) *)
| FormJson (v : JSValue)          (* formData.append(key, JSON.stringify(value)) *)
| FormFile (f : JSValue).         (* a File *)

Inductive Body : Type :=
| NoBody
| JsonBody (v : JSValue)                        (* JSON.stringify(v) *)
| FormBody (entries : list (string * FormValue)).

Record Request := {
  rq_base : string;                    (* this.baseURL *)
  rq_target : Target;
  rq_method : option string;           (* absent: the platform's GET *)
  rq_headers : list (string * string);
  rq_body : Body
}.

(** ** What [fetch] answers *)

(** [await response.json()] *)
Inductive BodyRead : Type :=
| Parsed (v : JSValue)
| ParseFails (e : Exn).

Inductive FetchOutcome : Type :=
| Rejects (e : Exn)
| Responds (http_status : Z) (body : BodyRead).

(** The network and the backend seen from the client: how long it
    takes until [fetch] settles (ms: the response's status line and
    headers have arrived, or the attempt has failed), how long the body
    then takes until [response.json()] settles (ms), and how the two
    settle when nothing aborts them.  A body that never ends is not among
    the exchanges: the call would stay pending for ever. *)
Record Exchange := {
  latency : Z;
  body_delay : Z;
  outcome : FetchOutcome
}.

(** The whole round trip: until the body has been read. *)
Definition round_trip (ex : Exchange) : Z := latency ex + body_delay ex.

(** ** What the transport client resolves with: interface ApiResponse.
    [data] and [errors] are optional properties: [None] is an absent
    property. *)
Record Envelope := {
  data : option JSValue;
  message : JSValue;
  status : Z;
  errors : option JSValue
}.

(** ** Notices ([sonner]'s [toast]) *)
Inductive Toast : Type :=
| toast_success (text : string)
| toast_error (text : JSValue).

End Effects.
Export Effects.

Module Monad.

(** Everything outside the code that it reads or changes. *)
Record World := {
  (* import.meta.env.VITE_API_BASE_URL *)
  env_VITE_API_BASE_URL : option string;
  (* window.__clerkToken *)
  clerkToken : option string;
  (* the platform's URL class: [None] on a text [new URL(text)] takes
     for a URL, and on any other text the message of the TypeError it
     throws (the wording is the engine's) *)
  URL_refused : string -> option string;
  (* the backend and the network, as a function of the requests made so
     far and of the request at hand *)
  server : list Request -> Request -> Exchange;
  (* every call of the transport client so far, oldest first: what was
     handed to fetch and what the client resolved with *)
  traffic : list (Request * Envelope);
  (* the React state cells, with every queued update applied *)
  store : Store;
  (* the notices shown so far, oldest first *)
  toasts : list Toast;
  (* console.error, oldest first *)
  console : list (string * Exn)
}.

Definition with_clerkToken (t : option string) (w : World) : World :=
  {| env_VITE_API_BASE_URL := env_VITE_API_BASE_URL w; clerkToken := t;
     URL_refused := URL_refused w; server := server w; traffic := traffic w; store := store w;
     toasts := toasts w; console := console w |}.

Definition with_traffic (t : list (Request * Envelope)) (w : World) : World :=
  {| env_VITE_API_BASE_URL := env_VITE_API_BASE_URL w;
     clerkToken := clerkToken w; URL_refused := URL_refused w;
     server := server w; traffic := t;
     store := store w; toasts := toasts w; console := console w |}.

Definition with_store (s : Store) (w : World) : World :=
  {| env_VITE_API_BASE_URL := env_VITE_API_BASE_URL w;
     clerkToken := clerkToken w; URL_refused := URL_refused w;
     server := server w; traffic := traffic w;
     store := s; toasts := toasts w; console := console w |}.

Definition with_toasts (t : list Toast) (w : World) : World :=
  {| env_VITE_API_BASE_URL := env_VITE_API_BASE_URL w;
     clerkToken := clerkToken w; URL_refused := URL_refused w;
     server := server w; traffic := traffic w;
     store := store w; toasts := t; console := console w |}.

Definition with_console (c : list (string * Exn)) (w : World) : World :=
  {| env_VITE_API_BASE_URL := env_VITE_API_BASE_URL w;
     clerkToken := clerkToken w; URL_refused := URL_refused w;
     server := server w; traffic := traffic w;
     store := store w; toasts := toasts w; console := c |}.

(** The completion of a piece of code: a value, or a thrown exception
    (for an async function: the promise fulfils or rejects). *)
Inductive Completion (A : Type) : Type :=
| Ok (a : A)
| Throw (e : Exn).
Arguments Ok {A} a.
Arguments Throw {A} e.

Definition M (A : Type) : Type := World -> Completion A * World.

Definition ret {A} (a : A) : M A := fun w => (Ok a, w).

Definition bind {A B} (m : M A) (k : A -> M B) : M B :=
  fun w =>
    match m w with
    | (Ok a, w') => k a w'
    | (Throw e, w') => (Throw e, w')
    end.

Definition throw {A} (e : Exn) : M A := fun w => (Throw e, w).

(** [try { body } catch (e) { handler }] *)
Definition try_catch {A} (body : M A) (handler : Exn -> M A) : M A :=
  fun w =>
    match body w with
    | (Ok a, w') => (Ok a, w')
    | (Throw e, w') => handler e w'
    end.

(** [try { body } finally { cleanup }] *)
Definition try_finally {A} (body : M A) (cleanup : M unit) : M A :=
  fun w =>
    match body w with
    | (r, w') =>
        match cleanup w' with
        | (Ok _, w'') => (r, w'')
        | (Throw e, w'') => (Throw e, w'')
        end
    end.

Definition gets {A} (f : World -> A) : M A := fun w => (Ok (f w), w).
Definition modify (f : World -> World) : M unit := fun w => (Ok tt, f w).

Declare Scope js_scope.
Delimit Scope js_scope with js.
Notation "x <- m ;; k" := (bind m (fun x => k))
  (at level 61, m at next level, right associativity) : js_scope.
Notation "m ;;; k" := (bind m (fun _ => k))
  (at level 61, right associativity) : js_scope.

End Monad.
Export Monad.
Local Open Scope js_scope.

(* ===================================================================== *)
(** * [api.config.ts] *)
(* ===================================================================== *)

Module Config.

(** [import.meta.env.VITE_API_BASE_URL || 'http://localhost:5000/api'] *)
Definition API_BASE_URL (env : option string) : string :=
  match env with
  | Some s => if String.eqb s "" then "http://localhost:5000/api" else s
  | None => "http://localhost:5000/api"
  end.

Module API_ENDPOINTS.
Definition PRODUCTS := "/products".
Definition PRODUCT_BY_ID (id : string) := "/products/" ++ id.
Definition SEARCH_PRODUCTS := "/products/search".
Definition CATEGORIES := "/products/categories".
Definition FEATURED_PRODUCTS := "/products/featured".
Definition BESTSELLERS := "/products/bestsellers".
Definition CART := "/cart".
Definition CART_ITEM (id : string) := "/cart/items/" ++ id.
Definition ORDERS := "/orders".
Definition ORDER_BY_ID (id : string) := "/orders/" ++ id.
Definition TRACK_ORDER (id : string) := "/orders/" ++ id ++ "/track".
Definition CANCEL_ORDER (id : string) := "/orders/" ++ id ++ "/cancel".
Definition WISHLIST := "/wishlist".
Definition WISHLIST_ITEM (productId : string) := "/wishlist/" ++ productId.
Definition ADDRESSES := "/addresses".
Definition ADDRESS_BY_ID (id : string) := "/addresses/" ++ id.
Definition SET_DEFAULT_ADDRESS (id : string) := "/addresses/" ++ id ++ "/default".
Definition RETURNS := "/returns".
Definition RETURN_BY_ID (id : string) := "/returns/" ++ id.
Definition USER_PROFILE := "/user/profile".
Definition USER_NOTIFICATIONS := "/user/notifications".
Definition MARK_NOTIFICATION_READ (id : string) :=
  "/user/notifications/" ++ id ++ "/read".
End API_ENDPOINTS.

Module HTTP_STATUS.
Definition OK := 200.
Definition CREATED := 201.
Definition NO_CONTENT := 204.
Definition BAD_REQUEST := 400.
Definition UNAUTHORIZED := 401.
Definition FORBIDDEN := 403.
Definition NOT_FOUND := 404.
Definition CONFLICT := 409.
Definition UNPROCESSABLE_ENTITY := 422.
Definition INTERNAL_SERVER_ERROR := 500.
End HTTP_STATUS.

Definition API_TIMEOUT := 10000.

End Config.
Export Config.

(* ===================================================================== *)
(** * [api.client.ts] *)
(* ===================================================================== *)

Module Transport.

(** ** The platform: [fetch], [Response], [AbortController] *)

Record Response := {
  r_status : Z;
  r_json : BodyRead
}.

(** [response.ok] *)
Definition ok (r : Response) : bool :=
  ((200 <=? r_status r) && (r_status r <=? 299))%bool.

(** What [fetch] rejects with once its signal is aborted. *)
Definition AbortError : Exn :=
  JsError "AbortError" (JStr "signal is aborted without reason").

(** [await fetch(url, {..., signal})] under [setTimeout(() =>
    controller.abort(), ms)]: the timer fires first when [fetch] has not
    settled before [ms] (settling at exactly [ms] is taken to lose the
    race).  Once [fetch] has settled the timer is cleared
    ([clearTimeout(timeoutId)] comes before [response.json()]), so the
    reading of the body is never aborted, however long it takes. *)
Definition fetch (rq : Request) (ms : Z) : M Response :=
  fun w =>
    let ex := server w (map fst (traffic w)) rq in
    if latency ex <? ms then
      match outcome ex with
      | Rejects e => (Throw e, w)
      | Responds st body => (Ok {| r_status := st; r_json := body |}, w)
      end
    else (Throw AbortError, w).

(** [await response.json()]: it settles [body_delay] after [fetch]
    did, under no timer. *)
Definition json (r : Response) : M JSValue :=
  match r_json r with
  | Parsed v => ret v
  | ParseFails e => throw e
  end.

(** [v.k], which throws on [null] and [undefined]. *)
Definition TypeError_reading (k : string) (v : JSValue) : Exn :=
  JsError "TypeError"
    (JStr ("Cannot read properties of "
           ++ (match v with JNull => "null" | _ => "undefined" end)
           ++ " (reading '" ++ k ++ "')")).

Definition read (v : JSValue) (k : string) : M JSValue :=
  if nullish v then throw (TypeError_reading k v) else ret (prop k v).

(** [headers[k] = v] and the spread of one header object over another. *)
Fixpoint set_header (k v : string) (hs : list (string * string))
  : list (string * string) :=
  match hs with
  | [] => [(k, v)]
  | (k', v') :: rest =>
      if String.eqb k k' then (k, v) :: rest else (k', v') :: set_header k v rest
  end.

Definition spread_headers (over base : list (string * string))
  : list (string * string) :=
  fold_left (fun hs kv => set_header (fst kv) (snd kv) hs) over base.

(** ** class ApiClient *)

Record ApiClient := {
  baseURL : string;
  timeout : Z
}.

(** The options [request] is called with in this repository. *)
Record RequestInit := {
  ri_method : option string;
  ri_headers : list (string * string);
  ri_body : Body
}.

Definition no_options : RequestInit :=
  {| ri_method := None; ri_headers := []; ri_body := NoBody |}.

(** [(window as any).__clerkToken || ''] *)
Definition token_in (w : World) : string :=
  match clerkToken w with Some t => t | None => "" end.

Definition current_token : M string := gets token_in.

(** Instrumentation: the call and its envelope are appended to
    [traffic]. *)
Definition resolved (rq : Request) (e : Envelope) : M Envelope :=
  fun w => (Ok e, with_traffic (traffic w ++ [(rq, e)]) w).

(** The headers and the request [request] hands to [fetch]. *)
Definition request_headers (token : string) (options : RequestInit)
  : list (string * string) :=
  let headers :=
    spread_headers (ri_headers options) [("Content-Type", "application/json")] in
  if String.eqb token "" then headers
  else set_header "Authorization" ("Bearer " ++ token) headers.

Definition request_input (this : ApiClient) (token : string) (target : Target)
  (options : RequestInit) : Request :=
  {| rq_base := baseURL this;
     rq_target := target;
     rq_method := ri_method options;
     rq_headers := request_headers token options;
     rq_body := ri_body options |}.

Definition request (this : ApiClient) (target : Target) (options : RequestInit)
  : M Envelope :=
  token <- current_token ;;
  let rq := request_input this token target options in
  envelope <-
    try_catch
      (response <- fetch rq (timeout this) ;;
       responseData <- json response ;;
       if negb (ok response) then
         m <- read responseData "message" ;;
         e <- read responseData "errors" ;;
         ret {| data := None;
                message := js_or m (JStr "Request failed");
                status := r_status response;
                errors := Some (js_or e (JArr [])) |}
       else
         d <- read responseData "data" ;;
         m <- read responseData "message" ;;
         ret {| data := Some (js_or d responseData);
                message := js_or m (JStr "Success");
                status := r_status response;
                errors := None |})
      (fun error =>
         match error with
         | JsError name m =>
             if String.eqb name "AbortError" then
               ret {| data := None;
                      message := JStr "Request timeout";
                      status := HTTP_STATUS.INTERNAL_SERVER_ERROR;
                      errors := None |}
             else
               ret {| data := None;
                      message := js_or m (JStr "Network error");
                      status := HTTP_STATUS.INTERNAL_SERVER_ERROR;
                      errors := None |}
         | JsThrown _ =>
             ret {| data := None;
                    message := JStr "Unknown error occurred";
                    status := HTTP_STATUS.INTERNAL_SERVER_ERROR;
                    errors := None |}
         end) ;;
  resolved rq envelope.

(** [Object.entries(params).forEach(...)]: the parameters that are
    neither [undefined] nor [null] are appended, in order. *)
Definition appended (params : option (list (string * JSValue)))
  : list (string * JSValue) :=
  match params with
  | Some ps => filter (fun kv => negb (nullish (snd kv))) ps
  | None => []
  end.

(** What [new URL(text)] throws on a text it does not take for a URL,
    such as one with no scheme ([/api/cart]). *)
Definition Invalid_URL (m : string) : Exn := JsError "TypeError" (JStr m).

(** [new URL(text)] *)
Definition new_URL (text : string) : M string :=
  fun w =>
    match URL_refused w text with
    | None => (Ok text, w)
    | Some m => (Throw (Invalid_URL m), w)
    end.

(** The URL is built outside the [try] of [request]: when the platform
    refuses it, [get] rejects and nothing is sent. *)
Definition get (this : ApiClient) (endpoint : string)
  (params : option (list (string * JSValue))) : M Envelope :=
  url <- new_URL (baseURL this ++ endpoint) ;;
  request this (PathAndSearch url (appended params)) no_options.

(** [data ? JSON.stringify(data) : undefined] *)
Definition stringified (d : JSValue) : Body :=
  if truthy d then JsonBody d else NoBody.

Definition post (this : ApiClient) (endpoint : string) (d : JSValue)
  : M Envelope :=
  request this (Path endpoint)
    {| ri_method := Some "POST"; ri_headers := []; ri_body := stringified d |}.

Definition put (this : ApiClient) (endpoint : string) (d : JSValue)
  : M Envelope :=
  request this (Path endpoint)
    {| ri_method := Some "PUT"; ri_headers := []; ri_body := stringified d |}.

Definition patch (this : ApiClient) (endpoint : string) (d : JSValue)
  : M Envelope :=
  request this (Path endpoint)
    {| ri_method := Some "PATCH"; ri_headers := []; ri_body := stringified d |}.

Definition delete (this : ApiClient) (endpoint : string) : M Envelope :=
  request this (Path endpoint)
    {| ri_method := Some "DELETE"; ri_headers := []; ri_body := NoBody |}.

(** The request [upload] hands to [fetch]: no content type is set. *)
Definition upload_input (this : ApiClient) (token : string) (endpoint : string)
  (formData : list (string * FormValue)) : Request :=
  {| rq_base := baseURL this;
     rq_target := Path endpoint;
     rq_method := Some "POST";
     rq_headers :=
       (if String.eqb token "" then []
        else set_header "Authorization" ("Bearer " ++ token) []);
     rq_body := FormBody formData |}.

Definition upload (this : ApiClient) (endpoint : string)
  (formData : list (string * FormValue)) : M Envelope :=
  token <- current_token ;;
  let rq := upload_input this token endpoint formData in
  envelope <-
    try_catch
      (response <- fetch rq (timeout this) ;;
       responseData <- json response ;;
       if negb (ok response) then
         m <- read responseData "message" ;;
         e <- read responseData "errors" ;;
         ret {| data := None;
                message := js_or m (JStr "Upload failed");
                status := r_status response;
                errors := Some (js_or e (JArr [])) |}
       else
         d <- read responseData "data" ;;
         m <- read responseData "message" ;;
         ret {| data := Some (js_or d responseData);
                message := js_or m (JStr "Upload successful");
                status := r_status response;
                errors := None |})
      (fun error =>
         match error with
         | JsError _ m =>
             ret {| data := None;
                    message := js_or m (JStr "Upload error");
                    status := HTTP_STATUS.INTERNAL_SERVER_ERROR;
                    errors := None |}
         | JsThrown _ =>
             ret {| data := None;
                    message := JStr "Unknown upload error occurred";
                    status := HTTP_STATUS.INTERNAL_SERVER_ERROR;
                    errors := None |}
         end) ;;
  resolved rq envelope.

(** [export const apiClient = new ApiClient()] *)
Definition apiClient (w : World) : ApiClient :=
  {| baseURL := API_BASE_URL (env_VITE_API_BASE_URL w); timeout := API_TIMEOUT |}.

(** What [new URL] says to the text the module's client builds in
    [get] for [endpoint]: [None] when it takes it, and the TypeError's
    message otherwise. *)
Definition refusal (w : World) (endpoint : string) : option string :=
  URL_refused w (baseURL (apiClient w) ++ endpoint).

(** [setAuthToken] and [clearAuthToken] *)
Definition setAuthToken (token : string) : M unit :=
  modify (with_clerkToken (Some token)).

Definition clearAuthToken : M unit := modify (with_clerkToken None).

End Transport.
Export Transport.

(* ===================================================================== *)
(** * The resource services *)
(* ===================================================================== *)

(** The calls [apiClient.get(...)], [apiClient.post(...)], ... on the
    module's one client. *)
Module Client.
Definition on {A} (f : ApiClient -> M A) : M A := fun w => f (apiClient w) w.
Definition get endpoint params := on (fun c => Transport.get c endpoint params).
Definition post endpoint d := on (fun c => Transport.post c endpoint d).
Definition put endpoint d := on (fun c => Transport.put c endpoint d).
Definition patch endpoint d := on (fun c => Transport.patch c endpoint d).
Definition delete endpoint := on (fun c => Transport.delete c endpoint).
Definition upload endpoint formData :=
  on (fun c => Transport.upload c endpoint formData).
End Client.

Module ServiceCommon.

(** The tail every payload-returning method ends with:
    [if (response.data) return response.data;
     throw new Error(response.message || fallback)]. *)
Definition data_or_throw {T} `{View T} (response : Envelope) (fallback : string)
  : M T :=
  match data response with
  | Some d =>
      if truthy d then ret (view d)
      else throw (new_Error (js_or (message response) (JStr fallback)))
  | None => throw (new_Error (js_or (message response) (JStr fallback)))
  end.

(** [if (response.data)]: the envelope has a [data] and it is truthy. *)
Definition has_data (response : Envelope) : bool :=
  match data response with
  | Some d => truthy d
  | None => false
  end.

(** The tail of the methods that resolve with nothing:
    [if (response.status !== 200 && response.status !== 204)
       throw new Error(response.message || fallback)]. *)
Definition done_or_throw (response : Envelope) (fallback : string) : M unit :=
  if (negb (status response =? 200) && negb (status response =? 204))%bool
  then throw (new_Error (js_or (message response) (JStr fallback)))
  else ret tt.

(** Object literals. *)
Fixpoint set_prop (k : string) (v : JSValue) (props : list (string * JSValue))
  : list (string * JSValue) :=
  match props with
  | [] => [(k, v)]
  | (k', v') :: rest =>
      if String.eqb k k' then (k, v) :: rest else (k', v') :: set_prop k v rest
  end.

(** [{ ...base, ...over }] *)
Definition spread (base over : list (string * JSValue))
  : list (string * JSValue) :=
  fold_left (fun ps kv => set_prop (fst kv) (snd kv) ps) over base.

(** An optional argument that was not given is [undefined]. *)
Definition optional {A} (inj : A -> JSValue) (o : option A) : JSValue :=
  match o with
  | Some a => inj a
  | None => JUndefined
  end.

(** [x ? { k: x } : undefined] and [if (x) params.k = x]. *)
Definition when_truthy (k : string) (v : JSValue) : list (string * JSValue) :=
  if truthy v then [(k, v)] else [].

(** [ToIntegerOrInfinity], as [Array.prototype.slice] applies it. *)
Inductive IntegerOrInfinity : Type :=
| MinusInfinity
| Integer (z : Z)
| PlusInfinity.

Definition ToIntegerOrInfinity (n : number) : IntegerOrInfinity :=
  match Prim2SF n with
  | S754_nan | S754_zero _ => Integer 0
  | S754_infinity s => if s then MinusInfinity else PlusInfinity
  | S754_finite s m e =>
      let magnitude :=
        if 0 <=? e then Z.pos m * 2 ^ e else Z.pos m / 2 ^ (- e) in
      Integer (if s then - magnitude else magnitude)
  end.

(** [l.slice(0, stop)] *)
Definition slice0 {A} (l : list A) (stop : number) : list A :=
  let len := Z.of_nat (List.length l) in
  let final :=
    match ToIntegerOrInfinity stop with
    | MinusInfinity => 0
    | Integer z => if z <? 0 then Z.max (len + z) 0 else Z.min z len
    | PlusInfinity => len
    end in
  firstn (Z.to_nat final) l.

(** A [fetch] made by a service itself, with no abort signal. *)
Definition fetch_direct (rq : Request) : M Response :=
  fun w =>
    match outcome (server w (map fst (traffic w)) rq) with
    | Rejects e => (Throw e, w)
    | Responds st body => (Ok {| r_status := st; r_json := body |}, w)
    end.

(** [`Bearer ${(window as any).__clerkToken || ''}`] *)
Definition bearer : M string :=
  token <- current_token ;; ret ("Bearer " ++ token).

End ServiceCommon.
Export ServiceCommon.

(** ** [cart.service.ts] *)
Module CartService.

Record AddToCartRequest := {
  productId : string;
  quantity : number;
  size : string;
  color : string
}.

Definition AddToCartRequest_json (item : AddToCartRequest) : JSValue :=
  JObj [("productId", JStr (productId item));
        ("quantity", JNum (quantity item));
        ("size", JStr (size item));
        ("color", JStr (color item))].

Section WithViews.
Context {V : Views}.

Definition getCart : M Cart :=
  response <- Client.get API_ENDPOINTS.CART None ;;
  data_or_throw response "Failed to fetch cart".

Definition addToCart (item : AddToCartRequest) : M Cart :=
  response <- Client.post API_ENDPOINTS.CART (AddToCartRequest_json item) ;;
  data_or_throw response "Failed to add item to cart".

Definition updateCartItem (itemId : string) (quantity : number) : M Cart :=
  response <- Client.patch (API_ENDPOINTS.CART_ITEM itemId)
                (JObj [("quantity", JNum quantity)]) ;;
  data_or_throw response "Failed to update cart item".

Definition removeFromCart (itemId : string) : M Cart :=
  response <- Client.delete (API_ENDPOINTS.CART_ITEM itemId) ;;
  data_or_throw response "Failed to remove item from cart".

Definition clearCart : M unit :=
  response <- Client.delete API_ENDPOINTS.CART ;;
  done_or_throw response "Failed to clear cart".

Definition getCartItemCount : M number :=
  cart <- getCart ;;
  ret (fold_left (fun total item => (total + ci_quantity item)%float)
         (cart_items cart) 0%float).

(** [size] and [color] are optional strings: [!size] holds for an
    absent and for an empty one. *)
Definition unset (o : option string) : bool :=
  match o with
  | Some s => String.eqb s ""
  | None => true
  end.

Definition same (o : option string) (s : string) : bool :=
  match o with
  | Some s' => String.eqb s s'
  | None => false
  end.

Definition isProductInCart (productId : string) (size color : option string)
  : M bool :=
  cart <- getCart ;;
  ret (existsb
         (fun item =>
            String.eqb (ci_productId item) productId
            && (unset size || same size (ci_size item))
            && (unset color || same color (ci_color item)))%bool
         (cart_items cart)).

Definition getCartItem (productId size color : string) : M (option CartItem) :=
  cart <- getCart ;;
  ret (find
         (fun item =>
            String.eqb (ci_productId item) productId
            && String.eqb (ci_size item) size
            && String.eqb (ci_color item) color)%bool
         (cart_items cart)).

Definition applyPromoCode (promoCode : string) : M Cart :=
  response <- Client.post (API_ENDPOINTS.CART ++ "/promo")
                (JObj [("promoCode", JStr promoCode)]) ;;
  data_or_throw response "Failed to apply promo code".

Definition removePromoCode : M Cart :=
  response <- Client.delete (API_ENDPOINTS.CART ++ "/promo") ;;
  data_or_throw response "Failed to remove promo code".

Definition calculateShipping (addressId : option string) : M JSValue :=
  let params :=
    match addressId with
    | Some a => if String.eqb a "" then None else Some [("addressId", JStr a)]
    | None => None
    end in
  response <- Client.get (API_ENDPOINTS.CART ++ "/shipping") params ;;
  data_or_throw response "Failed to calculate shipping".

Definition mergeCart (guestCartItems : list AddToCartRequest) : M Cart :=
  response <- Client.post (API_ENDPOINTS.CART ++ "/merge")
                (JObj [("items", JArr (map AddToCartRequest_json guestCartItems))]) ;;
  data_or_throw response "Failed to merge cart".

End WithViews.
End CartService.

(** ** [user.service.ts] *)
Module UserService.
Section WithViews.
Context {V : Views}.

Definition getWishlist : M Wishlist :=
  response <- Client.get API_ENDPOINTS.WISHLIST None ;;
  data_or_throw response "Failed to fetch wishlist".

Definition addToWishlist (productId : string) : M Wishlist :=
  response <- Client.post API_ENDPOINTS.WISHLIST
                (JObj [("productId", JStr productId)]) ;;
  data_or_throw response "Failed to add to wishlist".

Definition removeFromWishlist (productId : string) : M Wishlist :=
  response <- Client.delete (API_ENDPOINTS.WISHLIST_ITEM productId) ;;
  data_or_throw response "Failed to remove from wishlist".

Definition isProductInWishlist (productId : string) : M bool :=
  try_catch
    (wishlist <- getWishlist ;;
     ret (existsb (fun item => String.eqb (wi_productId item) productId)
            (wl_items wishlist)))
    (fun error => ret false).

Definition moveToCart (productId size color : string) : M unit :=
  response <- Client.post (API_ENDPOINTS.WISHLIST_ITEM productId ++ "/move-to-cart")
                (JObj [("size", JStr size); ("color", JStr color)]) ;;
  done_or_throw response "Failed to move to cart".

Definition getProfile : M UserProfile :=
  response <- Client.get API_ENDPOINTS.USER_PROFILE None ;;
  data_or_throw response "Failed to fetch profile".

(** [data] is the object the caller built, as its own properties in
    order. *)
Definition updateProfile (data : list (string * JSValue)) : M UserProfile :=
  response <-
    (if truthy (assoc "avatar" data) then
       let formData :=
         (map (fun kv => (fst kv, FormText (snd kv)))
            (filter
               (fun kv =>
                  negb (String.eqb (fst kv) "avatar")
                  && negb (match snd kv with JUndefined => true | _ => false end))%bool
               data)
          ++ [("avatar", FormFile (assoc "avatar" data))])%list in
       Client.upload (API_ENDPOINTS.USER_PROFILE ++ "/avatar") formData
     else
       Client.patch API_ENDPOINTS.USER_PROFILE (JObj data)) ;;
  data_or_throw response "Failed to update profile".

Definition changePassword (currentPassword newPassword : string) : M unit :=
  response <- Client.post (API_ENDPOINTS.USER_PROFILE ++ "/change-password")
                (JObj [("currentPassword", JStr currentPassword);
                       ("newPassword", JStr newPassword)]) ;;
  done_or_throw response "Failed to change password".

(** [apiClient.delete] takes the endpoint only: the second argument the
    source passes is dropped. *)
Definition deleteAccount (password : string) : M unit :=
  response <- Client.delete API_ENDPOINTS.USER_PROFILE ;;
  done_or_throw response "Failed to delete account".

(** Defaults of the source: [page = 1], [limit = 20],
    [unreadOnly = false]. *)
Definition getNotifications (page limit : number) (unreadOnly : bool)
  : M NotificationPage :=
  let params := [("page", JNum page); ("limit", JNum limit);
                 ("unreadOnly", JBool unreadOnly)] in
  response <- Client.get API_ENDPOINTS.USER_NOTIFICATIONS (Some params) ;;
  data_or_throw response "Failed to fetch notifications".

Definition markNotificationRead (id : string) : M unit :=
  response <- Client.post (API_ENDPOINTS.MARK_NOTIFICATION_READ id) JUndefined ;;
  done_or_throw response "Failed to mark notification as read".

Definition markAllNotificationsRead : M unit :=
  response <- Client.post (API_ENDPOINTS.USER_NOTIFICATIONS ++ "/mark-all-read")
                JUndefined ;;
  done_or_throw response "Failed to mark all notifications as read".

Definition deleteNotification (id : string) : M unit :=
  response <- Client.delete (API_ENDPOINTS.USER_NOTIFICATIONS ++ "/" ++ id) ;;
  done_or_throw response "Failed to delete notification".

Definition getNotificationPreferences : M JSValue :=
  response <- Client.get (API_ENDPOINTS.USER_PROFILE ++ "/notification-preferences")
                None ;;
  data_or_throw response "Failed to fetch notification preferences".

Definition updateNotificationPreferences (preferences : JSValue) : M JSValue :=
  response <- Client.patch
                (API_ENDPOINTS.USER_PROFILE ++ "/notification-preferences")
                preferences ;;
  data_or_throw response "Failed to update notification preferences".

Definition getUserStats : M JSValue :=
  response <- Client.get (API_ENDPOINTS.USER_PROFILE ++ "/stats") None ;;
  data_or_throw response "Failed to fetch user statistics".

End WithViews.
End UserService.

(** ** [order.service.ts] *)
Module OrderService.
Section WithViews.
Context {V : Views}.

Definition createOrder (orderData : JSValue) : M Order :=
  response <- Client.post API_ENDPOINTS.ORDERS orderData ;;
  data_or_throw response "Failed to create order".

(** Defaults of the source: [page = 1], [limit = 10]. *)
Definition getOrders (page limit : number) (status : option string)
  : M OrderListResponse :=
  let params := ([("page", JNum page); ("limit", JNum limit)]
                 ++ when_truthy "status" (optional JStr status))%list in
  response <- Client.get API_ENDPOINTS.ORDERS (Some params) ;;
  data_or_throw response "Failed to fetch orders".

Definition getOrderById (id : string) : M Order :=
  response <- Client.get (API_ENDPOINTS.ORDER_BY_ID id) None ;;
  data_or_throw response "Failed to fetch order".

Definition trackOrder (id : string) : M JSValue :=
  response <- Client.get (API_ENDPOINTS.TRACK_ORDER id) None ;;
  data_or_throw response "Failed to track order".

Definition cancelOrder (id : string) (reason : option string) : M Order :=
  response <- Client.post (API_ENDPOINTS.CANCEL_ORDER id)
                (JObj [("reason", optional JStr reason)]) ;;
  data_or_throw response "Failed to cancel order".

Definition requestRefund (id : string) (items : list string) (reason : string)
  : M Order :=
  response <- Client.post (API_ENDPOINTS.ORDER_BY_ID id ++ "/refund")
                (JObj [("items", JArr (map JStr items));
                       ("reason", JStr reason)]) ;;
  data_or_throw response "Failed to request refund".

Definition getOrderStats : M JSValue :=
  response <- Client.get (API_ENDPOINTS.ORDERS ++ "/stats") None ;;
  data_or_throw response "Failed to fetch order statistics".

Definition reorderItems (orderId : string) : M unit :=
  response <- Client.post (API_ENDPOINTS.ORDER_BY_ID orderId ++ "/reorder")
                JUndefined ;;
  done_or_throw response "Failed to reorder items".

(** Resolves with [response.blob()]: the response stands for it. *)
Definition downloadInvoice (orderId : string) : M Response :=
  authorization <- bearer ;;
  base <- gets (fun w => baseURL (apiClient w)) ;;
  response <- fetch_direct
                {| rq_base := base;
                   rq_target := Path (API_ENDPOINTS.ORDER_BY_ID orderId ++ "/invoice");
                   rq_method := Some "GET";
                   rq_headers := [("Authorization", authorization)];
                   rq_body := NoBody |} ;;
  if negb (ok response) then throw (new_Error (JStr "Failed to download invoice"))
  else ret response.

Definition updateShippingAddress (orderId addressId : string) : M Order :=
  response <- Client.patch (API_ENDPOINTS.ORDER_BY_ID orderId)
                (JObj [("shippingAddressId", JStr addressId)]) ;;
  data_or_throw response "Failed to update shipping address".

Definition addOrderNote (orderId note : string) : M Order :=
  response <- Client.post (API_ENDPOINTS.ORDER_BY_ID orderId ++ "/notes")
                (JObj [("note", JStr note)]) ;;
  data_or_throw response "Failed to add order note".

End WithViews.
End OrderService.

(** ** [address.service.ts] *)
Module AddressService.
Section WithViews.
Context {V : Views}.

Definition getAddresses : M (list Address) :=
  response <- Client.get API_ENDPOINTS.ADDRESSES None ;;
  data_or_throw response "Failed to fetch addresses".

Definition createAddress (address : JSValue) : M Address :=
  response <- Client.post API_ENDPOINTS.ADDRESSES address ;;
  data_or_throw response "Failed to create address".

Definition updateAddress (id : string) (address : JSValue) : M Address :=
  response <- Client.patch (API_ENDPOINTS.ADDRESS_BY_ID id) address ;;
  data_or_throw response "Failed to update address".

Definition deleteAddress (id : string) : M unit :=
  response <- Client.delete (API_ENDPOINTS.ADDRESS_BY_ID id) ;;
  done_or_throw response "Failed to delete address".

Definition setDefaultAddress (id : string) : M (list Address) :=
  response <- Client.post (API_ENDPOINTS.SET_DEFAULT_ADDRESS id) JUndefined ;;
  data_or_throw response "Failed to set default address".

(** [getAddressById], with what its caller reads the payload as: the
    declared [Address], or the payload itself where the caller goes on to
    read its properties. *)
Definition getAddressById_as {T} `{View T} (id : string) : M T :=
  response <- Client.get (API_ENDPOINTS.ADDRESS_BY_ID id) None ;;
  data_or_throw response "Failed to fetch address".

Definition getAddressById (id : string) : M Address := getAddressById_as id.

Definition validateAddress (address : JSValue) : M JSValue :=
  response <- Client.post (API_ENDPOINTS.ADDRESSES ++ "/validate") address ;;
  data_or_throw response "Failed to validate address".

Definition getAddressSuggestions (query : string) : M (list Address) :=
  response <- Client.get (API_ENDPOINTS.ADDRESSES ++ "/suggestions")
                (Some [("q", JStr query)]) ;;
  data_or_throw response "Failed to get address suggestions".

Definition getCountries : M JSValue :=
  response <- Client.get (API_ENDPOINTS.ADDRESSES ++ "/countries") None ;;
  data_or_throw response "Failed to fetch countries".

Definition getStates (countryCode : string) : M JSValue :=
  response <- Client.get (API_ENDPOINTS.ADDRESSES ++ "/states")
                (Some [("country", JStr countryCode)]) ;;
  data_or_throw response "Failed to fetch states".

Definition getCities (countryCode stateCode : string) : M JSValue :=
  response <- Client.get (API_ENDPOINTS.ADDRESSES ++ "/cities")
                (Some [("country", JStr countryCode); ("state", JStr stateCode)]) ;;
  data_or_throw response "Failed to fetch cities".

Definition calculateShippingCost (addressId : string) (cartValue : option number)
  : M JSValue :=
  let params := ([("addressId", JStr addressId)]
                 ++ when_truthy "cartValue" (optional JNum cartValue))%list in
  response <- Client.get (API_ENDPOINTS.ADDRESSES ++ "/shipping-cost")
                (Some params) ;;
  data_or_throw response "Failed to calculate shipping cost".

Definition checkServiceability (address : JSValue) : M JSValue :=
  response <- Client.post (API_ENDPOINTS.ADDRESSES ++ "/check-serviceability")
                address ;;
  data_or_throw response "Failed to check serviceability".

Definition getDefaultAddress : M (option Address) :=
  addresses <- getAddresses ;;
  ret (find a_isDefault addresses).

(** [modifications] is the object given, as its own properties
    ([[]] when the argument is left out).  The original is the payload as
    it came: a property it lacks is copied as [undefined] (and left out
    of the JSON text of the body), whatever the interface declares. *)
Definition duplicateAddress (id : string) (modifications : list (string * JSValue))
  : M Address :=
  originalAddress <- getAddressById_as (T:=JSValue) id ;;
  let duplicatedAddress :=
    spread
      [("fullName", prop "fullName" originalAddress);
       ("addressLine1", prop "addressLine1" originalAddress);
       ("addressLine2", prop "addressLine2" originalAddress);
       ("city", prop "city" originalAddress);
       ("state", prop "state" originalAddress);
       ("postalCode", prop "postalCode" originalAddress);
       ("country", prop "country" originalAddress);
       ("phoneNumber", prop "phoneNumber" originalAddress);
       ("isDefault", JBool false)]
      modifications in
  createAddress (JObj duplicatedAddress).

End WithViews.
End AddressService.

(** ** [return.service.ts] *)
Module ReturnService.
Section WithViews.
Context {V : Views}.

(** [returnData] is the object given, as its own properties in order;
    [images], when present, is an array of files. *)
Definition createReturn (returnData : list (string * JSValue)) : M Return :=
  response <-
    match assoc "images" returnData with
    | JArr (image :: images) =>
        let formData :=
          (map (fun kv =>
                  (fst kv,
                   if String.eqb (fst kv) "items" then FormJson (snd kv)
                   else FormText (snd kv)))
             (filter
                (fun kv =>
                   negb (String.eqb (fst kv) "images")
                   && negb (match snd kv with JUndefined => true | _ => false end))%bool
                returnData)
           ++ map (fun f => ("images", FormFile f)) (image :: images))%list in
        Client.upload (API_ENDPOINTS.RETURNS ++ "/create") formData
    | _ => Client.post API_ENDPOINTS.RETURNS (JObj returnData)
    end ;;
  data_or_throw response "Failed to create return request".

(** Defaults of the source: [page = 1], [limit = 10]. *)
Definition getReturns (page limit : number) (status : option string)
  : M ReturnListResponse :=
  let params := ([("page", JNum page); ("limit", JNum limit)]
                 ++ when_truthy "status" (optional JStr status))%list in
  response <- Client.get API_ENDPOINTS.RETURNS (Some params) ;;
  data_or_throw response "Failed to fetch returns".

Definition getReturnById (id : string) : M Return :=
  response <- Client.get (API_ENDPOINTS.RETURN_BY_ID id) None ;;
  data_or_throw response "Failed to fetch return".

Definition updateReturn (id : string) (d : JSValue) : M Return :=
  response <- Client.patch (API_ENDPOINTS.RETURN_BY_ID id) d ;;
  data_or_throw response "Failed to update return".

Definition cancelReturn (id : string) (reason : option string) : M Return :=
  response <- Client.post (API_ENDPOINTS.RETURN_BY_ID id ++ "/cancel")
                (JObj [("reason", optional JStr reason)]) ;;
  data_or_throw response "Failed to cancel return".

Definition getReturnPolicy : M JSValue :=
  response <- Client.get (API_ENDPOINTS.RETURNS ++ "/policy") None ;;
  data_or_throw response "Failed to fetch return policy".

Definition getReturnLabel (returnId : string) : M JSValue :=
  response <- Client.get (API_ENDPOINTS.RETURN_BY_ID returnId ++ "/label") None ;;
  data_or_throw response "Failed to fetch return label".

(** Resolves with [response.blob()]: the response stands for it. *)
Definition downloadReturnLabel (returnId : string) : M Response :=
  authorization <- bearer ;;
  base <- gets (fun w => baseURL (apiClient w)) ;;
  response <- fetch_direct
                {| rq_base := base;
                   rq_target :=
                     Path (API_ENDPOINTS.RETURN_BY_ID returnId ++ "/label/download");
                   rq_method := Some "GET";
                   rq_headers := [("Authorization", authorization)];
                   rq_body := NoBody |} ;;
  if negb (ok response)
  then throw (new_Error (JStr "Failed to download return label"))
  else ret response.

Definition trackReturn (returnId : string) : M JSValue :=
  response <- Client.get (API_ENDPOINTS.RETURN_BY_ID returnId ++ "/track") None ;;
  data_or_throw response "Failed to track return".

Definition addReturnNote (returnId note : string) : M Return :=
  response <- Client.post (API_ENDPOINTS.RETURN_BY_ID returnId ++ "/notes")
                (JObj [("note", JStr note)]) ;;
  data_or_throw response "Failed to add return note".

Definition checkReturnEligibility (orderId : string) : M JSValue :=
  response <- Client.get (API_ENDPOINTS.RETURNS ++ "/check-eligibility")
                (Some [("orderId", JStr orderId)]) ;;
  data_or_throw response "Failed to check return eligibility".

Definition getReturnStats : M JSValue :=
  response <- Client.get (API_ENDPOINTS.RETURNS ++ "/stats") None ;;
  data_or_throw response "Failed to fetch return statistics".

Definition getReturnReasons : M JSValue :=
  response <- Client.get (API_ENDPOINTS.RETURNS ++ "/reasons") None ;;
  data_or_throw response "Failed to fetch return reasons".

End WithViews.
End ReturnService.

(** ** [product.service.ts] *)
Module ProductService.
Section WithViews.
Context {V : Views}.

Definition getProducts (filters : option (list (string * JSValue)))
  : M ProductSearchResponse :=
  response <- Client.get API_ENDPOINTS.PRODUCTS filters ;;
  data_or_throw response "Failed to fetch products".

Definition getProductById (id : string) : M Product :=
  response <- Client.get (API_ENDPOINTS.PRODUCT_BY_ID id) None ;;
  data_or_throw response "Failed to fetch product".

Definition own (o : option (list (string * JSValue))) : list (string * JSValue) :=
  match o with
  | Some ps => ps
  | None => []
  end.

Definition searchProducts (query : string)
  (filters : option (list (string * JSValue))) : M ProductSearchResponse :=
  let searchParams := spread [("q", JStr query)] (own filters) in
  response <- Client.get API_ENDPOINTS.SEARCH_PRODUCTS (Some searchParams) ;;
  data_or_throw response "Failed to search products".

Definition getCategories : M JSValue :=
  response <- Client.get API_ENDPOINTS.CATEGORIES None ;;
  data_or_throw response "Failed to fetch categories".

Definition limit_params (limit : option number)
  : option (list (string * JSValue)) :=
  match limit with
  | Some l => if truthy (JNum l) then Some [("limit", JNum l)] else None
  | None => None
  end.

Definition getFeaturedProducts (limit : option number) : M JSValue :=
  response <- Client.get API_ENDPOINTS.FEATURED_PRODUCTS (limit_params limit) ;;
  data_or_throw response "Failed to fetch featured products".

Definition getBestsellers (limit : option number) : M JSValue :=
  response <- Client.get API_ENDPOINTS.BESTSELLERS (limit_params limit) ;;
  data_or_throw response "Failed to fetch bestsellers".

Definition getProductsByCategory (category : string)
  (filters : option (list (string * JSValue))) : M ProductSearchResponse :=
  getProducts (Some (set_prop "category" (JStr category) (own filters))).

Definition getProductsByBrand (brand : string)
  (filters : option (list (string * JSValue))) : M ProductSearchResponse :=
  getProducts (Some (set_prop "brand" (JStr brand) (own filters))).

(** Default of the source: [limit = 4]. *)
Definition getRelatedProducts (productId : string) (limit : number)
  : M (list Product) :=
  product <- getProductById productId ;;
  response <- getProducts
                (Some [("category", JStr (p_category product));
                       ("limit", JNum (limit + 1)%float)]) ;;
  ret (slice0
         (filter (fun p => negb (String.eqb (p_id p) productId))
            (ps_products response))
         limit).

End WithViews.
End ProductService.

(** ** The methods of the six services, as one type

    A call of a service method with its arguments; [perform] makes the
    call and drops what it resolves with. *)
Module Services.

Definition params := option (list (string * JSValue)).

Inductive ServiceCall : Type :=
(* CartService *)
| Cart_getCart
| Cart_addToCart (item : CartService.AddToCartRequest)
| Cart_updateCartItem (itemId : string) (quantity : number)
| Cart_removeFromCart (itemId : string)
| Cart_clearCart
| Cart_getCartItemCount
| Cart_isProductInCart (productId : string) (size color : option string)
| Cart_getCartItem (productId size color : string)
| Cart_applyPromoCode (promoCode : string)
| Cart_removePromoCode
| Cart_calculateShipping (addressId : option string)
| Cart_mergeCart (guestCartItems : list CartService.AddToCartRequest)
(* UserService *)
| User_getWishlist
| User_addToWishlist (productId : string)
| User_removeFromWishlist (productId : string)
| User_isProductInWishlist (productId : string)
| User_moveToCart (productId size color : string)
| User_getProfile
| User_updateProfile (d : list (string * JSValue))
| User_changePassword (currentPassword newPassword : string)
| User_deleteAccount (password : string)
| User_getNotifications (page limit : number) (unreadOnly : bool)
| User_markNotificationRead (id : string)
| User_markAllNotificationsRead
| User_deleteNotification (id : string)
| User_getNotificationPreferences
| User_updateNotificationPreferences (preferences : JSValue)
| User_getUserStats
(* OrderService *)
| Order_createOrder (orderData : JSValue)
| Order_getOrders (page limit : number) (status : option string)
| Order_getOrderById (id : string)
| Order_trackOrder (id : string)
| Order_cancelOrder (id : string) (reason : option string)
| Order_requestRefund (id : string) (items : list string) (reason : string)
| Order_getOrderStats
| Order_reorderItems (orderId : string)
| Order_downloadInvoice (orderId : string)
| Order_updateShippingAddress (orderId addressId : string)
| Order_addOrderNote (orderId note : string)
(* AddressService *)
| Address_getAddresses
| Address_createAddress (address : JSValue)
| Address_updateAddress (id : string) (address : JSValue)
| Address_deleteAddress (id : string)
| Address_setDefaultAddress (id : string)
| Address_getAddressById (id : string)
| Address_validateAddress (address : JSValue)
| Address_getAddressSuggestions (query : string)
| Address_getCountries
| Address_getStates (countryCode : string)
| Address_getCities (countryCode stateCode : string)
| Address_calculateShippingCost (addressId : string) (cartValue : option number)
| Address_checkServiceability (address : JSValue)
| Address_getDefaultAddress
| Address_duplicateAddress (id : string) (modifications : list (string * JSValue))
(* ReturnService *)
| Return_createReturn (returnData : list (string * JSValue))
| Return_getReturns (page limit : number) (status : option string)
| Return_getReturnById (id : string)
| Return_updateReturn (id : string) (d : JSValue)
| Return_cancelReturn (id : string) (reason : option string)
| Return_getReturnPolicy
| Return_getReturnLabel (returnId : string)
| Return_downloadReturnLabel (returnId : string)
| Return_trackReturn (returnId : string)
| Return_addReturnNote (returnId note : string)
| Return_checkReturnEligibility (orderId : string)
| Return_getReturnStats
| Return_getReturnReasons
(* ProductService *)
| Product_getProducts (filters : params)
| Product_getProductById (id : string)
| Product_searchProducts (query : string) (filters : params)
| Product_getCategories
| Product_getFeaturedProducts (limit : option number)
| Product_getBestsellers (limit : option number)
| Product_getProductsByCategory (category : string) (filters : params)
| Product_getProductsByBrand (brand : string) (filters : params)
| Product_getRelatedProducts (productId : string) (limit : number).

Definition void {A} (m : M A) : M unit := bind m (fun _ => ret tt).

Definition perform {V : Views} (c : ServiceCall) : M unit :=
  match c with
  | Cart_getCart => void CartService.getCart
  | Cart_addToCart item => void (CartService.addToCart item)
  | Cart_updateCartItem itemId quantity =>
      void (CartService.updateCartItem itemId quantity)
  | Cart_removeFromCart itemId => void (CartService.removeFromCart itemId)
  | Cart_clearCart => CartService.clearCart
  | Cart_getCartItemCount => void CartService.getCartItemCount
  | Cart_isProductInCart productId size color =>
      void (CartService.isProductInCart productId size color)
  | Cart_getCartItem productId size color =>
      void (CartService.getCartItem productId size color)
  | Cart_applyPromoCode promoCode => void (CartService.applyPromoCode promoCode)
  | Cart_removePromoCode => void CartService.removePromoCode
  | Cart_calculateShipping addressId =>
      void (CartService.calculateShipping addressId)
  | Cart_mergeCart guestCartItems => void (CartService.mergeCart guestCartItems)
  | User_getWishlist => void UserService.getWishlist
  | User_addToWishlist productId => void (UserService.addToWishlist productId)
  | User_removeFromWishlist productId =>
      void (UserService.removeFromWishlist productId)
  | User_isProductInWishlist productId =>
      void (UserService.isProductInWishlist productId)
  | User_moveToCart productId size color =>
      UserService.moveToCart productId size color
  | User_getProfile => void UserService.getProfile
  | User_updateProfile d => void (UserService.updateProfile d)
  | User_changePassword currentPassword newPassword =>
      UserService.changePassword currentPassword newPassword
  | User_deleteAccount password => UserService.deleteAccount password
  | User_getNotifications page limit unreadOnly =>
      void (UserService.getNotifications page limit unreadOnly)
  | User_markNotificationRead id => UserService.markNotificationRead id
  | User_markAllNotificationsRead => UserService.markAllNotificationsRead
  | User_deleteNotification id => UserService.deleteNotification id
  | User_getNotificationPreferences =>
      void UserService.getNotificationPreferences
  | User_updateNotificationPreferences preferences =>
      void (UserService.updateNotificationPreferences preferences)
  | User_getUserStats => void UserService.getUserStats
  | Order_createOrder orderData => void (OrderService.createOrder orderData)
  | Order_getOrders page limit status =>
      void (OrderService.getOrders page limit status)
  | Order_getOrderById id => void (OrderService.getOrderById id)
  | Order_trackOrder id => void (OrderService.trackOrder id)
  | Order_cancelOrder id reason => void (OrderService.cancelOrder id reason)
  | Order_requestRefund id items reason =>
      void (OrderService.requestRefund id items reason)
  | Order_getOrderStats => void OrderService.getOrderStats
  | Order_reorderItems orderId => OrderService.reorderItems orderId
  | Order_downloadInvoice orderId => void (OrderService.downloadInvoice orderId)
  | Order_updateShippingAddress orderId addressId =>
      void (OrderService.updateShippingAddress orderId addressId)
  | Order_addOrderNote orderId note =>
      void (OrderService.addOrderNote orderId note)
  | Address_getAddresses => void AddressService.getAddresses
  | Address_createAddress address => void (AddressService.createAddress address)
  | Address_updateAddress id address =>
      void (AddressService.updateAddress id address)
  | Address_deleteAddress id => AddressService.deleteAddress id
  | Address_setDefaultAddress id => void (AddressService.setDefaultAddress id)
  | Address_getAddressById id => void (AddressService.getAddressById id)
  | Address_validateAddress address =>
      void (AddressService.validateAddress address)
  | Address_getAddressSuggestions query =>
      void (AddressService.getAddressSuggestions query)
  | Address_getCountries => void AddressService.getCountries
  | Address_getStates countryCode => void (AddressService.getStates countryCode)
  | Address_getCities countryCode stateCode =>
      void (AddressService.getCities countryCode stateCode)
  | Address_calculateShippingCost addressId cartValue =>
      void (AddressService.calculateShippingCost addressId cartValue)
  | Address_checkServiceability address =>
      void (AddressService.checkServiceability address)
  | Address_getDefaultAddress => void AddressService.getDefaultAddress
  | Address_duplicateAddress id modifications =>
      void (AddressService.duplicateAddress id modifications)
  | Return_createReturn returnData => void (ReturnService.createReturn returnData)
  | Return_getReturns page limit status =>
      void (ReturnService.getReturns page limit status)
  | Return_getReturnById id => void (ReturnService.getReturnById id)
  | Return_updateReturn id d => void (ReturnService.updateReturn id d)
  | Return_cancelReturn id reason => void (ReturnService.cancelReturn id reason)
  | Return_getReturnPolicy => void ReturnService.getReturnPolicy
  | Return_getReturnLabel returnId => void (ReturnService.getReturnLabel returnId)
  | Return_downloadReturnLabel returnId =>
      void (ReturnService.downloadReturnLabel returnId)
  | Return_trackReturn returnId => void (ReturnService.trackReturn returnId)
  | Return_addReturnNote returnId note =>
      void (ReturnService.addReturnNote returnId note)
  | Return_checkReturnEligibility orderId =>
      void (ReturnService.checkReturnEligibility orderId)
  | Return_getReturnStats => void ReturnService.getReturnStats
  | Return_getReturnReasons => void ReturnService.getReturnReasons
  | Product_getProducts filters => void (ProductService.getProducts filters)
  | Product_getProductById id => void (ProductService.getProductById id)
  | Product_searchProducts query filters =>
      void (ProductService.searchProducts query filters)
  | Product_getCategories => void ProductService.getCategories
  | Product_getFeaturedProducts limit =>
      void (ProductService.getFeaturedProducts limit)
  | Product_getBestsellers limit => void (ProductService.getBestsellers limit)
  | Product_getProductsByCategory category filters =>
      void (ProductService.getProductsByCategory category filters)
  | Product_getProductsByBrand brand filters =>
      void (ProductService.getProductsByBrand brand filters)
  | Product_getRelatedProducts productId limit =>
      void (ProductService.getRelatedProducts productId limit)
  end.

(** The fixed messages a method falls back to when the envelope brings
    none. *)
Definition defaults (c : ServiceCall) : list string :=
  match c with
  | Cart_getCart | Cart_getCartItemCount | Cart_isProductInCart _ _ _
  | Cart_getCartItem _ _ _ => ["Failed to fetch cart"]
  | Cart_addToCart _ => ["Failed to add item to cart"]
  | Cart_updateCartItem _ _ => ["Failed to update cart item"]
  | Cart_removeFromCart _ => ["Failed to remove item from cart"]
  | Cart_clearCart => ["Failed to clear cart"]
  | Cart_applyPromoCode _ => ["Failed to apply promo code"]
  | Cart_removePromoCode => ["Failed to remove promo code"]
  | Cart_calculateShipping _ => ["Failed to calculate shipping"]
  | Cart_mergeCart _ => ["Failed to merge cart"]
  | User_getWishlist | User_isProductInWishlist _ => ["Failed to fetch wishlist"]
  | User_addToWishlist _ => ["Failed to add to wishlist"]
  | User_removeFromWishlist _ => ["Failed to remove from wishlist"]
  | User_moveToCart _ _ _ => ["Failed to move to cart"]
  | User_getProfile => ["Failed to fetch profile"]
  | User_updateProfile _ => ["Failed to update profile"]
  | User_changePassword _ _ => ["Failed to change password"]
  | User_deleteAccount _ => ["Failed to delete account"]
  | User_getNotifications _ _ _ => ["Failed to fetch notifications"]
  | User_markNotificationRead _ => ["Failed to mark notification as read"]
  | User_markAllNotificationsRead =>
      ["Failed to mark all notifications as read"]
  | User_deleteNotification _ => ["Failed to delete notification"]
  | User_getNotificationPreferences =>
      ["Failed to fetch notification preferences"]
  | User_updateNotificationPreferences _ =>
      ["Failed to update notification preferences"]
  | User_getUserStats => ["Failed to fetch user statistics"]
  | Order_createOrder _ => ["Failed to create order"]
  | Order_getOrders _ _ _ => ["Failed to fetch orders"]
  | Order_getOrderById _ => ["Failed to fetch order"]
  | Order_trackOrder _ => ["Failed to track order"]
  | Order_cancelOrder _ _ => ["Failed to cancel order"]
  | Order_requestRefund _ _ _ => ["Failed to request refund"]
  | Order_getOrderStats => ["Failed to fetch order statistics"]
  | Order_reorderItems _ => ["Failed to reorder items"]
  | Order_downloadInvoice _ => []
  | Order_updateShippingAddress _ _ => ["Failed to update shipping address"]
  | Order_addOrderNote _ _ => ["Failed to add order note"]
  | Address_getAddresses | Address_getDefaultAddress =>
      ["Failed to fetch addresses"]
  | Address_createAddress _ => ["Failed to create address"]
  | Address_updateAddress _ _ => ["Failed to update address"]
  | Address_deleteAddress _ => ["Failed to delete address"]
  | Address_setDefaultAddress _ => ["Failed to set default address"]
  | Address_getAddressById _ => ["Failed to fetch address"]
  | Address_validateAddress _ => ["Failed to validate address"]
  | Address_getAddressSuggestions _ => ["Failed to get address suggestions"]
  | Address_getCountries => ["Failed to fetch countries"]
  | Address_getStates _ => ["Failed to fetch states"]
  | Address_getCities _ _ => ["Failed to fetch cities"]
  | Address_calculateShippingCost _ _ => ["Failed to calculate shipping cost"]
  | Address_checkServiceability _ => ["Failed to check serviceability"]
  | Address_duplicateAddress _ _ =>
      ["Failed to fetch address"; "Failed to create address"]
  | Return_createReturn _ => ["Failed to create return request"]
  | Return_getReturns _ _ _ => ["Failed to fetch returns"]
  | Return_getReturnById _ => ["Failed to fetch return"]
  | Return_updateReturn _ _ => ["Failed to update return"]
  | Return_cancelReturn _ _ => ["Failed to cancel return"]
  | Return_getReturnPolicy => ["Failed to fetch return policy"]
  | Return_getReturnLabel _ => ["Failed to fetch return label"]
  | Return_downloadReturnLabel _ => []
  | Return_trackReturn _ => ["Failed to track return"]
  | Return_addReturnNote _ _ => ["Failed to add return note"]
  | Return_checkReturnEligibility _ => ["Failed to check return eligibility"]
  | Return_getReturnStats => ["Failed to fetch return statistics"]
  | Return_getReturnReasons => ["Failed to fetch return reasons"]
  | Product_getProducts _ | Product_getProductsByCategory _ _
  | Product_getProductsByBrand _ _ => ["Failed to fetch products"]
  | Product_getProductById _ => ["Failed to fetch product"]
  | Product_searchProducts _ _ => ["Failed to search products"]
  | Product_getCategories => ["Failed to fetch categories"]
  | Product_getFeaturedProducts _ => ["Failed to fetch featured products"]
  | Product_getBestsellers _ => ["Failed to fetch bestsellers"]
  | Product_getRelatedProducts _ _ =>
      ["Failed to fetch product"; "Failed to fetch products"]
  end.

(** The one method that answers instead of rejecting. *)
Definition answers_on_failure (c : ServiceCall) : bool :=
  match c with
  | User_isProductInWishlist _ => true
  | _ => false
  end.

(** One call of the transport client: it resolves, the call is recorded,
    and an envelope without [data] never has status 200 or 204.  Or none:
    [get] throws the TypeError of a refused URL before anything is sent,
    and leaves the world as it was. *)
Definition Call (m : M Envelope) : Prop :=
  forall w,
    (exists rq env,
       m w = (Ok env, with_traffic (traffic w ++ [(rq, env)]) w)
       /\ (data env = None -> status env <> 200 /\ status env <> 204))
    \/ (exists endpoint text,
          refusal w endpoint = Some text
          /\ m w = (Throw (Invalid_URL text), w)).

(** A computation that rejects whenever one of the transport calls it
    makes resolves without [data]: with an [Error] carrying the
    envelope's message, or one of the fallbacks [ds] when that message is
    falsy. *)
Definition Rejecting (ds : list string) {A} (m : M A) : Prop :=
  forall w r w', m w = (r, w') ->
    exists calls,
      traffic w' = (traffic w ++ calls)%list
      /\ forall rq env, In (rq, env) calls -> data env = None ->
           exists d, In d ds
                     /\ r = Throw (new_Error (js_or (message env) (JStr d))).

End Services.
Import Services.

(* ===================================================================== *)
(** * [ShopContext.updated.tsx]: the [ShopProvider] *)
(* ===================================================================== *)

(** [toast] of [sonner] and [console.error]. *)
Module toast.
Definition show (t : Toast) : M unit :=
  modify (fun w => with_toasts (toasts w ++ [t]) w).
Definition success (text : string) : M unit := show (toast_success text).
Definition error (text : JSValue) : M unit := show (toast_error text).
End toast.

Definition console_error (label : string) (e : Exn) : M unit :=
  modify (fun w => with_console (console w ++ [(label, e)]) w).

(** The state setters of [useState].  [setX(value)] stores the value;
    [setX(prev => ...)] is applied to the cell as it then stands. *)
Module State.

Definition update (f : Store -> Store) : M unit :=
  modify (fun w => with_store (f (store w)) w).

Definition setCart (c : option Cart) : M unit :=
  update (fun s =>
    {| cart := c; wishlist := wishlist s; user := user s; orders := orders s;
       returns := returns s; notifications := notifications s;
       appliedPromo := appliedPromo s; loading := loading s; error := error s |}).

Definition setWishlist (x : option Wishlist) : M unit :=
  update (fun s =>
    {| cart := cart s; wishlist := x; user := user s; orders := orders s;
       returns := returns s; notifications := notifications s;
       appliedPromo := appliedPromo s; loading := loading s; error := error s |}).

Definition setUser_with (f : option User -> option User) : M unit :=
  update (fun s =>
    {| cart := cart s; wishlist := wishlist s; user := f (user s);
       orders := orders s; returns := returns s;
       notifications := notifications s; appliedPromo := appliedPromo s;
       loading := loading s; error := error s |}).

Definition setUser (x : option User) : M unit := setUser_with (fun _ => x).

Definition setOrders_with (f : list Order -> list Order) : M unit :=
  update (fun s =>
    {| cart := cart s; wishlist := wishlist s; user := user s;
       orders := f (orders s); returns := returns s;
       notifications := notifications s; appliedPromo := appliedPromo s;
       loading := loading s; error := error s |}).

Definition setOrders (x : list Order) : M unit := setOrders_with (fun _ => x).

Definition setReturns (x : list Return) : M unit :=
  update (fun s =>
    {| cart := cart s; wishlist := wishlist s; user := user s; orders := orders s;
       returns := x; notifications := notifications s;
       appliedPromo := appliedPromo s; loading := loading s; error := error s |}).

Definition setNotifications_with (f : list Notification -> list Notification)
  : M unit :=
  update (fun s =>
    {| cart := cart s; wishlist := wishlist s; user := user s; orders := orders s;
       returns := returns s; notifications := f (notifications s);
       appliedPromo := appliedPromo s; loading := loading s; error := error s |}).

Definition setNotifications (x : list Notification) : M unit :=
  setNotifications_with (fun _ => x).

Definition setAppliedPromo (x : option PromoCode) : M unit :=
  update (fun s =>
    {| cart := cart s; wishlist := wishlist s; user := user s; orders := orders s;
       returns := returns s; notifications := notifications s;
       appliedPromo := x; loading := loading s; error := error s |}).

Definition setLoading (x : bool) : M unit :=
  update (fun s =>
    {| cart := cart s; wishlist := wishlist s; user := user s; orders := orders s;
       returns := returns s; notifications := notifications s;
       appliedPromo := appliedPromo s; loading := x; error := error s |}).

Definition setError (x : option JSValue) : M unit :=
  update (fun s =>
    {| cart := cart s; wishlist := wishlist s; user := user s; orders := orders s;
       returns := returns s; notifications := notifications s;
       appliedPromo := appliedPromo s; loading := loading s; error := x |}).

(** The cells as [useState] initialises them. *)
Definition initial : Store :=
  {| cart := None; wishlist := None; user := None; orders := []; returns := [];
     notifications := []; appliedPromo := None; loading := false; error := None |}.

End State.

(** Text helpers of the platform, on ASCII text. *)
Module Text.

Definition is_space (c : Ascii.ascii) : bool :=
  let n := Ascii.nat_of_ascii c in
  ((Nat.leb 9 n && Nat.leb n 13) || Nat.eqb n 32)%bool.

Fixpoint trimStart (s : string) : string :=
  match s with
  | EmptyString => EmptyString
  | String c rest => if is_space c then trimStart rest else s
  end.

Fixpoint trimEnd (s : string) : string :=
  match s with
  | EmptyString => EmptyString
  | String c rest =>
      let rest' := trimEnd rest in
      if (is_space c && String.eqb rest' "")%bool then EmptyString
      else String c rest'
  end.

(** [s.trim()] *)
Definition trim (s : string) : string := trimEnd (trimStart s).

Definition lower (c : Ascii.ascii) : Ascii.ascii :=
  let n := Ascii.nat_of_ascii c in
  if (Nat.leb 65 n && Nat.leb n 90)%bool then Ascii.ascii_of_nat (n + 32) else c.

(** [s.toLowerCase()] *)
Fixpoint toLowerCase (s : string) : string :=
  match s with
  | EmptyString => EmptyString
  | String c rest => String (lower c) (toLowerCase rest)
  end.

End Text.

Module Shop.
Import State.

(** What [useAuth] and [useUser] of the auth provider hand to a render.
    [getToken], when there is one, is shown by what awaiting it gives. *)
Record Auth := {
  isSignedIn : bool;
  clerkUser : option JSValue;
  userId : option string;
  getToken : option (Completion (option string))
}.

(** Mock promo codes *)
Definition promoCodes : list PromoCode :=
  [ {| promo_code := "WELCOME10"; promo_discount := 10%float; promo_type := percentage |};
    {| promo_code := "SAVE20"; promo_discount := 20%float; promo_type := percentage |};
    {| promo_code := "FLAT50"; promo_discount := 50%float; promo_type := fixed |} ].

(** [await Promise.all([...])] over async functions: every one of them
    is called, in the order of the array, and runs to its end; the result
    rejects with the first rejection.  The calls are run here one after
    the other, each to its end: the requests leave in the order of the
    array either way, and the loads of this component write to cells of
    their own and never reject. *)
Fixpoint Promise_all (tasks : list (M unit)) : M unit :=
  match tasks with
  | [] => ret tt
  | task :: rest =>
      fun w =>
        match task w with
        | (Ok _, w1) => Promise_all rest w1
        | (Throw e, w1) =>
            match Promise_all rest w1 with
            | (_, w2) => (Throw e, w2)
            end
        end
  end.

Section WithViews.
Context {V : Views}.

(** Every function of the component closes over the cells as the render
    that created it saw them: the argument [seen].  Writes go to the
    store of the world. *)

(** ** Load functions *)

Definition loadCart : M unit :=
  try_catch
    (cartData <- CartService.getCart ;;
     setCart (Some cartData))
    (fun error => console_error "Error loading cart:" error).

Definition loadWishlist : M unit :=
  try_catch
    (wishlistData <- UserService.getWishlist ;;
     setWishlist (Some wishlistData))
    (fun error => console_error "Error loading wishlist:" error).

Definition loadOrders : M unit :=
  try_catch
    (ordersData <- OrderService.getOrders 1%float 50%float None ;;
     setOrders (ol_orders ordersData))
    (fun error => console_error "Error loading orders:" error).

Definition loadReturns : M unit :=
  try_catch
    (returnsData <- ReturnService.getReturns 1%float 50%float None ;;
     setReturns (rl_returns returnsData))
    (fun error => console_error "Error loading returns:" error).

Definition loadNotifications : M unit :=
  try_catch
    (notificationsData <- UserService.getNotifications 1%float 50%float false ;;
     setNotifications (np_notifications notificationsData))
    (fun error => console_error "Error loading notifications:" error).

Definition loadAddresses (seen : Store) : M unit :=
  try_catch
    (addresses <- AddressService.getAddresses ;;
     match user seen with
     | Some u =>
         setUser (Some {| u_id := u_id u; u_name := u_name u;
                          u_email := u_email u; u_phone := u_phone u;
                          u_addresses := addresses |})
     | None => ret tt
     end)
    (fun error => console_error "Error loading addresses:" error).

(** ** The two effects *)

(** [await m] while another task of the page is pending: [m] is started
    (a request it makes is built and leaves at once), the other task
    takes its turn, and [m]'s result is taken up afterwards. *)
Definition awaiting {A} (meanwhile : M unit) (m : M A) : M A :=
  fun w =>
    match m w with
    | (r, w1) => (r, snd (meanwhile w1))
    end.

(** What is left of [setupAuth] once [getToken()] has settled, with
    [awaited]: the rest of its [try] and its [catch]. *)
Definition setupAuth_resumed (awaited : Completion (option string)) : M unit :=
  try_catch
    (token <- (fun w => (awaited, w)) ;;
     match token with
     | Some t => if String.eqb t "" then ret tt else setAuthToken t
     | None => ret tt
     end)
    (fun error => console_error "Error getting auth token:" error).

(** The call [setupAuth()], up to its first [await]: what it does at
    once, and what is left of it.  Signed in and with [getToken], it
    stops at [await getToken()] having done nothing, and the rest runs
    when that settles; otherwise it clears the token at once and nothing
    is left. *)
Definition setupAuth (auth : Auth) : M (M unit) :=
  match isSignedIn auth, getToken auth with
  | true, Some awaited => ret (setupAuth_resumed awaited)
  | _, _ => clearAuthToken ;;; ret (ret tt)
  end.

(** [isSignedIn && clerkUser && userId] *)
Definition signed_in (auth : Auth) : bool :=
  (isSignedIn auth
   && match clerkUser auth with Some u => truthy u | None => false end
   && match userId auth with Some i => negb (String.eqb i "") | None => false end)%bool.

(** [syncUser], with what another pending task does while the profile is
    awaited: [meanwhile].  The profile request has left by then; the six
    loads are started together once the profile is there. *)
Definition syncUser_during (meanwhile : M unit) (seen : Store) (auth : Auth)
  : M unit :=
  if signed_in auth then
    try_finally
      (try_catch
         (setLoading true ;;;
          setError None ;;;
          userProfile <- awaiting meanwhile UserService.getProfile ;;
          let userData :=
            {| u_id := up_id userProfile;
               u_name := Text.trim (up_firstName userProfile ++ " "
                                    ++ up_lastName userProfile);
               u_email := up_email userProfile;
               u_phone := up_phoneNumber userProfile;
               u_addresses := [] |} in
          setUser (Some userData) ;;;
          Promise_all [loadCart; loadWishlist; loadOrders; loadReturns;
                       loadNotifications; loadAddresses seen])
         (fun err =>
            let errorMessage := message_or err "Failed to load user data" in
            setError (Some errorMessage) ;;;
            toast.error errorMessage))
      (setLoading false)
  else
    setUser None ;;;
    setCart None ;;;
    setWishlist None ;;;
    setOrders [] ;;;
    setReturns [] ;;;
    setNotifications [] ;;;
    setAppliedPromo None.

(** [syncUser] with nothing else pending, as when the token was set by
    an earlier render. *)
Definition syncUser (seen : Store) (auth : Auth) : M unit :=
  syncUser_during (ret tt) seen auth.

(** The two effects of one render, in the order of the source:
    [setupAuth()] is called first and runs up to its [await]; then
    [syncUser()] is called and runs until the profile request has left.
    What is left of [setupAuth] runs when [getToken()] settles: while the
    profile is awaited ([early]), or after [syncUser] has started its
    loads. *)
Definition effects (early : bool) (seen : Store) (auth : Auth) : M unit :=
  pending <- setupAuth auth ;;
  if early then syncUser_during pending seen auth
  else syncUser seen auth ;;; pending.

(** ** The mutation shape

    [try { setLoading(true); body } catch (error) { toast.error(...);
     throw error } finally { setLoading(false) }] *)
Definition guarded {A} (body : M A) (fallback : string) : M A :=
  try_finally
    (try_catch
       (setLoading true ;;; body)
       (fun error =>
          toast.error (message_or error fallback) ;;;
          throw error))
    (setLoading false).

(** ** Cart methods *)

Definition addToCart (productId size color : string) (quantity : number)
  : M unit :=
  guarded
    (CartService.addToCart
       {| CartService.productId := productId; CartService.quantity := quantity;
          CartService.size := size; CartService.color := color |} ;;;
     loadCart ;;;
     toast.success "Item added to cart")
    "Failed to add item to cart".

Definition removeFromCart (itemId : string) : M unit :=
  guarded
    (CartService.removeFromCart itemId ;;;
     loadCart ;;;
     toast.success "Item removed from cart")
    "Failed to remove item from cart".

Definition updateCartQuantity (itemId : string) (quantity : number) : M unit :=
  guarded
    (CartService.updateCartItem itemId quantity ;;;
     loadCart)
    "Failed to update cart".

Definition clearCart : M unit :=
  guarded
    (CartService.clearCart ;;;
     setCart None ;;;
     toast.success "Cart cleared")
    "Failed to clear cart".

Definition getTotalPrice (seen : Store) : number :=
  match cart seen with
  | None => 0%float
  | Some c =>
      let total := cart_total c in
      match appliedPromo seen with
      | Some promo =>
          match promo_type promo with
          | percentage => (total * (1 - promo_discount promo / 100))%float
          | fixed => Math_max 0%float (total - promo_discount promo)%float
          end
      | None => total
      end
  end.

Definition getTotalItems (seen : Store) : number :=
  match cart seen with
  | None => 0%float
  | Some c =>
      fold_left (fun total item => (total + ci_quantity item)%float)
        (cart_items c) 0%float
  end.

(** ** Wishlist methods *)

Definition toggleWishlist (productId : string) : M unit :=
  guarded
    (isInWishlist <- UserService.isProductInWishlist productId ;;
     (if isInWishlist : bool then
        UserService.removeFromWishlist productId ;;;
        toast.success "Item removed from wishlist"
      else
        UserService.addToWishlist productId ;;;
        toast.success "Item added to wishlist") ;;;
     loadWishlist)
    "Failed to update wishlist".

Definition isInWishlist (productId : string) : M bool :=
  try_catch
    (UserService.isProductInWishlist productId)
    (fun error => ret false).

(** ** User methods *)

(** [{ ...prev, ...updatedProfile }] read as a [User]: of the properties
    of the profile, [id] and [email] are the ones a [User] has. *)
Definition updateUser (d : list (string * JSValue)) : M unit :=
  guarded
    (updatedProfile <- UserService.updateProfile d ;;
     setUser_with
       (fun prev =>
          match prev with
          | Some u =>
              Some {| u_id := up_id updatedProfile; u_name := u_name u;
                      u_email := up_email updatedProfile; u_phone := u_phone u;
                      u_addresses := u_addresses u |}
          | None => None
          end) ;;;
     toast.success "Profile updated successfully")
    "Failed to update profile".

Definition logout : M unit := clearAuthToken.

(** ** Address methods *)

Definition addAddress (seen : Store) (address : JSValue) : M unit :=
  guarded
    (AddressService.createAddress address ;;;
     loadAddresses seen ;;;
     toast.success "Address added successfully")
    "Failed to add address".

Definition updateAddress (seen : Store) (id : string) (address : JSValue)
  : M unit :=
  guarded
    (AddressService.updateAddress id address ;;;
     loadAddresses seen ;;;
     toast.success "Address updated successfully")
    "Failed to update address".

Definition deleteAddress (seen : Store) (id : string) : M unit :=
  guarded
    (AddressService.deleteAddress id ;;;
     loadAddresses seen ;;;
     toast.success "Address deleted successfully")
    "Failed to delete address".

Definition setDefaultAddress (seen : Store) (id : string) : M unit :=
  guarded
    (AddressService.setDefaultAddress id ;;;
     loadAddresses seen ;;;
     toast.success "Default address updated")
    "Failed to set default address".

(** ** Order methods *)

Definition createOrder (seen : Store) (paymentMethod addressId : string)
  : M Order :=
  guarded
    (match cart seen with
     | None => throw (new_Error (JStr "Cart is empty"))
     | Some c =>
         let orderData :=
           JObj [("items",
                  JArr (map (fun item =>
                               JObj [("productId", JStr (ci_productId item));
                                     ("quantity", JNum (ci_quantity item));
                                     ("size", JStr (ci_size item));
                                     ("color", JStr (ci_color item))])
                          (cart_items c)));
                 ("shippingAddressId", JStr addressId);
                 ("paymentMethod", JStr paymentMethod)] in
         order <- OrderService.createOrder orderData ;;
         setOrders_with (fun prev => order :: prev) ;;;
         setCart None ;;;
         setAppliedPromo None ;;;
         toast.success "Order placed successfully!" ;;;
         ret order
     end)
    "Failed to create order".

Definition getOrder (orderId : string) : M (option Order) :=
  try_catch
    (order <- OrderService.getOrderById orderId ;; ret (Some order))
    (fun error =>
       toast.error (message_or error "Failed to fetch order") ;;;
       ret None).

Definition getOrders : M unit :=
  guarded
    (ordersData <- OrderService.getOrders 1%float 50%float None ;;
     setOrders (ol_orders ordersData))
    "Failed to fetch orders".

(** ** Return methods *)

Definition createReturnRequest (orderId : string) (items : list JSValue)
  (reason : string) : M unit :=
  guarded
    (ReturnService.createReturn
       [("orderId", JStr orderId);
        ("items", JArr items);
        ("returnReason", JStr reason);
        ("refundMethod", JStr "original-payment")] ;;;
     loadReturns ;;;
     toast.success "Return request submitted successfully")
    "Failed to create return request".

Definition getReturns : M unit :=
  guarded
    (returnsData <- ReturnService.getReturns 1%float 50%float None ;;
     setReturns (rl_returns returnsData))
    "Failed to fetch returns".

(** ** Notification methods *)

(** [{ ...notif, read: true }] *)
Definition mark_read (notif : Notification) : Notification :=
  {| n_id := n_id notif; n_type := n_type notif; n_title := n_title notif;
     n_message := n_message notif; n_read := true;
     n_createdAt := n_createdAt notif; n_data := n_data notif |}.

(** [prev.map(notif => notif.id === id ? { ...notif, read: true } : notif)] *)
Definition patched (id : string) (prev : list Notification) : list Notification :=
  map (fun notif =>
         if String.eqb (n_id notif) id then mark_read notif else notif)
    prev.

Definition markNotificationRead (id : string) : M unit :=
  try_catch
    (UserService.markNotificationRead id ;;;
     setNotifications_with (fun prev => patched id prev))
    (fun error =>
       toast.error (message_or error "Failed to mark notification as read") ;;;
       throw error).

(** ** Promo methods *)

Definition applyPromoCode (code : string) : M bool :=
  try_finally
    (try_catch
       (setLoading true ;;;
        CartService.applyPromoCode code ;;;
        loadCart ;;;
        match find (fun p => String.eqb (Text.toLowerCase (promo_code p))
                               (Text.toLowerCase code)) promoCodes with
        | Some promo =>
            setAppliedPromo (Some promo) ;;;
            toast.success "Promo code applied successfully" ;;;
            ret true
        | None => ret false
        end)
       (fun error =>
          toast.error (message_or error "Failed to apply promo code") ;;;
          ret false))
    (setLoading false).

Definition removePromoCode : M unit :=
  guarded
    (CartService.removePromoCode ;;;
     loadCart ;;;
     setAppliedPromo None ;;;
     toast.success "Promo code removed")
    "Failed to remove promo code".

(** ** Product methods *)

Definition getProducts (filters : option (list (string * JSValue)))
  : M (list Product) :=
  try_catch
    (response <- ProductService.getProducts filters ;;
     ret (ps_products response))
    (fun error =>
       toast.error (message_or error "Failed to fetch products") ;;;
       throw error).

Definition getProductById (id : string) : M (option Product) :=
  try_catch
    (product <- ProductService.getProductById id ;; ret (Some product))
    (fun error =>
       toast.error (message_or error "Failed to fetch product") ;;;
       ret None).

(** ** The mutation methods, as one type *)

Inductive Mutation : Type :=
| AddToCart (productId size color : string) (quantity : number)
| RemoveFromCart (itemId : string)
| UpdateCartQuantity (itemId : string) (quantity : number)
| ClearCart
| ToggleWishlist (productId : string)
| UpdateUser (d : list (string * JSValue))
| AddAddress (address : JSValue)
| UpdateAddress (id : string) (address : JSValue)
| DeleteAddress (id : string)
| SetDefaultAddress (id : string)
| CreateOrder (paymentMethod addressId : string)
| CreateReturnRequest (orderId : string) (items : list JSValue) (reason : string)
| MarkNotificationRead (id : string)
| ApplyPromoCode (code : string)
| RemovePromoCode.

(** The invocation of a mutation by a render that saw [seen]; what the
    method resolves with is dropped. *)
Definition invoke (seen : Store) (m : Mutation) : M unit :=
  match m with
  | AddToCart productId size color quantity =>
      addToCart productId size color quantity
  | RemoveFromCart itemId => removeFromCart itemId
  | UpdateCartQuantity itemId quantity => updateCartQuantity itemId quantity
  | ClearCart => clearCart
  | ToggleWishlist productId => toggleWishlist productId
  | UpdateUser d => updateUser d
  | AddAddress address => addAddress seen address
  | UpdateAddress id address => updateAddress seen id address
  | DeleteAddress id => deleteAddress seen id
  | SetDefaultAddress id => setDefaultAddress seen id
  | CreateOrder paymentMethod addressId =>
      void (createOrder seen paymentMethod addressId)
  | CreateReturnRequest orderId items reason =>
      createReturnRequest orderId items reason
  | MarkNotificationRead id => markNotificationRead id
  | ApplyPromoCode code => void (applyPromoCode code)
  | RemovePromoCode => removePromoCode
  end.

(** The texts of the success notice of each method, and the message
    its failure notice falls back to. *)
Definition success_texts (m : Mutation) : list string :=
  match m with
  | AddToCart _ _ _ _ => ["Item added to cart"]
  | RemoveFromCart _ => ["Item removed from cart"]
  | UpdateCartQuantity _ _ => []
  | ClearCart => ["Cart cleared"]
  | ToggleWishlist _ =>
      ["Item removed from wishlist"; "Item added to wishlist"]
  | UpdateUser _ => ["Profile updated successfully"]
  | AddAddress _ => ["Address added successfully"]
  | UpdateAddress _ _ => ["Address updated successfully"]
  | DeleteAddress _ => ["Address deleted successfully"]
  | SetDefaultAddress _ => ["Default address updated"]
  | CreateOrder _ _ => ["Order placed successfully!"]
  | CreateReturnRequest _ _ _ => ["Return request submitted successfully"]
  | MarkNotificationRead _ => []
  | ApplyPromoCode _ => ["Promo code applied successfully"]
  | RemovePromoCode => ["Promo code removed"]
  end.

Definition failure_fallback (m : Mutation) : string :=
  match m with
  | AddToCart _ _ _ _ => "Failed to add item to cart"
  | RemoveFromCart _ => "Failed to remove item from cart"
  | UpdateCartQuantity _ _ => "Failed to update cart"
  | ClearCart => "Failed to clear cart"
  | ToggleWishlist _ => "Failed to update wishlist"
  | UpdateUser _ => "Failed to update profile"
  | AddAddress _ => "Failed to add address"
  | UpdateAddress _ _ => "Failed to update address"
  | DeleteAddress _ => "Failed to delete address"
  | SetDefaultAddress _ => "Failed to set default address"
  | CreateOrder _ _ => "Failed to create order"
  | CreateReturnRequest _ _ _ => "Failed to create return request"
  | MarkNotificationRead _ => "Failed to mark notification as read"
  | ApplyPromoCode _ => "Failed to apply promo code"
  | RemovePromoCode => "Failed to remove promo code"
  end.

(** The requests of the sign-in fan-out, in the order of the array. *)
Definition GET (w : World) (endpoint : string) (ps : list (string * JSValue))
  : Request :=
  request_input (apiClient w) (token_in w)
    (PathAndSearch (baseURL (apiClient w) ++ endpoint) ps) no_options.

Definition POST (w : World) (endpoint : string) (d : JSValue) : Request :=
  request_input (apiClient w) (token_in w) (Path endpoint)
    {| ri_method := Some "POST"; ri_headers := []; ri_body := stringified d |}.

Definition page_1_of_50 : list (string * JSValue) :=
  [("page", JNum 1); ("limit", JNum 50)].

Definition fan_out (w : World) : list Request :=
  [ GET w API_ENDPOINTS.CART [];
    GET w API_ENDPOINTS.WISHLIST [];
    GET w API_ENDPOINTS.ORDERS page_1_of_50;
    GET w API_ENDPOINTS.RETURNS page_1_of_50;
    GET w API_ENDPOINTS.USER_NOTIFICATIONS
      (page_1_of_50 ++ [("unreadOnly", JBool false)]);
    GET w API_ENDPOINTS.ADDRESSES [] ].

End WithViews.
End Shop.

(* ===================================================================== *)
(** * Properties of computations *)
(* ===================================================================== *)

Module Logic.

(** [m] leaves the observation [f] of the world as it was. *)
Definition Preserves {X A} (f : World -> X) (m : M A) : Prop :=
  forall w r w', m w = (r, w') -> f w' = f w.

(** Whether the platform takes the URL of a request that [get] builds
    with [new URL]; the other methods build none. *)
Definition accepted (w : World) (rq : Request) : bool :=
  match rq_target rq with
  | PathAndSearch url _ =>
      match URL_refused w url with None => true | Some _ => false end
  | Path _ => true
  end.

(** [m] makes one transport call, of the request [rq_of] gives for the
    world it starts in, or none when that request is a [GET] whose URL
    the platform refuses. *)
Definition Sends {A} (rq_of : World -> Request) (m : M A) : Prop :=
  forall w r w', m w = (r, w') ->
    exists calls,
      traffic w' = (traffic w ++ calls)%list
      /\ map fst calls = filter (accepted w) [rq_of w].

(** What another task of the page may do in between, as far as this
    component goes: set or clear the token, and log. *)
Definition Aside (m : M unit) : Prop :=
  forall w, exists token logged,
    snd (m w) = with_console (console w ++ logged) (with_clerkToken token w).

(** [f] does not look at the record of transport calls. *)
Definition Blind {X} (f : World -> X) : Prop :=
  forall t w, f (with_traffic t w) = f w.

(** What a request is built from besides its arguments: the configured
    base URL and the auth token. *)
Definition platform (w : World) : option string * option string :=
  (env_VITE_API_BASE_URL w, clerkToken w).

(** The platform takes every URL text the client builds: the configured
    base URL is absolute. *)
Definition reachable (w : World) : Prop :=
  forall endpoint, refusal w endpoint = None.

(** [m] never rejects. *)
Definition Settles {A} (m : M A) : Prop :=
  forall w, exists a w', m w = (Ok a, w').

(** The notices [m] shows: none when it rejects, and a list that
    satisfies [on_success] when it fulfils. *)
Definition Shows {A} (on_success : A -> list Toast -> Prop) (m : M A) : Prop :=
  forall w r w', m w = (r, w') ->
    exists new,
      toasts w' = (toasts w ++ new)%list
      /\ match r with
         | Ok a => on_success a new
         | Throw _ => new = []
         end.

(** One success notice, with one of the texts. *)
Definition one_success (texts : list string) (new : list Toast) : Prop :=
  exists text, In text texts /\ new = [toast_success text].

(** Run in [w], [m] makes the one call [rq] and changes nothing else;
    it fulfils, with the payload read, exactly when the envelope has
    data, and rejects otherwise with the envelope's message or [d]. *)
Definition Fetched {T} `{View T} (m : M T) (rq : Request) (d : string)
  (w : World) : Prop :=
  exists env r,
    m w = (r, with_traffic (traffic w ++ [(rq, env)]) w)
    /\ match r with
       | Ok a => exists v, data env = Some v /\ truthy v = true /\ a = view v
       | Throw e => has_data env = false
                    /\ e = new_Error (js_or (message env) (JStr d))
       end.

(** [m] does so in every world, with the request [rq_of] gives: the
    methods that [post], [patch] or [delete]. *)
Definition Fetches {T} `{View T} (m : M T) (rq_of : World -> Request)
  (d : string) : Prop :=
  forall w, Fetched m (rq_of w) d w.

(** [m] does so with a [GET] of [endpoint], in every world whose
    platform takes the URL; where it refuses the URL, [m] rejects with
    the TypeError and nothing is sent. *)
Definition Gets {T} `{View T} (m : M T) (endpoint : string)
  (ps : list (string * JSValue)) (d : string) : Prop :=
  forall w,
    match refusal w endpoint with
    | None =>
        Fetched m (Shop.GET w endpoint ps) d w
    | Some text => m w = (Throw (Invalid_URL text), w)
    end.

End Logic.
Import Logic.

(* ===================================================================== *)
(** * Requests and outcomes, by name *)
(* ===================================================================== *)

Module Wire.

(** [headers[k]] *)
Fixpoint header (k : string) (hs : list (string * string)) : option string :=
  match hs with
  | [] => None
  | (k', v) :: rest => if String.eqb k k' then Some v else header k rest
  end.

(** The requests [patch], [delete] and [upload] of the module's client
    hand to [fetch] ([GET] and [POST] are in [Shop]). *)
Definition PATCH (w : World) (endpoint : string) (d : JSValue) : Request :=
  request_input (apiClient w) (token_in w) (Path endpoint)
    {| ri_method := Some "PATCH"; ri_headers := []; ri_body := stringified d |}.

Definition DELETE (w : World) (endpoint : string) : Request :=
  request_input (apiClient w) (token_in w) (Path endpoint)
    {| ri_method := Some "DELETE"; ri_headers := []; ri_body := NoBody |}.

Definition UPLOAD (w : World) (endpoint : string)
  (formData : list (string * FormValue)) : Request :=
  upload_input (apiClient w) (token_in w) endpoint formData.

(** The world once the call [rq] has resolved with [env]. *)
Definition sent (rq : Request) (env : Envelope) (w : World) : World :=
  with_traffic (traffic w ++ [(rq, env)]) w.

(** The exchange the backend has for [rq] in the world [w]. *)
Definition exchange (w : World) (rq : Request) : Exchange :=
  server w (map fst (traffic w)) rq.

(** [m] is one call of the transport client, of the request [rq_of]
    gives, and changes nothing else. *)
Definition Exact (rq_of : World -> Request) (m : M Envelope) : Prop :=
  forall w, exists env, m w = (Ok env, sent (rq_of w) env w).

(** [m] makes the one call [rq_of] gives and changes nothing else; it
    fulfils exactly when the envelope's status is 200 or 204, and rejects
    otherwise with the envelope's message or [d]. *)
Definition Finishes (m : M unit) (rq_of : World -> Request) (d : string)
  : Prop :=
  forall w, exists env r,
    m w = (r, sent (rq_of w) env w)
    /\ match r with
       | Ok _ => status env = 200 \/ status env = 204
       | Throw e => status env <> 200 /\ status env <> 204
                    /\ e = new_Error (js_or (message env) (JStr d))
       end.


(** The methods that resolve with nothing and go by the status, and the
    two that call [fetch] themselves. *)
Definition status_keyed (c : ServiceCall) : bool :=
  match c with
  | Cart_clearCart | User_moveToCart _ _ _ | User_changePassword _ _
  | User_deleteAccount _ | User_markNotificationRead _
  | User_markAllNotificationsRead | User_deleteNotification _
  | Order_reorderItems _ | Address_deleteAddress _ => true
  | _ => false
  end.



(** The properties of the original that [duplicateAddress] copies. *)
Definition copied_properties : list string :=
  ["fullName"; "addressLine1"; "addressLine2"; "city"; "state"; "postalCode";
   "country"; "phoneNumber"].

(** The token once [getToken()] has settled with [awaited] and
    [setupAuth] has gone on, and what [setupAuth] logs then. *)
Definition token_after (awaited : Completion (option string)) (w : World)
  : option string :=
  match awaited with
  | Ok (Some t) => if String.eqb t "" then clerkToken w else Some t
  | _ => clerkToken w
  end.

(** The [Authorization] header [request] sends under a token. *)
Definition authorization (token : option string) : option string :=
  match token with
  | Some t => if String.eqb t "" then None else Some ("Bearer " ++ t)
  | None => None
  end.

Definition logged_by (awaited : Completion (option string))
  : list (string * Exn) :=
  match awaited with
  | Throw e => [("Error getting auth token:", e)]
  | Ok _ => []
  end.

(** The payload of an envelope, when [if (response.data)] passes. *)
Definition payload (env : Envelope) : option JSValue :=
  match data env with
  | Some v => if truthy v then Some v else None
  | None => None
  end.

(** The world once [setLoading(b)] has run, and once [toast.error(text)]
    has. *)
Definition busy (b : bool) (w : World) : World := snd (State.setLoading b w).

Definition notified (t : Toast) (w : World) : World :=
  with_toasts (toasts w ++ [t]) w.

(** A cell of the store replaced, the others kept. *)
Definition with_cart (x : option Cart) (s : Store) : Store :=
  {| cart := x; wishlist := wishlist s; user := user s; orders := orders s;
     returns := returns s; notifications := notifications s;
     appliedPromo := appliedPromo s; loading := loading s; error := error s |}.

Definition with_wishlist (x : option Wishlist) (s : Store) : Store :=
  {| cart := cart s; wishlist := x; user := user s; orders := orders s;
     returns := returns s; notifications := notifications s;
     appliedPromo := appliedPromo s; loading := loading s; error := error s |}.


Definition with_orders (x : list Order) (s : Store) : Store :=
  {| cart := cart s; wishlist := wishlist s; user := user s; orders := x;
     returns := returns s; notifications := notifications s;
     appliedPromo := appliedPromo s; loading := loading s; error := error s |}.

Definition with_returns (x : list Return) (s : Store) : Store :=
  {| cart := cart s; wishlist := wishlist s; user := user s; orders := orders s;
     returns := x; notifications := notifications s;
     appliedPromo := appliedPromo s; loading := loading s; error := error s |}.


(** The call a mutation of the cart makes before it reloads the cart. *)
Definition cart_request (m : Shop.Mutation) (w : World) : option Request :=
  match m with
  | Shop.AddToCart productId size color quantity =>
      Some (Shop.POST w API_ENDPOINTS.CART
              (CartService.AddToCartRequest_json
                 {| CartService.productId := productId;
                    CartService.quantity := quantity;
                    CartService.size := size; CartService.color := color |}))
  | Shop.RemoveFromCart itemId => Some (DELETE w (API_ENDPOINTS.CART_ITEM itemId))
  | Shop.UpdateCartQuantity itemId quantity =>
      Some (PATCH w (API_ENDPOINTS.CART_ITEM itemId)
              (JObj [("quantity", JNum quantity)]))
  | Shop.RemovePromoCode => Some (DELETE w (API_ENDPOINTS.CART ++ "/promo"))
  | _ => None
  end.

(** [m] rejects only with the state cells as it found them. *)
Definition Atomic {A} (m : M A) : Prop :=
  forall w e w', m w = (Throw e, w') -> store w' = store w.

(** What a cell holds after a load: what [f] reads from the payload of
    the load's envelope, or what it held. *)
Definition taken {X} (env : Envelope) (f : JSValue -> X) (old : X) : X :=
  match payload env with
  | Some v => f v
  | None => old
  end.

(** The world after a load whose call [rq] resolved with [env]: the
    payload is written with [write], or the rejection is logged. *)
Definition after_load {T} `{View T} (write : T -> Store -> Store)
  (label d : string) (rq : Request) (env : Envelope) (w : World) : World :=
  match payload env with
  | Some v => with_store (write (view v) (store w)) (sent rq env w)
  | None =>
      with_console
        (console w ++ [(label, new_Error (js_or (message env) (JStr d)))])
        (sent rq env w)
  end.

End Wire.
Import Wire.

(* ===================================================================== *)
(** * A reading of payloads, for running the model *)
(* ===================================================================== *)

(** Each declared property is read by its name; a payload of the
    declared shape is read as what it says.  The theorems below hold for
    every reading; this one serves to run the model on concrete
    exchanges. *)
Module Reading.

Definition str (v : JSValue) : string :=
  match v with JStr s => s | _ => "" end.

Definition num (v : JSValue) : number :=
  match v with JNum n => n | _ => PrimFloat.nan end.

Definition boolean (v : JSValue) : bool :=
  match v with JBool b => b | _ => false end.

Definition opt {A} (f : JSValue -> A) (v : JSValue) : option A :=
  match v with JUndefined | JNull => None | _ => Some (f v) end.

Definition arr {A} (f : JSValue -> A) (v : JSValue) : list A :=
  match v with JArr l => map f l | _ => [] end.

Definition cartItem (v : JSValue) : CartItem :=
  {| ci_id := str (prop "id" v); ci_productId := str (prop "productId" v);
     ci_product := prop "product" v; ci_quantity := num (prop "quantity" v);
     ci_size := str (prop "size" v); ci_color := str (prop "color" v);
     ci_price := num (prop "price" v); ci_addedAt := str (prop "addedAt" v) |}.

Definition cart_ (v : JSValue) : Cart :=
  {| cart_id := str (prop "id" v); cart_userId := str (prop "userId" v);
     cart_items := arr cartItem (prop "items" v);
     cart_subtotal := num (prop "subtotal" v);
     cart_shipping := num (prop "shipping" v); cart_tax := num (prop "tax" v);
     cart_total := num (prop "total" v);
     cart_createdAt := str (prop "createdAt" v);
     cart_updatedAt := str (prop "updatedAt" v) |}.

Definition wishlistItem (v : JSValue) : WishlistItem :=
  {| wi_id := str (prop "id" v); wi_productId := str (prop "productId" v);
     wi_product := prop "product" v; wi_addedAt := str (prop "addedAt" v) |}.

Definition wishlist_ (v : JSValue) : Wishlist :=
  {| wl_id := str (prop "id" v); wl_userId := str (prop "userId" v);
     wl_items := arr wishlistItem (prop "items" v);
     wl_createdAt := str (prop "createdAt" v);
     wl_updatedAt := str (prop "updatedAt" v) |}.

Definition userProfile (v : JSValue) : UserProfile :=
  {| up_id := str (prop "id" v); up_email := str (prop "email" v);
     up_firstName := str (prop "firstName" v);
     up_lastName := str (prop "lastName" v);
     up_phoneNumber := opt str (prop "phoneNumber" v);
     up_dateOfBirth := opt str (prop "dateOfBirth" v);
     up_gender := opt str (prop "gender" v);
     up_avatar := opt str (prop "avatar" v);
     up_emailVerified := boolean (prop "emailVerified" v);
     up_createdAt := str (prop "createdAt" v);
     up_updatedAt := str (prop "updatedAt" v) |}.

Definition notification (v : JSValue) : Notification :=
  {| n_id := str (prop "id" v); n_type := str (prop "type" v);
     n_title := str (prop "title" v); n_message := str (prop "message" v);
     n_read := boolean (prop "read" v);
     n_createdAt := str (prop "createdAt" v);
     n_data := opt (fun d => d) (prop "data" v) |}.

Definition notificationPage (v : JSValue) : NotificationPage :=
  {| np_notifications := arr notification (prop "notifications" v);
     np_total := num (prop "total" v);
     np_unreadCount := num (prop "unreadCount" v);
     np_page := num (prop "page" v); np_limit := num (prop "limit" v);
     np_totalPages := num (prop "totalPages" v) |}.

Definition address (v : JSValue) : Address :=
  {| a_id := str (prop "id" v); a_fullName := str (prop "fullName" v);
     a_addressLine1 := str (prop "addressLine1" v);
     a_addressLine2 := opt str (prop "addressLine2" v);
     a_city := str (prop "city" v); a_state := str (prop "state" v);
     a_postalCode := str (prop "postalCode" v);
     a_country := str (prop "country" v);
     a_phoneNumber := str (prop "phoneNumber" v);
     a_isDefault := boolean (prop "isDefault" v) |}.

Definition orderList (v : JSValue) : OrderListResponse :=
  {| ol_orders := arr (fun o => o) (prop "orders" v);
     ol_total := num (prop "total" v); ol_page := num (prop "page" v);
     ol_limit := num (prop "limit" v);
     ol_totalPages := num (prop "totalPages" v) |}.

Definition returnList (v : JSValue) : ReturnListResponse :=
  {| rl_returns := arr (fun r => r) (prop "returns" v);
     rl_total := num (prop "total" v); rl_page := num (prop "page" v);
     rl_limit := num (prop "limit" v);
     rl_totalPages := num (prop "totalPages" v) |}.

Definition product (v : JSValue) : Product :=
  {| p_id := str (prop "id" v); p_name := str (prop "name" v);
     p_description := str (prop "description" v);
     p_price := num (prop "price" v);
     p_originalPrice := opt num (prop "originalPrice" v);
     p_category := str (prop "category" v);
     p_subcategory := opt str (prop "subcategory" v);
     p_brand := str (prop "brand" v);
     p_images := arr str (prop "images" v);
     p_sizes := arr str (prop "sizes" v);
     p_colors := arr str (prop "colors" v);
     p_inStock := boolean (prop "inStock" v);
     p_stock := opt num (prop "stock" v);
     p_rating := num (prop "rating" v); p_reviews := num (prop "reviews" v);
     p_createdAt := opt str (prop "createdAt" v);
     p_updatedAt := opt str (prop "updatedAt" v) |}.

Definition productSearch (v : JSValue) : ProductSearchResponse :=
  {| ps_products := arr product (prop "products" v);
     ps_total := num (prop "total" v); ps_page := num (prop "page" v);
     ps_limit := num (prop "limit" v);
     ps_totalPages := num (prop "totalPages" v) |}.

Definition by_name : Views :=
  {| View_Cart := cart_;
     View_Wishlist := wishlist_;
     View_UserProfile := userProfile;
     View_NotificationPage := notificationPage;
     View_Address := address;
     View_Addresses := arr address;
     View_OrderListResponse := orderList;
     View_ReturnListResponse := returnList;
     View_Product := product;
     View_ProductSearchResponse := productSearch |}.

End Reading.

(* ===================================================================== *)
(** * The specification's wording, for comparison *)
(* ===================================================================== *)

Module Spec.

(** The response normalization as the specification words it, with
    [??]: [{data: body.data ?? body, message: body.message ?? "Success",
    status}] on a 2xx status, otherwise [{message: body.message ??
    "Request failed", status, errors: body.errors ?? []}]. *)
Definition normalized (st : Z) (body : JSValue) : Envelope :=
  if ((200 <=? st) && (st <=? 299))%bool then
    {| data := Some (js_nullish (prop "data" body) body);
       message := js_nullish (prop "message" body) (JStr "Success");
       status := st;
       errors := None |}
  else
    {| data := None;
       message := js_nullish (prop "message" body) (JStr "Request failed");
       status := st;
       errors := Some (js_nullish (prop "errors" body) (JArr [])) |}.

End Spec.

(* ===================================================================== *)
(** * Scenarios *)
(* ===================================================================== *)

(** Concrete carts, states and backends on which the model is run. *)
Module Scenario.

(** A cart whose server total is [total], and nothing else. *)
Definition cart_of_total (total : number) : Cart :=
  {| cart_id := "cart-1"; cart_userId := "user-1"; cart_items := [];
     cart_subtotal := total; cart_shipping := 0; cart_tax := 0;
     cart_total := total; cart_createdAt := ""; cart_updatedAt := "" |}.

Definition seen_with (c : option Cart) (p : option PromoCode) : Store :=
  {| cart := c; wishlist := None; user := None; orders := []; returns := [];
     notifications := []; appliedPromo := p; loading := false; error := None |}.

Definition FLAT50 : PromoCode :=
  {| promo_code := "FLAT50"; promo_discount := 50; promo_type := fixed |}.

(** The URL class of the scenarios: it takes the texts that begin with
    the scheme [http] or [https], and refuses the others in one wording. *)
Definition absolute (text : string) : option string :=
  if (String.prefix "http://" text || String.prefix "https://" text)%bool
  then None else Some "Invalid URL".

(** A response whose head arrives at once and whose body trickles in
    for 15 s. *)
Definition trickles (st : Z) (body : JSValue) : Exchange :=
  {| latency := 20; body_delay := 15000;
     outcome := Responds st (Parsed body) |}.

(** A world in which nothing has happened yet. *)
Definition world (backend : list Request -> Request -> Exchange) (s : Store)
  : World :=
  {| env_VITE_API_BASE_URL := None; clerkToken := Some "token-1";
     URL_refused := absolute; server := backend; traffic := []; store := s; toasts := [];
     console := [] |}.

(** Exchanges: an answer after 20 ms, and one that takes 15 s. *)
Definition answers (st : Z) (body : JSValue) : Exchange :=
  {| latency := 20; body_delay := 5; outcome := Responds st (Parsed body) |}.

Definition stalls : Exchange :=
  {| latency := 15000; body_delay := 5;
     outcome := Responds 200 (Parsed (JObj [])) |}.

Definition always (ex : Exchange) : list Request -> Request -> Exchange :=
  fun _ _ => ex.

(** A body whose [data] is the number 0. *)
Definition zero_data : JSValue :=
  JObj [("data", JNum 0); ("message", JStr "ok")].

(** The client as the module builds it, with no base URL configured. *)
Definition client : ApiClient :=
  {| baseURL := "http://localhost:5000/api"; timeout := API_TIMEOUT |}.

(** A backend that answers every request with 200 and an empty cart of
    total 30, and one that answers 404 with a message. *)
Definition cart_body : JSValue :=
  JObj [("data", JObj [("id", JStr "cart-1"); ("userId", JStr "user-1");
                       ("items", JArr []); ("total", JNum 30)]);
        ("message", JStr "ok")].

Definition not_found : JSValue := JObj [("message", JStr "Not found")].

(** A state with two unread notifications, and a backend that
    acknowledges every request. *)
Definition unread (id : string) : Notification :=
  {| n_id := id; n_type := "info"; n_title := "Hello"; n_message := "";
     n_read := false; n_createdAt := "2024-01-01"; n_data := None |}.

Definition two_unread : Store :=
  {| cart := None; wishlist := None; user := None; orders := []; returns := [];
     notifications := [unread "N1"; unread "N2"]; appliedPromo := None;
     loading := false; error := None |}.

Definition acknowledged : JSValue := JObj [("message", JStr "ok")].

(** A backend for the sign-in: it knows the profile and one address, and
    answers 404 to everything else. *)
Definition profile_body : JSValue :=
  JObj [("data", JObj [("id", JStr "user-1"); ("email", JStr "ada@example.org");
                       ("firstName", JStr "Ada"); ("lastName", JStr "Lovelace")]);
        ("message", JStr "ok")].

Definition home : JSValue :=
  JObj [("id", JStr "addr-1"); ("fullName", JStr "Ada Lovelace");
        ("city", JStr "London"); ("isDefault", JBool true)].

Definition addresses_body : JSValue :=
  JObj [("data", JArr [home]); ("message", JStr "ok")].

Definition asks_for (endpoint : string) (rq : Request) : bool :=
  match rq_target rq with
  | PathAndSearch full _ => String.eqb full (rq_base rq ++ endpoint)
  | Path e => String.eqb e endpoint
  end.

Definition knows_user : list Request -> Request -> Exchange :=
  fun _ rq =>
    if asks_for API_ENDPOINTS.USER_PROFILE rq then answers 200 profile_body
    else if asks_for API_ENDPOINTS.ADDRESSES rq then answers 200 addresses_body
    else answers 404 not_found.

Definition signed_in_as_ada : Shop.Auth :=
  {| Shop.isSignedIn := true;
     Shop.clerkUser := Some (JObj [("id", JStr "user-1")]);
     Shop.userId := Some "user-1";
     Shop.getToken := Some (Ok (Some "token-1")) |}.

(** Exchanges at the edges: the body is the JSON [null]; the body is
    not JSON at all (as with 204 No Content). *)
Definition unreadable (st : Z) : Exchange :=
  {| latency := 20; body_delay := 5;
     outcome := Responds st (ParseFails
                               (JsError "SyntaxError"
                                  (JStr "Unexpected end of JSON input"))) |}.





(** A backend that knows the address addr-1 and accepts new ones. *)
Definition address_book : list Request -> Request -> Exchange :=
  fun _ rq =>
    if asks_for (API_ENDPOINTS.ADDRESS_BY_ID "addr-1") rq then
      answers 200 (JObj [("data", home); ("message", JStr "ok")])
    else if asks_for API_ENDPOINTS.ADDRESSES rq then
      answers 201 (JObj [("data", home); ("message", JStr "created")])
    else answers 404 not_found.

(** A return request with two photographs. *)
Definition return_with_photos : list (string * JSValue) :=
  [("orderId", JStr "order-1");
   ("items", JArr [JObj [("orderItemId", JStr "item-1")]]);
   ("returnReason", JStr "damaged");
   ("description", JUndefined);
   ("images", JArr [JStr "front.jpg"; JStr "back.jpg"])].

(** A cart of one item under the promo [FLAT50], and a backend that
    accepts every order. *)
Definition one_item_cart : Cart :=
  {| cart_id := "cart-1"; cart_userId := "user-1";
     cart_items :=
       [{| ci_id := "item-1"; ci_productId := "P1"; ci_product := JUndefined;
           ci_quantity := 2; ci_size := "M"; ci_color := "black";
           ci_price := 40; ci_addedAt := "" |}];
     cart_subtotal := 80; cart_shipping := 0; cart_tax := 0;
     cart_total := 80; cart_createdAt := ""; cart_updatedAt := "" |}.

Definition order_9 : JSValue := JObj [("id", JStr "order-9")].

Definition order_body : JSValue :=
  JObj [("data", order_9); ("message", JStr "created")].

(** A backend on which every [POST] succeeds and everything else is
    not found. *)
Definition posts_only : list Request -> Request -> Exchange :=
  fun _ rq =>
    match rq_method rq with
    | Some m => if String.eqb m "POST" then answers 201 cart_body
                else answers 404 not_found
    | None => answers 404 not_found
    end.

End Scenario.
Import Scenario.

(* ===================================================================== *)
(** * Theorems *)
(* ===================================================================== *)

(** ** Price derivation *)

Section Prices.

(** [Math.max(0, x)] is never below zero. *)
Lemma Math_max_zero_not_negative (x : number) :
  (Math_max 0 x <? 0)%float = false.
Proof.
  unfold Math_max.
  change (PrimFloat.is_nan 0) with false; cbn [orb].
  destruct (PrimFloat.is_nan x); [reflexivity|].
  destruct (0 <? x)%float eqn:Hpos.
  - rewrite ltb_spec in *.
    change (Prim2SF 0) with (S754_zero false) in *.
    destruct (Prim2SF x) as [s| s | |s m e]; cbn in *;
      try discriminate; destruct s; cbn in *; congruence.
  - destruct (x <? 0)%float; reflexivity.
Qed.

(** [Math.max(0, x)] is [x] when [x] is above zero. *)
Lemma Math_max_zero_above (x : number) :
  (0 <? x)%float = true -> Math_max 0 x = x.
Proof.
  intros Hpos. unfold Math_max.
  change (PrimFloat.is_nan 0) with false; cbn [orb].
  destruct (PrimFloat.is_nan x) eqn:Hnan.
  - unfold PrimFloat.is_nan in Hnan. rewrite ltb_spec in Hpos.
    rewrite eqb_spec in Hnan.
    destruct (Prim2SF x) as [s| s | |s m e]; cbn in *; try discriminate.
    + unfold SFeqb in Hnan; cbn in Hnan. destruct s; discriminate.
    + unfold SFeqb in Hnan; cbn in Hnan.
      destruct s; cbn in Hnan;
        rewrite Z.compare_refl, Pos.compare_cont_refl in Hnan; discriminate.
  - rewrite Hpos. reflexivity.
Qed.

Lemma SF_self_compare (s : bool) (m : positive) (e : Z) :
  negb
   match
     (if s
      then
       if s
       then
        match (e ?= e)%Z with
        | Eq => CompOpp (Pos.compare_cont Eq m m)
        | Lt => Gt
        | Gt => Lt
        end
       else Lt
      else
       if s
       then Gt
       else
        match (e ?= e)%Z with
        | Eq => Pos.compare_cont Eq m m
        | Lt => Lt
        | Gt => Gt
        end)
   with
   | Eq => true
   | _ => false
   end = false.
Proof.
  rewrite Z.compare_refl, Pos.compare_cont_refl. destruct s; reflexivity.
Qed.

(** [Math.max(0, x)] is zero when [x] is zero or below. *)
Lemma Math_max_zero_below (x : number) :
  (x <=? 0)%float = true -> Math_max 0 x = 0%float.
Proof.
  intros Hle. unfold Math_max.
  change (PrimFloat.is_nan 0) with false; cbn [orb].
  assert (Hnan : PrimFloat.is_nan x = false).
  { unfold PrimFloat.is_nan. rewrite leb_spec in Hle. rewrite eqb_spec.
    change (Prim2SF 0) with (S754_zero false) in Hle.
    destruct (Prim2SF x) as [s| s | |s m e]; cbn in *.
    - reflexivity.
    - destruct s; reflexivity.
    - discriminate Hle.
    - apply SF_self_compare. }
  rewrite Hnan.
  assert (Hpos : (0 <? x)%float = false).
  { rewrite leb_spec in Hle. rewrite ltb_spec.
    change (Prim2SF 0) with (S754_zero false) in *.
    destruct (Prim2SF x) as [s| s | |s m e]; cbn in *;
      try reflexivity; try discriminate Hle; destruct s; cbn in *; congruence. }
  rewrite Hpos.
  destruct (x <? 0)%float; reflexivity.
Qed.

(** [Math.max(0, x)] is [NaN] when [x] is. *)
Lemma Math_max_zero_nan (x : number) :
  PrimFloat.is_nan x = true -> Math_max 0 x = PrimFloat.nan.
Proof. intros Hnan. unfold Math_max. rewrite Hnan, orb_true_r. reflexivity. Qed.

(** C1. For a cart with server-computed total [T], [getTotalPrice] is
    [T] with no promo applied, and [T * (1 - d / 100)] under a percentage
    promo of discount [d].  Under a fixed promo of amount [a] it is
    [Math.max(0, T - a)]: the difference [T - a] when that is above zero,
    and zero when it is zero or below; it is never negative.  (Only a
    difference that is not a number gives a result that is not one.) *)
Theorem getTotalPrice_applies_promo (seen : Store) (c : Cart) :
  cart seen = Some c ->
  (appliedPromo seen = None -> Shop.getTotalPrice seen = cart_total c)
  /\ (forall p, appliedPromo seen = Some p -> promo_type p = percentage ->
        Shop.getTotalPrice seen
        = (cart_total c * (1 - promo_discount p / 100))%float)
  /\ (forall p, appliedPromo seen = Some p -> promo_type p = fixed ->
        let difference := (cart_total c - promo_discount p)%float in
        ((0 <? difference)%float = true ->
         Shop.getTotalPrice seen = difference)
        /\ ((difference <=? 0)%float = true ->
            Shop.getTotalPrice seen = 0%float)
        /\ (PrimFloat.is_nan difference = true ->
            Shop.getTotalPrice seen = PrimFloat.nan)
        /\ (Shop.getTotalPrice seen <? 0)%float = false).
Proof.
  intros Hcart. unfold Shop.getTotalPrice. rewrite Hcart.
  split; [|split].
  - intros Hnone. rewrite Hnone. reflexivity.
  - intros p Hp Hty. rewrite Hp, Hty. reflexivity.
  - intros p Hp Hty. cbv zeta. rewrite Hp, Hty.
    split; [apply Math_max_zero_above|].
    split; [apply Math_max_zero_below|].
    split; [apply Math_max_zero_nan | apply Math_max_zero_not_negative].
Qed.

(** The scenario: [FLAT50] on a server total of 30 shows 0, and on a
    server total of 80 it shows 30. *)
Lemma getTotalPrice_applies_promo_witness :
  In FLAT50 Shop.promoCodes
  /\ Shop.getTotalPrice (seen_with (Some (cart_of_total 30)) (Some FLAT50))
     = 0%float
  /\ Shop.getTotalPrice (seen_with (Some (cart_of_total 80)) (Some FLAT50))
     = 30%float.
Proof.
  split; [right; right; left; reflexivity|].
  destruct (getTotalPrice_applies_promo
              (seen_with (Some (cart_of_total 30)) (Some FLAT50))
              (cart_of_total 30) eq_refl) as (_ & _ & Hsmall).
  destruct (Hsmall FLAT50 eq_refl eq_refl) as (_ & Hzero & _).
  destruct (getTotalPrice_applies_promo
              (seen_with (Some (cart_of_total 80)) (Some FLAT50))
              (cart_of_total 80) eq_refl) as (_ & _ & Hlarge).
  destruct (Hlarge FLAT50 eq_refl eq_refl) as (Hrest & _).
  split.
  - apply Hzero. vm_compute. reflexivity.
  - rewrite Hrest by (vm_compute; reflexivity). vm_compute. reflexivity.
Defined.

(** C10. With no cart, [getTotalPrice] and [getTotalItems] are 0,
    whatever promo is applied. *)
Theorem no_cart_totals_zero (seen : Store) :
  cart seen = None ->
  Shop.getTotalPrice seen = 0%float /\ Shop.getTotalItems seen = 0%float.
Proof.
  intros Hcart. unfold Shop.getTotalPrice, Shop.getTotalItems.
  rewrite Hcart. split; reflexivity.
Qed.

Lemma no_cart_totals_zero_witness :
  Shop.getTotalPrice (seen_with None (Some FLAT50)) = 0%float
  /\ Shop.getTotalItems (seen_with None (Some FLAT50)) = 0%float.
Proof.
  apply (no_cart_totals_zero (seen_with None (Some FLAT50))). reflexivity.
Defined.

End Prices.

(** ** The transport client *)

(** Unfolds a run of [request] or [upload] down to the exchange. *)
Ltac run_request :=
  unfold request, upload, resolved, bind, try_catch, current_token, gets,
    fetch, json, read, ret, throw; cbn [fst snd].

Section TransportFacts.

(** [request] always resolves, and records the call. *)
Lemma request_resolves (this : ApiClient) (target : Target)
  (options : RequestInit) (w : World) :
  exists env,
    request this target options w
    = (Ok env,
       with_traffic
         (traffic w ++ [(request_input this (token_in w) target options, env)]) w).
Proof.
  run_request.
  destruct (latency _ <? timeout this); [|cbn; eauto].
  destruct (outcome _) as [e | st [body | e]].
  - destruct e as [name m | v]; [destruct (String.eqb name "AbortError")|]; eauto.
  - cbn [r_json r_status].
    destruct (negb (ok _)); destruct (nullish body); cbn; eauto.
  - cbn [r_json r_status].
    destruct e as [name m | v]; [destruct (String.eqb name "AbortError")|]; eauto.
Qed.

(** C2, as the code has it.  When the response arrives in time and its
    body parses to a value other than [null], [request] resolves, on a
    2xx status, with [data = body.data || body], [message = body.message
    || "Success"] and the status, and on any other status with no [data],
    [message = body.message || "Request failed"], the status and [errors
    = body.errors || []]: the fallbacks apply to every falsy value, not
    only to an absent one. *)
Theorem request_normalizes_response (this : ApiClient) (target : Target)
  (options : RequestInit) (w : World) (st : Z) (body : JSValue) :
  let ex := server w (map fst (traffic w))
              (request_input this (token_in w) target options) in
  latency ex < timeout this ->
  outcome ex = Responds st (Parsed body) ->
  nullish body = false ->
  fst (request this target options w)
  = Ok (if ((200 <=? st) && (st <=? 299))%bool then
          {| data := Some (js_or (prop "data" body) body);
             message := js_or (prop "message" body) (JStr "Success");
             status := st;
             errors := None |}
        else
          {| data := None;
             message := js_or (prop "message" body) (JStr "Request failed");
             status := st;
             errors := Some (js_or (prop "errors" body) (JArr [])) |}).
Proof.
  intros ex Hlat Hout Hbody. subst ex. run_request.
  apply Z.ltb_lt in Hlat. rewrite Hlat, Hout. cbn [r_json r_status].
  unfold ok. cbn [r_status]. rewrite Hbody.
  destruct ((200 <=? st) && (st <=? 299))%bool; reflexivity.
Qed.

Lemma request_normalizes_response_witness :
  fst (request client (Path "/cart") no_options
         (world (always (answers 200 zero_data)) State.initial))
  = Ok {| data := Some zero_data; message := JStr "ok"; status := 200;
          errors := None |}.
Proof.
  apply (request_normalizes_response client (Path "/cart") no_options
           (world (always (answers 200 zero_data)) State.initial)
           200 zero_data);
    [vm_compute; reflexivity | reflexivity | reflexivity].
Defined.

(** C2, as the specification words it, fails: a 2xx body whose [data]
    is the number 0 comes back whole as the envelope's [data], where
    [body.data ?? body] is 0. *)
Lemma request_is_not_nullish_normalized :
  ~ (forall (this : ApiClient) (target : Target) (options : RequestInit)
            (w : World) (st : Z) (body : JSValue),
        let ex := server w (map fst (traffic w))
                    (request_input this (token_in w) target options) in
        latency ex < timeout this ->
        outcome ex = Responds st (Parsed body) ->
        fst (request this target options w) = Ok (Spec.normalized st body)).
Proof.
  intros claim.
  specialize (claim client (Path "/cart") no_options
                (world (always (answers 200 zero_data)) State.initial)
                200 zero_data).
  cbv zeta in claim.
  assert (Hlat : latency (answers 200 zero_data) < timeout client)
    by (vm_compute; reflexivity).
  specialize (claim Hlat eq_refl).
  vm_compute in claim. discriminate claim.
Qed.

(** C3, as the code has it.  When [fetch] has not settled within the
    client's timeout (the status line and headers have not arrived), when
    [fetch] rejects, or when the body does not parse, [request] still
    resolves: with an envelope that has no [data] and the internal-error
    status, and, in the timeout case, with the message "Request timeout".
    The time the body takes plays no part: the timer is cleared before the
    body is read. *)
Theorem request_failure_resolves (this : ApiClient) (target : Target)
  (options : RequestInit) (w : World) :
  let rq := request_input this (token_in w) target options in
  let ex := server w (map fst (traffic w)) rq in
  (timeout this < latency ex
   \/ (exists e, outcome ex = Rejects e)
   \/ (exists st e, outcome ex = Responds st (ParseFails e))) ->
  exists env,
    request this target options w
    = (Ok env, with_traffic (traffic w ++ [(rq, env)]) w)
    /\ data env = None
    /\ status env = HTTP_STATUS.INTERNAL_SERVER_ERROR
    /\ (timeout this < latency ex -> message env = JStr "Request timeout").
Proof.
  intros rq ex Hfail. subst rq ex. run_request.
  destruct (latency _ <? timeout this) eqn:Hlat.
  - apply Z.ltb_lt in Hlat.
    destruct Hfail as [Hslow | [[e He] | (st & e & He)]]; [lia | |];
      rewrite He; cbn [r_json r_status];
      (destruct e as [name m | v];
       [destruct (String.eqb name "AbortError")|]);
      eexists; (split; [reflexivity|]); repeat split; intros; lia.
  - cbn. eexists. split; [reflexivity|]. repeat split.
Qed.

Lemma request_failure_resolves_witness :
  exists env,
    request client (Path "/cart") no_options (world (always stalls) State.initial)
    = (Ok env,
       with_traffic
         [(request_input client "token-1" (Path "/cart") no_options, env)]
         (world (always stalls) State.initial))
    /\ data env = None
    /\ status env = 500
    /\ message env = JStr "Request timeout".
Proof.
  destruct (request_failure_resolves client (Path "/cart") no_options
              (world (always stalls) State.initial))
    as (env & Hrun & Hdata & Hstatus & Hmsg).
  - left. vm_compute. reflexivity.
  - exists env. repeat split; try assumption.
    apply Hmsg. vm_compute. reflexivity.
Defined.

(** C3, as the specification words it, fails: the timer runs only
    until [fetch] settles.  A response whose status line arrives after 20
    ms and whose body takes 15 s more makes a round trip beyond the 10 s
    of the timeout, and [request] resolves with its data and its
    status. *)
Lemma late_body_is_not_timed_out :
  ~ (forall (this : ApiClient) (target : Target) (options : RequestInit)
            (w : World),
        let ex := server w (map fst (traffic w))
                    (request_input this (token_in w) target options) in
        timeout this < round_trip ex ->
        exists env,
          fst (request this target options w) = Ok env
          /\ data env = None
          /\ status env = HTTP_STATUS.INTERNAL_SERVER_ERROR).
Proof.
  intros claim.
  destruct (claim client (Path "/cart") no_options
              (world (always (trickles 200 cart_body)) State.initial))
    as (env & Hrun & Hdata & _).
  - vm_compute. reflexivity.
  - vm_compute in Hrun. inversion Hrun; subst env. discriminate Hdata.
Qed.

(** The default timeout of the module's client is 10000 ms. *)
Lemma apiClient_timeout (w : World) : timeout (apiClient w) = 10000.
Proof. reflexivity. Qed.

(** [upload] resolves the same way on those failures, with the
    platform's own message in the timeout case. *)
Lemma upload_failure_resolves (this : ApiClient) (endpoint : string)
  (formData : list (string * FormValue)) (w : World) :
  let rq := upload_input this (token_in w) endpoint formData in
  let ex := server w (map fst (traffic w)) rq in
  (timeout this < latency ex
   \/ (exists e, outcome ex = Rejects e)
   \/ (exists st e, outcome ex = Responds st (ParseFails e))) ->
  exists env,
    upload this endpoint formData w
    = (Ok env, with_traffic (traffic w ++ [(rq, env)]) w)
    /\ data env = None
    /\ status env = HTTP_STATUS.INTERNAL_SERVER_ERROR.
Proof.
  intros rq ex Hfail. subst rq ex. run_request.
  destruct (latency _ <? timeout this) eqn:Hlat.
  - apply Z.ltb_lt in Hlat.
    destruct Hfail as [Hslow | [[e He] | (st & e & He)]]; [lia | |];
      rewrite He; cbn [r_json r_status];
      destruct e as [name m | v];
      eexists; (split; [reflexivity|]); repeat split.
  - cbn. eexists. split; [reflexivity|]. repeat split.
Qed.

End TransportFacts.

(** ** The resource services *)

Section ServiceFacts.
Context {V : Views}.

Lemma request_calls (this : ApiClient) (target : Target)
  (options : RequestInit) (w : World) :
  exists rq env,
    request this target options w
    = (Ok env, with_traffic (traffic w ++ [(rq, env)]) w)
    /\ (data env = None -> status env <> 200 /\ status env <> 204).
Proof.
  exists (request_input this (token_in w) target options).
  run_request.
  destruct (latency _ <? timeout this);
    [|cbn; eexists; split; [reflexivity | cbn; intros _; split; discriminate]].
  destruct (outcome _) as [e | st [body | e]]; cbn [r_json r_status].
  - destruct e as [name m | v]; [destruct (String.eqb name "AbortError")|];
      eexists; (split; [reflexivity | cbn; intros _; split; discriminate]).
  - unfold ok; cbn [r_status].
    destruct ((200 <=? st) && (st <=? 299))%bool eqn:Hok; cbn [negb];
      destruct (nullish body); cbn;
      eexists; (split; [reflexivity | cbn; intros Hd]);
      try discriminate Hd; try (split; discriminate).
    all: apply andb_false_iff in Hok; split; lia.
  - destruct e as [name m | v]; [destruct (String.eqb name "AbortError")|];
      eexists; (split; [reflexivity | cbn; intros _; split; discriminate]).
Qed.

Lemma request_is_call (this : ApiClient) (target : Target)
  (options : RequestInit) : Call (request this target options).
Proof. intros w. left. apply request_calls. Qed.

Lemma upload_is_call (this : ApiClient) (endpoint : string)
  (formData : list (string * FormValue)) : Call (upload this endpoint formData).
Proof.
  intros w. left. exists (upload_input this (token_in w) endpoint formData).
  run_request.
  destruct (latency _ <? timeout this);
    [|cbn; eexists; split; [reflexivity | cbn; intros _; split; discriminate]].
  destruct (outcome _) as [e | st [body | e]]; cbn [r_json r_status].
  - destruct e as [name m | v];
      eexists; (split; [reflexivity | cbn; intros _; split; discriminate]).
  - unfold ok; cbn [r_status].
    destruct ((200 <=? st) && (st <=? 299))%bool eqn:Hok; cbn [negb];
      destruct (nullish body); cbn;
      eexists; (split; [reflexivity | cbn; intros Hd]);
      try discriminate Hd; try (split; discriminate).
    all: apply andb_false_iff in Hok; split; lia.
  - destruct e as [name m | v];
      eexists; (split; [reflexivity | cbn; intros _; split; discriminate]).
Qed.

Lemma on_is_call (f : ApiClient -> M Envelope) :
  (forall c, Call (f c)) -> Call (Client.on f).
Proof. intros Hf w. unfold Client.on. apply Hf. Qed.

(** [get] builds the URL first: it goes on to [request] when the
    platform takes the text, and throws otherwise. *)
Lemma get_run endpoint ps (w : World) :
  refusal w endpoint = None ->
  Client.get endpoint ps w
  = request (apiClient w)
      (PathAndSearch (baseURL (apiClient w) ++ endpoint) (appended ps))
      no_options w.
Proof.
  unfold refusal, Client.get, Client.on, get, bind, new_URL.
  intros ->. reflexivity.
Qed.

Lemma get_refused endpoint ps (w : World) (m : string) :
  refusal w endpoint = Some m ->
  Client.get endpoint ps w = (Throw (Invalid_URL m), w).
Proof.
  unfold refusal, Client.get, Client.on, get, bind, new_URL.
  intros ->. reflexivity.
Qed.

Lemma get_is_call endpoint ps : Call (Client.get endpoint ps).
Proof.
  intros w. destruct (refusal w endpoint) as [text|] eqn:Hurl.
  - right. exists endpoint, text. split; [exact Hurl|].
    exact (get_refused _ _ _ _ Hurl).
  - left. rewrite (get_run _ _ _ Hurl). apply request_calls.
Qed.

Lemma post_is_call endpoint d : Call (Client.post endpoint d).
Proof. apply on_is_call; intros c; apply request_is_call. Qed.

Lemma patch_is_call endpoint d : Call (Client.patch endpoint d).
Proof. apply on_is_call; intros c; apply request_is_call. Qed.

Lemma delete_is_call endpoint : Call (Client.delete endpoint).
Proof. apply on_is_call; intros c; apply request_is_call. Qed.

Lemma upload_client_is_call endpoint fd : Call (Client.upload endpoint fd).
Proof. apply on_is_call; intros c; apply upload_is_call. Qed.

Lemma if_is_call (b : bool) (m1 m2 : M Envelope) :
  Call m1 -> Call m2 -> Call (if b then m1 else m2).
Proof. destruct b; auto. Qed.

(** *** How [Rejecting] composes *)

Lemma rejecting_quiet {A} (ds : list string) (m : M A) :
  (forall w, traffic (snd (m w)) = traffic w) -> Rejecting ds m.
Proof.
  intros Hq w r w' Hrun. exists [].
  specialize (Hq w). rewrite Hrun in Hq. cbn in Hq.
  rewrite app_nil_r. split; [assumption | intros ? ? []].
Qed.

Lemma rejecting_ret {A} (ds : list string) (a : A) : Rejecting ds (ret a).
Proof. apply rejecting_quiet. reflexivity. Qed.

Lemma rejecting_bind {A B} (ds : list string) (m : M A) (k : A -> M B) :
  Rejecting ds m -> (forall a, Rejecting ds (k a)) -> Rejecting ds (bind m k).
Proof.
  intros Hm Hk w r w' Hrun. unfold bind in Hrun.
  destruct (m w) as [[a | e] w1] eqn:Hmw.
  - destruct (Hm _ _ _ Hmw) as (calls1 & Ht1 & Hfail1).
    destruct (Hk a _ _ _ Hrun) as (calls2 & Ht2 & Hfail2).
    exists (calls1 ++ calls2)%list. split.
    + rewrite Ht2, Ht1, app_assoc. reflexivity.
    + intros rq env Hin Hd. apply in_app_or in Hin. destruct Hin as [Hin | Hin].
      * destruct (Hfail1 _ _ Hin Hd) as (d & _ & Habs). discriminate Habs.
      * eauto.
  - inversion Hrun; subst.
    destruct (Hm _ _ _ Hmw) as (calls & Ht & Hfail).
    exists calls. split; [assumption|].
    intros rq env Hin Hd. destruct (Hfail _ _ Hin Hd) as (d & Hind & Heq).
    inversion Heq. exists d. split; [assumption | reflexivity].
Qed.

Lemma rejecting_void {A} (ds : list string) (m : M A) :
  Rejecting ds m -> Rejecting ds (void m).
Proof. intros Hm. apply rejecting_bind; [assumption | intros; apply rejecting_ret]. Qed.

(** The two tails. *)
Lemma rejecting_data {T} `{View T} (ds : list string) (d : string)
  (m : M Envelope) :
  In d ds -> Call m ->
  Rejecting ds (bind m (fun response => data_or_throw (T:=T) response d)).
Proof.
  intros Hds Hm w r w' Hrun. unfold bind in Hrun.
  destruct (Hm w) as [(rq & env & Hmw & _) | (ep & text & _ & Hmw)];
    rewrite Hmw in Hrun;
    [|inversion Hrun; subst; exists []; rewrite app_nil_r;
      split; [reflexivity | intros ? ? []]].
  exists [(rq, env)].
  unfold data_or_throw, ret, throw in Hrun.
  split.
  - destruct (data env) as [v|]; [destruct (truthy v)|];
      inversion Hrun; reflexivity.
  - intros rq' env' [Heq | []] Hd. inversion Heq; subst.
    rewrite Hd in Hrun. inversion Hrun. exists d. split; [assumption | reflexivity].
Qed.

Lemma rejecting_done (ds : list string) (d : string) (m : M Envelope) :
  In d ds -> Call m ->
  Rejecting ds (bind m (fun response => done_or_throw response d)).
Proof.
  intros Hds Hm w r w' Hrun. unfold bind in Hrun.
  destruct (Hm w) as [(rq & env & Hmw & Hstatus) | (ep & text & _ & Hmw)];
    rewrite Hmw in Hrun;
    [|inversion Hrun; subst; exists []; rewrite app_nil_r;
      split; [reflexivity | intros ? ? []]].
  exists [(rq, env)].
  unfold done_or_throw, ret, throw in Hrun.
  split.
  - destruct (negb (status env =? 200) && negb (status env =? 204))%bool;
      inversion Hrun; reflexivity.
  - intros rq' env' [Heq | []] Hd. inversion Heq; subst.
    destruct (Hstatus Hd) as [H200 H204].
    apply Z.eqb_neq in H200, H204. rewrite H200, H204 in Hrun. cbn in Hrun.
    inversion Hrun. exists d. split; [assumption | reflexivity].
Qed.

(** The two downloads call [fetch] themselves: nothing goes through the
    transport client. *)
Lemma downloadInvoice_quiet (ds : list string) (orderId : string) :
  Rejecting ds (OrderService.downloadInvoice orderId).
Proof.
  apply rejecting_quiet. intros w.
  unfold OrderService.downloadInvoice, bearer, fetch_direct, bind,
    current_token, gets, ret, throw.
  destruct (outcome _); [reflexivity|].
  destruct (negb (ok _)); reflexivity.
Qed.

Lemma downloadReturnLabel_quiet (ds : list string) (returnId : string) :
  Rejecting ds (ReturnService.downloadReturnLabel returnId).
Proof.
  apply rejecting_quiet. intros w.
  unfold ReturnService.downloadReturnLabel, bearer, fetch_direct, bind,
    current_token, gets, ret, throw.
  destruct (outcome _); [reflexivity|].
  destruct (negb (ok _)); reflexivity.
Qed.

Lemma createReturn_call_is_call (returnData : list (string * JSValue))
  (viaUpload : JSValue -> list JSValue -> M Envelope) (viaPost : M Envelope) :
  (forall image images, Call (viaUpload image images)) -> Call viaPost ->
  Call (match assoc "images" returnData with
        | JArr (image :: images) => viaUpload image images
        | _ => viaPost
        end).
Proof.
  intros Hu Hp. destruct (assoc "images" returnData) as [| | | | |[|image images]|];
    auto.
Qed.

End ServiceFacts.

(** The head constant of a computation, to unfold it by. *)
Ltac head_of t :=
  lazymatch t with
  | ?f _ => head_of f
  | _ => t
  end.

Ltac is_call :=
  lazymatch goal with
  | |- Call (Client.get _ _) => apply get_is_call
  | |- Call (Client.post _ _) => apply post_is_call
  | |- Call (Client.patch _ _) => apply patch_is_call
  | |- Call (Client.delete _) => apply delete_is_call
  | |- Call (Client.upload _ _) => apply upload_client_is_call
  | |- Call (if _ then _ else _) => apply if_is_call; cbv zeta; is_call
  | |- Call (match assoc "images" _ with _ => _ end) =>
      apply createReturn_call_is_call; [intros ? ?; cbv zeta; is_call | is_call]
  end.

(** Decomposes a service method into its transport calls and tails. *)
Ltac in_defaults := cbn; tauto.

Ltac rejecting_step :=
  lazymatch goal with
  | |- Rejecting _ (void _) => apply rejecting_void
  | |- Rejecting _ (ret _) => apply rejecting_ret
  | |- Rejecting _ (OrderService.downloadInvoice _) =>
      apply downloadInvoice_quiet
  | |- Rejecting _ (ReturnService.downloadReturnLabel _) =>
      apply downloadReturnLabel_quiet
  | |- Rejecting _ (bind _ (fun response => data_or_throw response _)) =>
      apply rejecting_data; [in_defaults | is_call]
  | |- Rejecting _ (bind _ (fun response => done_or_throw response _)) =>
      apply rejecting_done; [in_defaults | is_call]
  | |- Rejecting _ (bind _ _) => apply rejecting_bind; [|intros ?]
  | |- Rejecting _ (let _ := _ in _) => cbv zeta
  | |- Rejecting _ ?m => let h := head_of m in unfold h
  end.

Ltac rejecting := repeat rejecting_step.

Section ServiceClaims.
Context {V : Views}.

(** C4, as the code has it.  For every method of the six services
    other than [isProductInWishlist]: whenever a transport call it makes
    resolves without [data], the method rejects with an [Error] that
    carries the envelope's message, or the method's fixed message when the
    envelope's is falsy. *)
Theorem services_reject_on_failure (c : ServiceCall) (w w' : World)
  (r : Completion unit) :
  answers_on_failure c = false ->
  perform c w = (r, w') ->
  exists calls,
    traffic w' = (traffic w ++ calls)%list
    /\ forall rq env, In (rq, env) calls -> data env = None ->
         exists d, In d (defaults c)
                   /\ r = Throw (new_Error (js_or (message env) (JStr d))).
Proof.
  intros Hc. revert w r w'. change (Rejecting (defaults c) (perform c)).
  destruct c; try discriminate Hc; cbn [perform defaults]; rejecting.
Qed.

End ServiceClaims.

(** ** What a computation leaves alone *)

Section Frames.
Context {V : Views}.

Lemma preserves_ret {X A} (f : World -> X) (a : A) : Preserves f (ret a).
Proof. intros w r w' Hrun. inversion Hrun. reflexivity. Qed.

Lemma preserves_throw {X A} (f : World -> X) (e : Exn) :
  Preserves f (throw (A:=A) e).
Proof. intros w r w' Hrun. inversion Hrun. reflexivity. Qed.

Lemma preserves_gets {X A} (f : World -> X) (g : World -> A) :
  Preserves f (gets g).
Proof. intros w r w' Hrun. inversion Hrun. reflexivity. Qed.

Lemma preserves_modify {X} (f : World -> X) (g : World -> World) :
  (forall w, f (g w) = f w) -> Preserves f (modify g).
Proof. intros Hg w r w' Hrun. inversion Hrun. apply Hg. Qed.

Lemma preserves_bind {X A B} (f : World -> X) (m : M A) (k : A -> M B) :
  Preserves f m -> (forall a, Preserves f (k a)) -> Preserves f (bind m k).
Proof.
  intros Hm Hk w r w' Hrun. unfold bind in Hrun.
  destruct (m w) as [[a | e] w1] eqn:Hmw.
  - rewrite (Hk a _ _ _ Hrun). eauto.
  - inversion Hrun; subst. eauto.
Qed.

Lemma preserves_try_catch {X A} (f : World -> X) (m : M A) (h : Exn -> M A) :
  Preserves f m -> (forall e, Preserves f (h e)) -> Preserves f (try_catch m h).
Proof.
  intros Hm Hh w r w' Hrun. unfold try_catch in Hrun.
  destruct (m w) as [[a | e] w1] eqn:Hmw.
  - inversion Hrun; subst. eauto.
  - rewrite (Hh e _ _ _ Hrun). eauto.
Qed.

Lemma preserves_try_finally {X A} (f : World -> X) (m : M A) (c : M unit) :
  Preserves f m -> Preserves f c -> Preserves f (try_finally m c).
Proof.
  intros Hm Hc w r w' Hrun. unfold try_finally in Hrun.
  destruct (m w) as [r1 w1] eqn:Hmw.
  destruct (c w1) as [[u | e] w2] eqn:Hcw; inversion Hrun; subst;
    rewrite (Hc _ _ _ Hcw); eauto.
Qed.

Lemma preserves_if {X A} (f : World -> X) (b : bool) (m1 m2 : M A) :
  Preserves f m1 -> Preserves f m2 -> Preserves f (if b then m1 else m2).
Proof. destruct b; auto. Qed.

Lemma preserves_call {X} (f : World -> X) (m : M Envelope) :
  Blind f -> Call m -> Preserves f m.
Proof.
  intros Hf Hm w r w' Hrun.
  destruct (Hm w) as [(rq & env & Hmw & _) | (ep & text & _ & Hmw)];
    rewrite Hmw in Hrun; inversion Hrun; [apply Hf | reflexivity].
Qed.

Lemma preserves_data_or_throw {X T} `{View T} (f : World -> X)
  (response : Envelope) (d : string) :
  Preserves f (data_or_throw (T:=T) response d).
Proof.
  intros w r w' Hrun. unfold data_or_throw, ret, throw in Hrun.
  destruct (data response) as [v|]; [destruct (truthy v)|];
    inversion Hrun; reflexivity.
Qed.

Lemma preserves_done_or_throw {X} (f : World -> X) (response : Envelope)
  (d : string) : Preserves f (done_or_throw response d).
Proof.
  intros w r w' Hrun. unfold done_or_throw, ret, throw in Hrun.
  destruct (negb (status response =? 200) && negb (status response =? 204))%bool;
    inversion Hrun; reflexivity.
Qed.

Lemma preserves_Promise_all {X} (f : World -> X) (tasks : list (M unit)) :
  Forall (Preserves f) tasks -> Preserves f (Shop.Promise_all tasks).
Proof.
  induction 1 as [| task rest Htask _ IH]; cbn [Shop.Promise_all].
  - apply preserves_ret.
  - intros w r w' Hrun.
    destruct (task w) as [[u | e] w1] eqn:Htw.
    + rewrite (IH _ _ _ Hrun). eauto.
    + destruct (Shop.Promise_all rest w1) as [r2 w2] eqn:Hrest.
      inversion Hrun; subst. rewrite (IH _ _ _ Hrest). eauto.
Qed.

End Frames.

(** The observations that do not look at the record of calls. *)
Ltac blind := intros ? ?; reflexivity.

(** Splits a computation along its structure down to the transport
    calls and the state writes. *)
Ltac preserving_step :=
  lazymatch goal with
  | |- Preserves _ (ret _) => apply preserves_ret
  | |- Preserves _ (throw _) => apply preserves_throw
  | |- Preserves _ (gets _) => apply preserves_gets
  | |- Preserves _ (modify _) => apply preserves_modify; intros ?; reflexivity
  | |- Preserves _ (data_or_throw _ _) => apply preserves_data_or_throw
  | |- Preserves _ (done_or_throw _ _) => apply preserves_done_or_throw
  | |- Preserves _ (Client.get _ _) => apply preserves_call; [blind | is_call]
  | |- Preserves _ (Client.post _ _) => apply preserves_call; [blind | is_call]
  | |- Preserves _ (Client.patch _ _) => apply preserves_call; [blind | is_call]
  | |- Preserves _ (Client.delete _) => apply preserves_call; [blind | is_call]
  | |- Preserves _ (Client.upload _ _) => apply preserves_call; [blind | is_call]
  | |- Preserves _ (if _ then _ else _) => apply preserves_if
  | |- Preserves _ (match assoc "images" _ with _ => _ end) =>
      apply preserves_call; [blind | is_call]
  | |- Preserves _ (match ?x with _ => _ end) => destruct x
  | |- Preserves _ (try_finally _ _) => apply preserves_try_finally
  | |- Preserves _ (try_catch _ _) => apply preserves_try_catch; [|intros ?]
  | |- Preserves _ (bind _ _) => apply preserves_bind; [|intros ?]
  | |- Preserves _ (Shop.Promise_all _) =>
      apply preserves_Promise_all; repeat constructor
  | |- Preserves _ (let _ := _ in _) => cbv zeta
  | |- Preserves _ (fun _ => _) => fail
  | |- Preserves _ ?m => let h := head_of m in unfold h
  end.

Ltac preserving := repeat preserving_step.

Section ShopFrames.
Context {V : Views}.

(** *** Never rejecting *)

Lemma settles_try_catch {A} (m : M A) (h : Exn -> M A) :
  (forall e, Settles (h e)) -> Settles (try_catch m h).
Proof.
  intros Hh w. unfold try_catch.
  destruct (m w) as [[a | e] w1]; [eauto | apply Hh].
Qed.

Lemma settles_console_error (label : string) (e : Exn) :
  Settles (console_error label e).
Proof. intros w. unfold console_error, modify. eauto. Qed.

Lemma loadCart_settles : Settles Shop.loadCart.
Proof. apply settles_try_catch; intros e; apply settles_console_error. Qed.

Lemma loadWishlist_settles : Settles Shop.loadWishlist.
Proof. apply settles_try_catch; intros e; apply settles_console_error. Qed.

Lemma loadOrders_settles : Settles Shop.loadOrders.
Proof. apply settles_try_catch; intros e; apply settles_console_error. Qed.

Lemma loadReturns_settles : Settles Shop.loadReturns.
Proof. apply settles_try_catch; intros e; apply settles_console_error. Qed.

Lemma loadNotifications_settles : Settles Shop.loadNotifications.
Proof. apply settles_try_catch; intros e; apply settles_console_error. Qed.

Lemma loadAddresses_settles (seen : Store) : Settles (Shop.loadAddresses seen).
Proof. apply settles_try_catch; intros e; apply settles_console_error. Qed.

(** *** Notices *)

Lemma shows_quiet {A} (m : M A) :
  Preserves toasts m -> Shows (fun _ new => new = []) m.
Proof.
  intros Hm w r w' Hrun. exists []. rewrite app_nil_r.
  split; [eauto | destruct r; reflexivity].
Qed.

Lemma shows_throw {A} (P : A -> list Toast -> Prop) (e : Exn) :
  Shows P (throw e).
Proof.
  intros w r w' Hrun. inversion Hrun. exists []. rewrite app_nil_r.
  split; reflexivity.
Qed.

Lemma shows_ret {A} (P : A -> list Toast -> Prop) (a : A) :
  P a [] -> Shows P (ret a).
Proof.
  intros HP w r w' Hrun. inversion Hrun. exists []. rewrite app_nil_r.
  split; [reflexivity | assumption].
Qed.

Lemma shows_success (P : unit -> list Toast -> Prop) (text : string) :
  P tt [toast_success text] -> Shows P (toast.success text).
Proof.
  intros HP w r w' Hrun. inversion Hrun. exists [toast_success text].
  split; [reflexivity | assumption].
Qed.

(** Quiet steps before the notice. *)
Lemma shows_after {A B} (P : B -> list Toast -> Prop) (m : M A) (k : A -> M B) :
  Preserves toasts m -> (forall a, Shows P (k a)) -> Shows P (bind m k).
Proof.
  intros Hm Hk w r w' Hrun. unfold bind in Hrun.
  destruct (m w) as [[a | e] w1] eqn:Hmw.
  - destruct (Hk a _ _ _ Hrun) as (new & Ht & Hr).
    exists new. rewrite Ht, (Hm _ _ _ Hmw). auto.
  - inversion Hrun; subst. exists []. rewrite app_nil_r.
    split; [eauto | reflexivity].
Qed.

(** Quiet steps that cannot reject, after the notice. *)
Lemma shows_before {A B} (Q : list Toast -> Prop) (P : B -> list Toast -> Prop)
  (m : M A) (k : A -> M B) :
  Shows (fun _ => Q) m ->
  (forall a, Preserves toasts (k a)) ->
  (forall a w, exists b w', k a w = (Ok b, w') /\ forall new, Q new -> P b new) ->
  Shows P (bind m k).
Proof.
  intros Hm Hk Hs w r w' Hrun. unfold bind in Hrun.
  destruct (m w) as [[a | e] w1] eqn:Hmw.
  - destruct (Hm _ _ _ Hmw) as (new & Ht & Hr).
    destruct (Hs a w1) as (b & w2 & Hkw & HQ). rewrite Hkw in Hrun.
    inversion Hrun; subst. exists new.
    rewrite (Hk a _ _ _ Hkw). auto.
  - inversion Hrun; subst. exact (Hm _ _ _ Hmw).
Qed.

Lemma shows_if {A} (P : A -> list Toast -> Prop) (b : bool) (m1 m2 : M A) :
  Shows P m1 -> Shows P m2 -> Shows P (if b then m1 else m2).
Proof. destruct b; auto. Qed.

Lemma settles_ret {A} (a : A) : Settles (ret a).
Proof. intros w. unfold ret. eauto. Qed.

(** [try { body } catch (error) { toast.error(...); throw error }]: one
    failure notice, with the error's message, when the body rejects. *)
Lemma reported {A} (P : A -> list Toast -> Prop) (body : M A)
  (fallback : string) :
  Shows P body ->
  forall w r w',
    try_catch body
      (fun error => toast.error (message_or error fallback) ;;; throw error) w
    = (r, w') ->
    exists new,
      toasts w' = (toasts w ++ new)%list
      /\ match r with
         | Ok a => P a new
         | Throw e => new = [toast_error (message_or e fallback)]
         end.
Proof.
  intros Hbody w r w' Hrun. unfold try_catch in Hrun.
  destruct (body w) as [[a | e] w1] eqn:Hbw;
    destruct (Hbody _ _ _ Hbw) as (new & Ht & Hr).
  - inversion Hrun; subst. eauto.
  - subst new. rewrite app_nil_r in Ht. inversion Hrun; subst.
    exists [toast_error (message_or e fallback)]. cbn. rewrite Ht. auto.
Qed.

(** The mutation shape adds the busy flag around that. *)
Lemma guarded_notices {A} (P : A -> list Toast -> Prop) (body : M A)
  (fallback : string) :
  Shows P body ->
  forall w r w',
    Shop.guarded body fallback w = (r, w') ->
    exists new,
      toasts w' = (toasts w ++ new)%list
      /\ match r with
         | Ok a => P a new
         | Throw e => new = [toast_error (message_or e fallback)]
         end.
Proof.
  intros Hbody w r w' Hrun. unfold Shop.guarded, try_finally in Hrun.
  match type of Hrun with
  | context [try_catch ?b ?h ?w0] =>
      destruct (try_catch b h w0) as [r1 w1] eqn:Htry
  end.
  cbn in Hrun. inversion Hrun; subst.
  apply (reported P) in Htry.
  - exact Htry.
  - apply shows_after; [preserving | intros _; exact Hbody].
Qed.

End ShopFrames.

(** Splits a mutation body into its quiet steps and its notice. *)
Ltac settled :=
  lazymatch goal with
  | |- exists b w', ret _ _ = _ /\ _ =>
      eexists; eexists; split; [reflexivity | solve [eauto]]
  | |- exists b w', Shop.loadWishlist ?w = _ /\ _ =>
      let H := fresh in
      destruct (loadWishlist_settles w) as ([] & ? & H);
      eexists; eexists; split; [exact H | solve [eauto]]
  end.

Ltac shown := solve [cbn; unfold one_success; cbn; eauto 6].

Ltac shows_step :=
  lazymatch goal with
  | |- Shows _ (throw _) => apply shows_throw
  | |- Shows _ (ret _) => apply shows_ret; shown
  | |- Shows _ (toast.success _) => apply shows_success; shown
  | |- Shows _ (if _ then _ else _) => apply shows_if
  | |- Shows _ (match ?x with _ => _ end) => destruct x
  | |- Shows _ (bind _ _) =>
      first
        [ apply shows_after; [solve [preserving] | intros ?]
        | eapply shows_before;
            [ | intros ?; solve [preserving] | intros ? ?; solve [settled] ] ]
  end.

Ltac shows := repeat shows_step.

Section Notices.
Context {V : Views}.

(** [applyPromoCode] never rejects: it answers [true] with one success
    notice, or [false] with no notice (a code outside the local list) or
    with one failure notice (a failed call). *)
Lemma applyPromoCode_notices (code : string) (w w' : World)
  (r : Completion bool) :
  Shop.applyPromoCode code w = (r, w') ->
  exists new,
    toasts w' = (toasts w ++ new)%list
    /\ ((r = Ok true /\ new = [toast_success "Promo code applied successfully"])
        \/ (r = Ok false
            /\ (new = []
                \/ exists e,
                     new = [toast_error
                              (message_or e "Failed to apply promo code")]))).
Proof.
  intros Hrun. unfold Shop.applyPromoCode, try_finally in Hrun.
  match type of Hrun with
  | context [try_catch ?body ?h w] =>
      destruct (try_catch body h w) as [r1 w1] eqn:Htry;
      assert (Hshows :
        Shows (fun (answer : bool) new =>
                 (answer = true
                  /\ new = [toast_success "Promo code applied successfully"])
                 \/ (answer = false /\ new = [])) body)
        by shows
  end.
  cbn in Hrun. inversion Hrun; subst; clear Hrun.
  unfold try_catch in Htry.
  match type of Htry with
  | context [match ?m w with _ => _ end] =>
      destruct (m w) as [[b | e] w2] eqn:Hbody
  end; destruct (Hshows _ _ _ Hbody) as (new & Ht & Hnew).
  - inversion Htry; subst. exists new. split; [exact Ht|].
    destruct Hnew as [[-> ->] | [-> ->]]; auto.
  - subst new. rewrite app_nil_r in Ht. cbn in Htry. inversion Htry; subst.
    exists [toast_error (message_or e "Failed to apply promo code")].
    cbn. rewrite Ht. split; [reflexivity|].
    right. split; [reflexivity|]. right. exists e. reflexivity.
Qed.

End Notices.

(** ** Running the shop *)

Section ShopRuns.
Context {V : Views}.

(** A payload-returning [GET] method makes its one call and changes
    nothing else; it fulfils, with the payload read, exactly when the
    envelope has data. *)
Lemma get_method_run {T} `{View T} (endpoint : string)
  (ps : option (list (string * JSValue))) (d : string) (w : World) :
  refusal w endpoint = None ->
  exists env r,
    (response <- Client.get endpoint ps ;; data_or_throw (T:=T) response d) w
    = (r, with_traffic (traffic w ++ [(Shop.GET w endpoint (appended ps), env)]) w)
    /\ match r with
       | Ok a => exists v, data env = Some v /\ truthy v = true /\ a = view v
       | Throw e => has_data env = false
                    /\ e = new_Error (js_or (message env) (JStr d))
       end.
Proof.
  intros Hurl. unfold bind. rewrite (get_run _ _ _ Hurl).
  destruct (request_resolves (apiClient w)
              (PathAndSearch (baseURL (apiClient w) ++ endpoint) (appended ps))
              no_options w) as [env Hreq].
  rewrite Hreq. exists env. unfold data_or_throw, has_data, ret, throw.
  destruct (data env) as [v|]; [destruct (truthy v) eqn:Hv|];
    eexists; (split; [reflexivity|]); cbn.
  - exists v. auto.
  - auto.
  - auto.
Qed.

(** When the platform refuses the URL, the method rejects with the
    TypeError and nothing is sent. *)
Lemma get_method_refused {T} `{View T} (endpoint : string)
  (ps : option (list (string * JSValue))) (d : string) (w : World)
  (m : string) :
  refusal w endpoint = Some m ->
  (response <- Client.get endpoint ps ;; data_or_throw (T:=T) response d) w
  = (Throw (Invalid_URL m), w).
Proof.
  intros Hurl. unfold bind. rewrite (get_refused _ _ _ _ Hurl). reflexivity.
Qed.

(** The same for the [POST] that marks a notification read: it fulfils
    exactly when the envelope's status is 200 or 204. *)
Lemma markNotificationRead_service_run (id : string) (w : World) :
  exists env r,
    UserService.markNotificationRead id w
    = (r, with_traffic
            (traffic w
             ++ [(Shop.POST w (API_ENDPOINTS.MARK_NOTIFICATION_READ id) JUndefined,
                  env)]) w)
    /\ match r with
       | Ok _ => status env = 200 \/ status env = 204
       | Throw e =>
           status env <> 200 /\ status env <> 204
           /\ e = new_Error (js_or (message env)
                               (JStr "Failed to mark notification as read"))
       end.
Proof.
  unfold UserService.markNotificationRead, Client.post, Client.on,
    Transport.post, bind.
  destruct (request_resolves (apiClient w)
              (Path (API_ENDPOINTS.MARK_NOTIFICATION_READ id))
              {| ri_method := Some "POST"; ri_headers := [];
                 ri_body := stringified JUndefined |} w) as [env Hreq].
  rewrite Hreq. exists env. unfold done_or_throw, ret, throw.
  destruct (Z.eqb_spec (status env) 200) as [H200 | H200];
    destruct (Z.eqb_spec (status env) 204) as [H204 | H204]; cbn;
    eexists; (split; [reflexivity|]); cbn; auto.
Qed.

(** C6. [createOrder] called by a render that saw no cart rejects with
    the error "Cart is empty" before any transport call is made: the
    record of calls, the orders, the cart and the applied promo are left
    as they were, and one failure notice is shown. *)
Theorem createOrder_without_cart (seen : Store) (paymentMethod addressId : string)
  (w : World) :
  cart seen = None ->
  exists w',
    Shop.createOrder seen paymentMethod addressId w
    = (Throw (new_Error (JStr "Cart is empty")), w')
    /\ traffic w' = traffic w
    /\ orders (store w') = orders (store w)
    /\ cart (store w') = cart (store w)
    /\ appliedPromo (store w') = appliedPromo (store w)
    /\ toasts w' = (toasts w ++ [toast_error (JStr "Cart is empty")])%list.
Proof.
  intros Hcart. unfold Shop.createOrder. rewrite Hcart.
  eexists. split; [reflexivity|]. cbn. repeat split.
Qed.

Lemma mark_read_only_sets_read (notif : Notification) :
  n_read (Shop.mark_read notif) = true
  /\ n_id (Shop.mark_read notif) = n_id notif
  /\ n_type (Shop.mark_read notif) = n_type notif
  /\ n_title (Shop.mark_read notif) = n_title notif
  /\ n_message (Shop.mark_read notif) = n_message notif
  /\ n_createdAt (Shop.mark_read notif) = n_createdAt notif
  /\ n_data (Shop.mark_read notif) = n_data notif.
Proof. repeat split. Qed.

Lemma patched_idempotent (id : string) (l : list Notification) :
  Shop.patched id (Shop.patched id l) = Shop.patched id l.
Proof.
  unfold Shop.patched. rewrite map_map. apply map_ext. intros notif.
  destruct (String.eqb (n_id notif) id) eqn:Hid; cbn; rewrite Hid; reflexivity.
Qed.

(** The patch sets [read] on the entries of that id and changes nothing
    else: no entry is added, dropped or moved, and no other property is
    touched. *)
Lemma patched_pointwise (id : string) (l : list Notification) :
  Forall2
    (fun before after =>
       n_id after = n_id before
       /\ n_type after = n_type before
       /\ n_title after = n_title before
       /\ n_message after = n_message before
       /\ n_createdAt after = n_createdAt before
       /\ n_data after = n_data before
       /\ n_read after
          = if String.eqb (n_id before) id then true else n_read before)
    l (Shop.patched id l).
Proof.
  induction l as [| notif rest IH]; cbn; constructor; [|exact IH].
  destruct (String.eqb (n_id notif) id); repeat split.
Qed.

Lemma markNotificationRead_run (id : string) (w w' : World)
  (r : Completion unit) :
  Shop.markNotificationRead id w = (r, w') ->
  exists env,
    traffic w'
    = (traffic w
       ++ [(Shop.POST w (API_ENDPOINTS.MARK_NOTIFICATION_READ id) JUndefined,
            env)])%list
    /\ match r with
       | Ok _ =>
           (status env = 200 \/ status env = 204)
           /\ notifications (store w')
              = Shop.patched id (notifications (store w))
           /\ toasts w' = toasts w
       | Throw e =>
           status env <> 200 /\ status env <> 204
           /\ e = new_Error (js_or (message env)
                               (JStr "Failed to mark notification as read"))
           /\ notifications (store w') = notifications (store w)
           /\ toasts w' = (toasts w ++ [toast_error (message_or e "")])%list
       end.
Proof.
  intros Hrun. unfold Shop.markNotificationRead, try_catch in Hrun.
  unfold bind at 1 in Hrun.
  destruct (markNotificationRead_service_run id w) as (env & r1 & Hsvc & Hr1).
  rewrite Hsvc in Hrun. exists env.
  destruct r1 as [[] | e]; cbn in Hrun; inversion Hrun; subst; cbn.
  - split; [reflexivity|]. repeat split. exact Hr1.
  - destruct Hr1 as (H200 & H204 & ->).
    split; [reflexivity|]. repeat split; assumption.
Qed.

End ShopRuns.

(** Completes a run from what it resolves with. *)
Lemma run_eta {A} (m : M A) (w : World) (r : Completion A) :
  fst (m w) = r -> m w = (r, snd (m w)).
Proof. intros <-. apply surjective_pairing. Qed.

Section NotificationClaims.
Context {V : Views}.

(** C8. A successful [markNotificationRead(id)] makes one transport
    call, the POST that marks the notification (the collection is not
    fetched again), and shows no notice.  In the list held, every
    notification of that id has [read] set to true; its other properties,
    and every other notification, are as they were, and the list keeps its
    length and order.  A second call makes the same POST once more and
    leaves the list as the first call left it, whatever the server
    answers; it raises no error unless that second POST is itself answered
    with a status other than 200 or 204. *)
Theorem markNotificationRead_patches_locally (id : string) (w w' : World) :
  Shop.markNotificationRead id w = (Ok tt, w') ->
  (exists env,
     traffic w'
     = (traffic w
        ++ [(Shop.POST w (API_ENDPOINTS.MARK_NOTIFICATION_READ id) JUndefined,
             env)])%list)
  /\ toasts w' = toasts w
  /\ Forall2
       (fun before after =>
          n_id after = n_id before
          /\ n_type after = n_type before
          /\ n_title after = n_title before
          /\ n_message after = n_message before
          /\ n_createdAt after = n_createdAt before
          /\ n_data after = n_data before
          /\ n_read after
             = if String.eqb (n_id before) id then true else n_read before)
       (notifications (store w)) (notifications (store w'))
  /\ (forall r2 w'',
        Shop.markNotificationRead id w' = (r2, w'') ->
        notifications (store w'') = notifications (store w')
        /\ exists env2,
             traffic w''
             = (traffic w'
                ++ [(Shop.POST w' (API_ENDPOINTS.MARK_NOTIFICATION_READ id)
                       JUndefined, env2)])%list
             /\ (r2 = Ok tt <-> status env2 = 200 \/ status env2 = 204)
             /\ (r2 = Ok tt -> toasts w'' = toasts w')).
Proof.
  intros Hrun.
  destruct (markNotificationRead_run _ _ _ _ Hrun)
    as (env & Hcall & _ & Hlist & Htoasts).
  split; [eauto|]. split; [exact Htoasts|]. split.
  - rewrite Hlist. apply patched_pointwise.
  - intros r2 w'' Hagain.
    destruct (markNotificationRead_run _ _ _ _ Hagain) as (env2 & Hcall2 & Hr2).
    destruct r2 as [[] | e].
    + destruct Hr2 as (Hst & Hlist2 & Htoasts2).
      split; [rewrite Hlist2, Hlist; apply patched_idempotent|].
      exists env2. split; [exact Hcall2|]. split; [tauto | auto].
    + destruct Hr2 as (H200 & H204 & _ & Hlist2 & _).
      split; [exact Hlist2|].
      exists env2. split; [exact Hcall2|]. split.
      * split; [discriminate | intros [? | ?]; contradiction].
      * discriminate.
Qed.

End NotificationClaims.

(** The scenario: [N1] of two unread notifications is marked, twice. *)
Lemma markNotificationRead_patches_locally_witness :
  let w := world (always (answers 200 acknowledged)) two_unread in
  let w' := snd (Shop.markNotificationRead "N1" w) in
  let again := Shop.markNotificationRead "N1" w' in
  notifications (store w')
  = [ {| n_id := "N1"; n_type := "info"; n_title := "Hello"; n_message := "";
         n_read := true; n_createdAt := "2024-01-01"; n_data := None |};
      unread "N2" ]
  /\ List.length (traffic w') = 1%nat
  /\ fst again = Ok tt
  /\ notifications (store (snd again)) = notifications (store w')
  /\ Forall2
       (fun before after =>
          n_id after = n_id before
          /\ n_type after = n_type before
          /\ n_title after = n_title before
          /\ n_message after = n_message before
          /\ n_createdAt after = n_createdAt before
          /\ n_data after = n_data before
          /\ n_read after
             = if String.eqb (n_id before) "N1" then true else n_read before)
       (notifications (store w)) (notifications (store w')).
Proof.
  intros w w' again.
  destruct (markNotificationRead_patches_locally "N1" w w'
              (run_eta _ _ _ eq_refl))
    as (_ & _ & Hpatch & Hsecond).
  destruct (Hsecond (fst again) (snd again) (surjective_pairing again))
    as (Hsame & env2 & Ht2 & Hr2 & _).
  split; [vm_compute; reflexivity|]. split; [vm_compute; reflexivity|].
  split.
  - apply Hr2. apply (f_equal (fun t => nth_error t 1)) in Ht2.
    vm_compute in Ht2. inversion Ht2. left. reflexivity.
  - split; [exact Hsame | exact Hpatch].
Defined.

Lemma createOrder_without_cart_witness :
  exists w',
    Shop.createOrder State.initial "card" "addr-1"
      (world (always (answers 200 cart_body)) State.initial)
    = (Throw (new_Error (JStr "Cart is empty")), w')
    /\ traffic w' = []
    /\ orders (store w') = []
    /\ cart (store w') = None
    /\ appliedPromo (store w') = None
    /\ toasts w' = [toast_error (JStr "Cart is empty")].
Proof.
  apply (createOrder_without_cart State.initial "card"
           "addr-1" (world (always (answers 200 cart_body)) State.initial)).
  reflexivity.
Defined.

(** ** The sign-in *)

Section SignIn.
Context {V : Views}.

Lemma GET_platform (w w' : World) (endpoint : string)
  (ps : list (string * JSValue)) :
  platform w' = platform w -> Shop.GET w' endpoint ps = Shop.GET w endpoint ps.
Proof.
  unfold platform. intros Hp. inversion Hp as [[Henv Htoken]].
  unfold Shop.GET, apiClient, token_in. rewrite Henv, Htoken. reflexivity.
Qed.

Lemma accepted_GET (w : World) (endpoint : string)
  (ps : list (string * JSValue)) :
  accepted w (Shop.GET w endpoint ps)
  = match refusal w endpoint with None => true | Some _ => false end.
Proof. reflexivity. Qed.

Lemma accepted_same (w w' : World) (rq : Request) :
  URL_refused w' = URL_refused w -> accepted w' rq = accepted w rq.
Proof. unfold accepted. intros ->. reflexivity. Qed.

Lemma refusal_same (w w' : World) (endpoint : string) :
  platform w' = platform w -> URL_refused w' = URL_refused w ->
  refusal w' endpoint = refusal w endpoint.
Proof.
  unfold platform, refusal, apiClient. intros Hp ->.
  inversion Hp as [[Henv Htoken]]. rewrite Henv. reflexivity.
Qed.

(** A payload-returning [GET] method, in either case. *)
Lemma get_method_gets {T} `{View T} (endpoint : string)
  (ps : option (list (string * JSValue))) (d : string) :
  Gets (response <- Client.get endpoint ps ;; data_or_throw (T:=T) response d)
    endpoint (appended ps) d.
Proof.
  intros w. destruct (refusal w endpoint) as [text|] eqn:Hurl.
  - exact (get_method_refused _ ps _ w _ Hurl).
  - exact (get_method_run _ ps _ w Hurl).
Qed.

Lemma getProfile_fetches :
  Gets UserService.getProfile API_ENDPOINTS.USER_PROFILE []
    "Failed to fetch profile".
Proof. exact (get_method_gets _ None _). Qed.

Lemma getCart_fetches :
  Gets CartService.getCart API_ENDPOINTS.CART [] "Failed to fetch cart".
Proof. exact (get_method_gets _ None _). Qed.

Lemma getWishlist_fetches :
  Gets UserService.getWishlist API_ENDPOINTS.WISHLIST []
    "Failed to fetch wishlist".
Proof. exact (get_method_gets _ None _). Qed.

Lemma getOrders_fetches :
  Gets (OrderService.getOrders 1 50 None) API_ENDPOINTS.ORDERS
    Shop.page_1_of_50 "Failed to fetch orders".
Proof. exact (get_method_gets _ (Some Shop.page_1_of_50) _). Qed.

Lemma getReturns_fetches :
  Gets (ReturnService.getReturns 1 50 None) API_ENDPOINTS.RETURNS
    Shop.page_1_of_50 "Failed to fetch returns".
Proof. exact (get_method_gets _ (Some Shop.page_1_of_50) _). Qed.

Lemma getNotifications_fetches :
  Gets (UserService.getNotifications 1 50 false)
    API_ENDPOINTS.USER_NOTIFICATIONS
    (Shop.page_1_of_50 ++ [("unreadOnly", JBool false)])
    "Failed to fetch notifications".
Proof.
  exact (get_method_gets _
           (Some (Shop.page_1_of_50 ++ [("unreadOnly", JBool false)])%list) _).
Qed.

Lemma getAddresses_fetches :
  Gets AddressService.getAddresses API_ENDPOINTS.ADDRESSES []
    "Failed to fetch addresses".
Proof. exact (get_method_gets _ None _). Qed.

(** A load makes the one call of its service method, whatever comes of
    it, or none when the platform refuses the URL. *)
Lemma load_sends {T} `{View T} (m : M T) (endpoint : string)
  (ps : list (string * JSValue)) (d : string) (k : T -> M unit)
  (label : string) :
  Gets m endpoint ps d ->
  (forall a, Preserves traffic (k a)) ->
  Sends (fun w => Shop.GET w endpoint ps)
    (try_catch (bind m k) (fun error => console_error label error)).
Proof.
  intros Hm Hk w r w' Hrun. unfold try_catch, bind in Hrun.
  specialize (Hm w). cbn [filter]. rewrite accepted_GET.
  destruct (refusal w endpoint) as [text|].
  - rewrite Hm in Hrun. cbn in Hrun. inversion Hrun; subst.
    exists []. cbn. rewrite app_nil_r. split; reflexivity.
  - destruct Hm as (env & r1 & Hsvc & _). rewrite Hsvc in Hrun.
    exists [(Shop.GET w endpoint ps, env)]. split; [|reflexivity].
    destruct r1 as [a | e].
    + destruct (k a _) as [[u | e] w2] eqn:Hkw; pose proof (Hk _ _ _ _ Hkw) as Ht;
        cbn in Hrun; inversion Hrun; subst; cbn in *; assumption.
    + cbn in Hrun. inversion Hrun. reflexivity.
Qed.

Lemma loadCart_sends :
  Sends (fun w => Shop.GET w API_ENDPOINTS.CART []) Shop.loadCart.
Proof. apply (load_sends _ _ _ _ _ _ getCart_fetches). intros a. preserving. Qed.

Lemma loadWishlist_sends :
  Sends (fun w => Shop.GET w API_ENDPOINTS.WISHLIST []) Shop.loadWishlist.
Proof.
  apply (load_sends _ _ _ _ _ _ getWishlist_fetches). intros a. preserving.
Qed.

Lemma loadOrders_sends :
  Sends (fun w => Shop.GET w API_ENDPOINTS.ORDERS Shop.page_1_of_50)
    Shop.loadOrders.
Proof. apply (load_sends _ _ _ _ _ _ getOrders_fetches). intros a. preserving. Qed.

Lemma loadReturns_sends :
  Sends (fun w => Shop.GET w API_ENDPOINTS.RETURNS Shop.page_1_of_50)
    Shop.loadReturns.
Proof.
  apply (load_sends _ _ _ _ _ _ getReturns_fetches). intros a. preserving.
Qed.

Lemma loadNotifications_sends :
  Sends (fun w => Shop.GET w API_ENDPOINTS.USER_NOTIFICATIONS
                    (Shop.page_1_of_50 ++ [("unreadOnly", JBool false)]))
    Shop.loadNotifications.
Proof.
  apply (load_sends _ _ _ _ _ _ getNotifications_fetches). intros a. preserving.
Qed.

Lemma loadAddresses_sends (seen : Store) :
  Sends (fun w => Shop.GET w API_ENDPOINTS.ADDRESSES [])
    (Shop.loadAddresses seen).
Proof.
  apply (load_sends _ _ _ _ _ _ getAddresses_fetches). intros a. preserving.
Qed.

(** The fan-out: every load is called and makes its call, in the order
    of the array; a load whose URL the platform refuses makes none. *)
Lemma Promise_all_sends (tasks : list (M unit)) (rqs : list (World -> Request)) :
  Forall2
    (fun m rq =>
       Settles m /\ Sends rq m /\ Preserves platform m
       /\ Preserves URL_refused m
       /\ forall w w', platform w' = platform w -> rq w' = rq w)
    tasks rqs ->
  forall w, exists calls w',
    Shop.Promise_all tasks w = (Ok tt, w')
    /\ map fst calls = filter (accepted w) (map (fun rq => rq w) rqs)
    /\ traffic w' = (traffic w ++ calls)%list
    /\ platform w' = platform w
    /\ URL_refused w' = URL_refused w.
Proof.
  induction 1
    as [| m rq tasks rqs (Hsettles & Hsends & Hplat & Hurl & Hrq) Hrest IH];
    intros w.
  - exists [], w. cbn. rewrite app_nil_r. auto.
  - destruct (Hsettles w) as ([] & w1 & Hm).
    destruct (Hsends _ _ _ Hm) as (calls1 & Ht1 & Hc1).
    pose proof (Hplat _ _ _ Hm) as Hp1. pose proof (Hurl _ _ _ Hm) as Hu1.
    destruct (IH w1) as (calls & w' & Hall & Hc & Ht & Hp & Hu).
    exists (calls1 ++ calls)%list, w'. cbn [Shop.Promise_all]. rewrite Hm.
    split; [exact Hall|]. split; [|split; [|split]].
    + rewrite map_app, Hc1, Hc.
      rewrite (filter_ext _ _ (fun rq0 => accepted_same w w1 rq0 Hu1)).
      assert (Hsame : map (fun rq0 => rq0 w1) rqs = map (fun rq0 => rq0 w) rqs).
      { clear - Hrest Hp1.
        induction Hrest as [| m' rq' ? ? (_ & _ & _ & _ & Hrq') _ IH'];
          cbn; [reflexivity | rewrite IH', (Hrq' _ _ Hp1); reflexivity]. }
      rewrite Hsame. cbn [map filter].
      destruct (accepted w (rq w)); reflexivity.
    + rewrite Ht, Ht1, <- app_assoc. reflexivity.
    + congruence.
    + congruence.
Qed.

Lemma fan_out_run (seen : Store) (w : World) :
  exists calls w',
    Shop.Promise_all
      [Shop.loadCart; Shop.loadWishlist; Shop.loadOrders; Shop.loadReturns;
       Shop.loadNotifications; Shop.loadAddresses seen] w
    = (Ok tt, w')
    /\ map fst calls = filter (accepted w) (Shop.fan_out w)
    /\ traffic w' = (traffic w ++ calls)%list
    /\ platform w' = platform w
    /\ URL_refused w' = URL_refused w.
Proof.
  apply (Promise_all_sends _
           [fun w => Shop.GET w API_ENDPOINTS.CART [];
            fun w => Shop.GET w API_ENDPOINTS.WISHLIST [];
            fun w => Shop.GET w API_ENDPOINTS.ORDERS Shop.page_1_of_50;
            fun w => Shop.GET w API_ENDPOINTS.RETURNS Shop.page_1_of_50;
            fun w => Shop.GET w API_ENDPOINTS.USER_NOTIFICATIONS
                       (Shop.page_1_of_50 ++ [("unreadOnly", JBool false)]);
            fun w => Shop.GET w API_ENDPOINTS.ADDRESSES []]).
  repeat constructor;
    try (intros ? ? ?; apply GET_platform; assumption);
    first [ apply loadCart_settles | apply loadWishlist_settles
          | apply loadOrders_settles | apply loadReturns_settles
          | apply loadNotifications_settles | apply loadAddresses_settles
          | apply loadCart_sends | apply loadWishlist_sends
          | apply loadOrders_sends | apply loadReturns_sends
          | apply loadNotifications_sends | apply loadAddresses_sends
          | preserving ].
Qed.

(** *** Tasks in between *)



(** The fan-out started after a task in between: its requests are built
    with the token that task left. *)
Lemma fan_out_aside (w : World) (token : option string)
  (logged : list (string * Exn)) (s : Store)
  (calls0 : list (Request * Envelope)) :
  filter
    (accepted
       (with_store s
          (with_console logged
             (with_clerkToken token (with_traffic calls0 w)))))
    (Shop.fan_out
       (with_store s
          (with_console logged
             (with_clerkToken token (with_traffic calls0 w)))))
  = filter (accepted w) (Shop.fan_out (with_clerkToken token w)).
Proof. reflexivity. Qed.

End SignIn.

Section SignInClaims.
Context {V : Views}.

(** A task in between leaves the awaited result as it is. *)
Lemma awaiting_run {A} (meanwhile : M unit) (m : M A) (w : World) :
  Aside meanwhile ->
  exists token logged,
    Shop.awaiting meanwhile m w
    = (fst (m w),
       with_console (console (snd (m w)) ++ logged)
         (with_clerkToken token (snd (m w)))).
Proof.
  intros Hm. unfold Shop.awaiting. destruct (m w) as [r w1]. cbn [fst snd].
  destruct (Hm w1) as (token & logged & ->). eauto.
Qed.


End SignInClaims.



Section AddressClaims.
Context {V : Views}.

(** A load called by a render that saw no user leaves the user alone. *)
Lemma fan_out_keeps_user (seen : Store) :
  user seen = None ->
  Preserves (fun w => user (store w))
    (Shop.Promise_all
       [Shop.loadCart; Shop.loadWishlist; Shop.loadOrders; Shop.loadReturns;
        Shop.loadNotifications; Shop.loadAddresses seen]).
Proof.
  intros Hseen. unfold Shop.loadAddresses. rewrite Hseen. preserving.
Qed.

(** The stale closure.  When the render that runs the sign-in effect
    saw no user, as the first render after sign-in does, the fan-out
    leaves the user just built from the profile as it is: its addresses
    stay empty, whatever the address fetch brings. *)
Lemma syncUser_leaves_addresses_empty (meanwhile : M unit) (seen : Store)
  (auth : Shop.Auth) (w w' : World) (r : Completion unit) :
  Aside meanwhile ->
  Shop.signed_in auth = true ->
  user seen = None ->
  Shop.syncUser_during meanwhile seen auth w = (r, w') ->
  (exists env rest,
     traffic w'
     = (traffic w ++ (Shop.GET w API_ENDPOINTS.USER_PROFILE [], env) :: rest)%list
     /\ has_data env = true) ->
  exists u, user (store w') = Some u /\ u_addresses u = [].
Proof.
  intros Haside Hsigned Hseen Hrun (env0 & rest0 & Ht0 & Hdata0).
  unfold Shop.syncUser_during in Hrun. rewrite Hsigned in Hrun.
  unfold try_finally, try_catch in Hrun.
  unfold bind at 1 in Hrun. cbn [State.setLoading State.update modify] in Hrun.
  unfold bind at 1 in Hrun. cbn [State.setError State.update modify] in Hrun.
  unfold bind at 1 in Hrun.
  match type of Hrun with
  | context [Shop.awaiting _ _ ?w0] =>
      destruct (awaiting_run meanwhile UserService.getProfile w0 Haside)
        as (token & logged & Hawait);
      pose proof (getProfile_fetches w0) as Hsvc
  end.
  rewrite Hawait in Hrun. clear Hawait.
  change (refusal _ API_ENDPOINTS.USER_PROFILE)
    with (refusal w API_ENDPOINTS.USER_PROFILE) in Hsvc.
  destruct (refusal w API_ENDPOINTS.USER_PROFILE) as [text|].
  - rewrite Hsvc in Hrun. cbn in Hrun. inversion Hrun; subst; clear Hrun.
    cbn in Ht0. apply (f_equal (@List.length _)) in Ht0.
    rewrite length_app in Ht0. cbn in Ht0. lia.
  - destruct Hsvc as (env & r1 & Hsvc & Hr1). rewrite Hsvc in Hrun.
    cbn [fst snd traffic store toasts console clerkToken with_store with_toasts
         with_traffic with_console with_clerkToken cart wishlist user orders
         returns notifications appliedPromo loading error] in Hrun.
    destruct r1 as [profile | e].
    + unfold bind at 1 in Hrun.
      cbn [State.setUser State.setUser_with State.update modify] in Hrun.
      match type of Hrun with
      | context [Shop.Promise_all _ ?w2] =>
          destruct (fan_out_run seen w2) as (calls & w3 & Hall & _);
          pose proof (fan_out_keeps_user seen Hseen _ _ _ Hall) as Huser
      end.
      rewrite Hall in Hrun. cbn in Hrun. inversion Hrun; subst; clear Hrun.
      cbn in Huser |- *. rewrite Huser. eexists. split; reflexivity.
    + destruct Hr1 as [Hdata _]. cbn in Hrun. inversion Hrun; subst; clear Hrun.
      cbn in Ht0. apply app_inv_head in Ht0. inversion Ht0; subst.
      rewrite Hdata in Hdata0. discriminate.
Qed.

(** The sibling path: a render that already saw a user does write the
    fetched addresses into it. *)
Lemma loadAddresses_writes_seen_user (seen : Store) (u : User) (w w' : World)
  (r : Completion unit) :
  user seen = Some u ->
  Shop.loadAddresses seen w = (r, w') ->
  forall env v,
    In (Shop.GET w API_ENDPOINTS.ADDRESSES [], env) (traffic w') ->
    ~ In (Shop.GET w API_ENDPOINTS.ADDRESSES []) (map fst (traffic w)) ->
    data env = Some v -> truthy v = true ->
    user (store w')
    = Some {| u_id := u_id u; u_name := u_name u; u_email := u_email u;
              u_phone := u_phone u; u_addresses := view v |}.
Proof.
  intros Hseen Hrun env v Hin Hfresh Hdata Hv.
  unfold Shop.loadAddresses, try_catch, bind in Hrun. rewrite Hseen in Hrun.
  pose proof (getAddresses_fetches w) as Hsvc.
  destruct (refusal w API_ENDPOINTS.ADDRESSES) as [text|].
  { rewrite Hsvc in Hrun. cbn in Hrun. inversion Hrun; subst. cbn in Hin.
    exfalso. apply Hfresh. apply (in_map fst) in Hin. exact Hin. }
  destruct Hsvc as (env1 & r1 & Hsvc & Hr1).
  rewrite Hsvc in Hrun.
  assert (Henv : env1 = env).
  { assert (Ht : traffic w'
                 = (traffic w ++ [(Shop.GET w API_ENDPOINTS.ADDRESSES [], env1)])%list).
    { destruct r1; cbn in Hrun; inversion Hrun; reflexivity. }
    rewrite Ht in Hin. apply in_app_or in Hin. destruct Hin as [Hin | [Heq | []]].
    - exfalso. apply Hfresh. apply (in_map fst) in Hin. exact Hin.
    - inversion Heq. reflexivity. }
  subst env1. destruct r1 as [addresses | e].
  - destruct Hr1 as (v1 & Hdata1 & _ & ->). rewrite Hdata in Hdata1.
    inversion Hdata1; subst. cbn in Hrun. inversion Hrun. reflexivity.
  - destruct Hr1 as [Hno _]. unfold has_data in Hno. rewrite Hdata, Hv in Hno.
    discriminate.
Qed.

End AddressClaims.

(** C9 at the first sign-in: the backend returns the profile and one
    address.  The seventh call is the address request, answered with that
    address; the user held afterwards is the one built from the profile,
    with no address, and so differs from the collection the fetch
    returned. *)
Theorem first_sign_in_leaves_addresses_empty :
  let w := world knows_user State.initial in
  let w' := snd (Shop.syncUser (V:=Reading.by_name) State.initial
                   signed_in_as_ada w) in
  nth_error (traffic w') 6
  = Some (Shop.GET w API_ENDPOINTS.ADDRESSES [],
          {| data := Some (JArr [home]); message := JStr "ok"; status := 200;
             errors := None |})
  /\ user (store w')
     = Some {| u_id := "user-1"; u_name := "Ada Lovelace";
               u_email := "ada@example.org"; u_phone := None;
               u_addresses := [] |}
  /\ option_map u_addresses (user (store w'))
     <> Some (view (View:=View_Addresses (Views:=Reading.by_name)) (JArr [home])).
Proof.
  intros w w'. split; [vm_compute; reflexivity|].
  split; [vm_compute; reflexivity|].
  intros Heq. vm_compute in Heq. discriminate Heq.
Qed.

(** ** The claims on concrete runs *)

Lemma services_reject_on_failure_witness :
  let w := world (always (answers 404 not_found)) State.initial in
  let run := perform (V:=Reading.by_name) Cart_getCart w in
  fst run = Throw (new_Error (JStr "Not found"))
  /\ exists calls,
       traffic (snd run) = calls
       /\ forall rq env, In (rq, env) calls -> data env = None ->
            exists d, In d (defaults Cart_getCart)
                      /\ fst run
                         = Throw (new_Error (js_or (message env) (JStr d))).
Proof.
  intros w run. split; [vm_compute; reflexivity|].
  apply (services_reject_on_failure (V:=Reading.by_name) Cart_getCart w
           (snd run) (fst run) eq_refl (surjective_pairing run)).
Defined.

(** C4, as the specification words it, fails: [isProductInWishlist]
    answers [false] when its transport call resolves without [data]. *)
Lemma isProductInWishlist_swallows_failure :
  ~ (forall (V : Views) (c : ServiceCall) (w w' : World) (r : Completion unit),
        perform c w = (r, w') ->
        exists calls,
          traffic w' = (traffic w ++ calls)%list
          /\ forall rq env, In (rq, env) calls -> data env = None ->
               exists d, In d (defaults c)
                         /\ r = Throw (new_Error (js_or (message env) (JStr d)))).
Proof.
  intros claim.
  pose (w := world (always (answers 404 not_found)) State.initial).
  pose (run := perform (V:=Reading.by_name) (User_isProductInWishlist "p-1") w).
  destruct (claim Reading.by_name (User_isProductInWishlist "p-1") w
              (snd run) (fst run) (surjective_pairing run))
    as (calls & Ht & Hfail).
  assert (Hrun : run
                 = (Ok tt,
                    with_traffic
                      [(Shop.GET w API_ENDPOINTS.WISHLIST [],
                        {| data := None; message := JStr "Not found";
                           status := 404; errors := Some (JArr []) |})] w))
    by (vm_compute; reflexivity).
  rewrite Hrun in Ht, Hfail. cbn [fst snd traffic with_traffic app w world] in Ht, Hfail.
  subst calls.
  destruct (Hfail _ _ (or_introl eq_refl) eq_refl) as (d & _ & Habs).
  discriminate Habs.
Qed.

(** C7, as the specification words it, fails: a successful
    [updateCartQuantity] shows no notice at all. *)
Lemma updateCartQuantity_success_is_silent :
  ~ (forall (V : Views) (seen : Store) (m : Shop.Mutation) (w w' : World)
            (r : Completion unit),
        Shop.invoke seen m w = (r, w') ->
        exists notice,
          toasts w' = (toasts w ++ [notice])%list
          /\ match r with
             | Ok _ => exists text, notice = toast_success text
             | Throw _ => exists text, notice = toast_error text
             end).
Proof.
  intros claim.
  pose (w := world (always (answers 200 cart_body)) State.initial).
  pose (run := Shop.invoke (V:=Reading.by_name) State.initial
                 (Shop.UpdateCartQuantity "item-1" 2) w).
  destruct (claim Reading.by_name State.initial
              (Shop.UpdateCartQuantity "item-1" 2) w (snd run) (fst run)
              (surjective_pairing run))
    as (notice & Ht & _).
  assert (Hrun : fst run = Ok tt /\ toasts (snd run) = [])
    by (split; vm_compute; reflexivity).
  destruct Hrun as [_ Hnone]. rewrite Hnone in Ht. discriminate Ht.
Qed.

(* ===================================================================== *)
(** * Further properties of the code *)
(* ===================================================================== *)

(** ** Headers *)

Section Headers.

Lemma header_set_same (k v : string) (hs : list (string * string)) :
  header k (set_header k v hs) = Some v.
Proof.
  induction hs as [| [k' v'] rest IH]; cbn.
  - rewrite String.eqb_refl. reflexivity.
  - destruct (String.eqb k k') eqn:Hk; cbn.
    + rewrite String.eqb_refl. reflexivity.
    + rewrite Hk. exact IH.
Qed.

Lemma header_set_other (k k' v : string) (hs : list (string * string)) :
  k <> k' -> header k' (set_header k v hs) = header k' hs.
Proof.
  intros Hne. induction hs as [| [k0 v0] rest IH]; cbn.
  - destruct (String.eqb_spec k' k); [congruence | reflexivity].
  - destruct (String.eqb_spec k k0) as [-> | Hk0]; cbn.
    + destruct (String.eqb_spec k' k0); [congruence | reflexivity].
    + destruct (String.eqb k' k0); [reflexivity | exact IH].
Qed.

Lemma set_header_keys (k v : string) (hs : list (string * string)) (k' : string) :
  In k' (map fst (set_header k v hs)) <-> k' = k \/ In k' (map fst hs).
Proof.
  induction hs as [| [k0 v0] rest IH]; cbn.
  - intuition.
  - destruct (String.eqb_spec k k0) as [-> | Hk0]; cbn.
    + intuition.
    + rewrite IH. intuition.
Qed.

Lemma set_header_NoDup (k v : string) (hs : list (string * string)) :
  NoDup (map fst hs) -> NoDup (map fst (set_header k v hs)).
Proof.
  induction hs as [| [k0 v0] rest IH]; cbn; intros Hnd.
  - constructor; [intros [] | constructor].
  - inversion Hnd as [| ? ? Hnotin Hrest]; subst.
    destruct (String.eqb_spec k k0) as [-> | Hk0]; cbn.
    + constructor; assumption.
    + constructor; [|auto].
      rewrite set_header_keys. intros [Heq | Hin]; [congruence | contradiction].
Qed.

Lemma spread_headers_NoDup (over base : list (string * string)) :
  NoDup (map fst base) -> NoDup (map fst (spread_headers over base)).
Proof.
  unfold spread_headers. revert base.
  induction over as [| [k v] rest IH]; cbn; intros base Hnd; [assumption|].
  apply IH. apply set_header_NoDup. assumption.
Qed.

Lemma spread_headers_absent (k : string) (over base : list (string * string)) :
  ~ In k (map fst over) ->
  header k (spread_headers over base) = header k base.
Proof.
  unfold spread_headers. revert base.
  induction over as [| [k0 v0] rest IH]; cbn; intros base Hnotin; [reflexivity|].
  rewrite IH by tauto. apply header_set_other. intros ->. tauto.
Qed.

(** X1. The headers [request] sends never repeat a name.  With a token
    the [Authorization] header is ["Bearer " + token], whatever the caller
    passed under that name; without one, none is added.  The content type
    is JSON unless the caller passed one. *)
Theorem request_headers_carry_token (token : string) (options : RequestInit) :
  NoDup (map fst (request_headers token options))
  /\ (token <> "" ->
      header "Authorization" (request_headers token options)
      = Some ("Bearer " ++ token))
  /\ (token = "" -> ~ In "Authorization" (map fst (ri_headers options)) ->
      header "Authorization" (request_headers token options) = None)
  /\ (~ In "Content-Type" (map fst (ri_headers options)) ->
      header "Content-Type" (request_headers token options)
      = Some "application/json").
Proof.
  unfold request_headers.
  assert (Hbase : NoDup (map fst [("Content-Type", "application/json")]))
    by (constructor; [intros [] | constructor]).
  destruct (String.eqb_spec token "") as [-> | Htoken].
  - split; [apply spread_headers_NoDup; exact Hbase|].
    split; [congruence|]. split.
    + intros _ Hnotin. rewrite spread_headers_absent by assumption. reflexivity.
    + intros Hnotin. rewrite spread_headers_absent by assumption. reflexivity.
  - split; [apply set_header_NoDup, spread_headers_NoDup; exact Hbase|].
    split; [intros _; apply header_set_same|].
    split; [congruence|].
    intros Hnotin. rewrite header_set_other by discriminate.
    rewrite spread_headers_absent by assumption. reflexivity.
Qed.

End Headers.

Lemma request_headers_carry_token_witness :
  header "Authorization"
    (request_headers "token-1"
       {| ri_method := None;
          ri_headers := [("Authorization", "Basic abc"); ("X-Trace", "1")];
          ri_body := NoBody |})
  = Some "Bearer token-1"
  /\ header "Content-Type"
       (request_headers "token-1"
          {| ri_method := None;
             ri_headers := [("Authorization", "Basic abc"); ("X-Trace", "1")];
             ri_body := NoBody |})
     = Some "application/json".
Proof.
  destruct (request_headers_carry_token "token-1"
              {| ri_method := None;
                 ri_headers := [("Authorization", "Basic abc"); ("X-Trace", "1")];
                 ri_body := NoBody |}) as (_ & Hauth & _ & Hct).
  split.
  - apply Hauth. discriminate.
  - apply Hct. cbn. intros [H | [H | []]]; discriminate H.
Defined.

(** ** The transport client, call by call *)

Section Calls.

(** What [request] resolves with, by the exchange the backend has for
    the request. *)
Lemma request_by_exchange (this : ApiClient) (target : Target)
  (options : RequestInit) (w : World) :
  let rq := request_input this (token_in w) target options in
  let ex := exchange w rq in
  exists env,
    request this target options w = (Ok env, sent rq env w)
    /\ (forall st body,
          latency ex < timeout this ->
          outcome ex = Responds st (Parsed body) ->
          nullish body = false ->
          env = if ((200 <=? st) && (st <=? 299))%bool then
                  {| data := Some (js_or (prop "data" body) body);
                     message := js_or (prop "message" body) (JStr "Success");
                     status := st;
                     errors := None |}
                else
                  {| data := None;
                     message := js_or (prop "message" body) (JStr "Request failed");
                     status := st;
                     errors := Some (js_or (prop "errors" body) (JArr [])) |})
    /\ ((timeout this <= latency ex
         \/ (exists e, outcome ex = Rejects e)
         \/ (exists st e, outcome ex = Responds st (ParseFails e))
         \/ (exists st body, outcome ex = Responds st (Parsed body)
                             /\ nullish body = true)) ->
        data env = None /\ status env = 500 /\ errors env = None).
Proof.
  intros rq ex. subst rq ex. unfold exchange, sent. run_request.
  destruct (latency _ <? timeout this) eqn:Hlat.
  - apply Z.ltb_lt in Hlat.
    destruct (outcome _) as [e | st [body | e]] eqn:Hout; cbn [r_json r_status].
    + destruct e as [name m | v]; [destruct (String.eqb name "AbortError")|];
        eexists; (split; [reflexivity|]);
        (split; [intros ? ? _ Habs; discriminate Habs | intros _; repeat split]).
    + unfold ok; cbn [r_status].
      destruct (nullish body) eqn:Hnull;
        destruct ((200 <=? st) && (st <=? 299))%bool eqn:Hok; cbn;
        eexists; (split; [reflexivity|]);
        (split;
         [ intros st' body' _ Heq Hb; inversion Heq; subst;
           rewrite ?Hok; congruence
         | intros Hc;
           first
             [ solve [repeat split]
             | destruct Hc
                 as [Hslow | [[e He] | [(st' & e & He) | (st' & body' & He & Hb)]]];
               [ lia | discriminate He | discriminate He
               | inversion He; subst; congruence ] ] ]).
    + destruct e as [name m | v]; [destruct (String.eqb name "AbortError")|];
        eexists; (split; [reflexivity|]);
        (split; [intros ? ? _ Habs; discriminate Habs | intros _; repeat split]).
  - apply Z.ltb_ge in Hlat. cbn. eexists. split; [reflexivity|].
    split; [intros ? ? Hlt; lia | intros _; repeat split].
Qed.

Lemma upload_resolves (this : ApiClient) (endpoint : string)
  (formData : list (string * FormValue)) (w : World) :
  exists env,
    upload this endpoint formData w
    = (Ok env, sent (upload_input this (token_in w) endpoint formData) env w).
Proof.
  unfold sent. run_request.
  destruct (latency _ <? timeout this); [|cbn; eauto].
  destruct (outcome _) as [e | st [body | e]]; cbn [r_json r_status].
  - destruct e as [name m | v]; eauto.
  - destruct (negb (ok _)); destruct (nullish body); cbn; eauto.
  - destruct e as [name m | v]; eauto.
Qed.

Lemma get_exact (endpoint : string) (ps : option (list (string * JSValue)))
  (w : World) :
  refusal w endpoint = None ->
  exists env,
    Client.get endpoint ps w
    = (Ok env, sent (Shop.GET w endpoint (appended ps)) env w).
Proof.
  intros Hurl. rewrite (get_run _ _ _ Hurl).
  destruct (request_by_exchange (apiClient w)
              (PathAndSearch (baseURL (apiClient w) ++ endpoint) (appended ps))
              no_options w) as (env & Hrun & _).
  exists env. exact Hrun.
Qed.

Lemma post_exact (endpoint : string) (d : JSValue) :
  Exact (fun w => Shop.POST w endpoint d) (Client.post endpoint d).
Proof.
  intros w. unfold Client.post, Client.on, Transport.post.
  destruct (request_by_exchange (apiClient w) (Path endpoint)
              {| ri_method := Some "POST"; ri_headers := [];
                 ri_body := stringified d |} w) as (env & Hrun & _).
  exists env. exact Hrun.
Qed.

Lemma patch_exact (endpoint : string) (d : JSValue) :
  Exact (fun w => PATCH w endpoint d) (Client.patch endpoint d).
Proof.
  intros w. unfold Client.patch, Client.on, Transport.patch.
  destruct (request_by_exchange (apiClient w) (Path endpoint)
              {| ri_method := Some "PATCH"; ri_headers := [];
                 ri_body := stringified d |} w) as (env & Hrun & _).
  exists env. exact Hrun.
Qed.

Lemma delete_exact (endpoint : string) :
  Exact (fun w => DELETE w endpoint) (Client.delete endpoint).
Proof.
  intros w. unfold Client.delete, Client.on, Transport.delete.
  destruct (request_by_exchange (apiClient w) (Path endpoint)
              {| ri_method := Some "DELETE"; ri_headers := [];
                 ri_body := NoBody |} w) as (env & Hrun & _).
  exists env. exact Hrun.
Qed.

Lemma upload_exact (endpoint : string) (formData : list (string * FormValue)) :
  Exact (fun w => UPLOAD w endpoint formData) (Client.upload endpoint formData).
Proof.
  intros w. unfold Client.upload, Client.on.
  exact (upload_resolves (apiClient w) endpoint formData w).
Qed.

(** The two tails after one call. *)
Lemma data_tail {T} `{View T} (call : M Envelope) (rq_of : World -> Request)
  (d : string) :
  Exact rq_of call ->
  Fetches (bind call (fun response => data_or_throw (T:=T) response d)) rq_of d.
Proof.
  intros Hcall w. destruct (Hcall w) as [env Hrun]. exists env.
  unfold bind. rewrite Hrun. unfold data_or_throw, has_data, ret, throw, sent.
  destruct (data env) as [v|]; [destruct (truthy v) eqn:Hv|];
    eexists; (split; [reflexivity|]); cbn; eauto.
Qed.

Lemma done_tail (call : M Envelope) (rq_of : World -> Request) (d : string) :
  Exact rq_of call ->
  Finishes (bind call (fun response => done_or_throw response d)) rq_of d.
Proof.
  intros Hcall w. destruct (Hcall w) as [env Hrun]. exists env.
  unfold bind. rewrite Hrun. unfold done_or_throw, ret, throw.
  destruct (Z.eqb_spec (status env) 200) as [H200 | H200];
    destruct (Z.eqb_spec (status env) 204) as [H204 | H204]; cbn;
    eexists; (split; [reflexivity|]); cbn; auto.
Qed.

End Calls.

(** ** The transport client at its edges *)

Section Edges.

Lemma appended_keeps (ps : list (string * JSValue)) (k : string) (v : JSValue) :
  In (k, v) (appended (Some ps))
  <-> In (k, v) ps /\ v <> JUndefined /\ v <> JNull.
Proof.
  unfold appended. rewrite filter_In. cbn [snd]. split.
  - intros [Hin Hn]. split; [assumption|].
    destruct v; cbn in Hn; try discriminate Hn; split; discriminate.
  - intros (Hin & Hu & Hn). split; [assumption|].
    destruct v; cbn; congruence.
Qed.

Lemma appended_nothing (ps : list (string * JSValue)) :
  (forall k v, In (k, v) ps -> nullish v = true) -> appended (Some ps) = [].
Proof.
  intros Hall. unfold appended. induction ps as [| [k v] ps IH]; [reflexivity|].
  cbn. rewrite (Hall k v) by (left; reflexivity). cbn.
  apply IH. intros k' v' Hin. apply (Hall k' v'). right. assumption.
Qed.

(** X2. [get] builds the URL with [new URL] before anything is sent.
    Where the platform refuses the text (a base URL that is not absolute),
    [get] rejects with the TypeError and makes no call.  Where it takes
    it, [get] resolves with one call, which carries as search parameters
    exactly the parameters whose value is neither [undefined] nor [null]
    (so [0], [false] and the empty string are sent).  In either case, when
    no parameter is left, the call is the one made with no parameters at
    all. *)
Theorem get_sends_defined_params (endpoint : string)
  (ps : list (string * JSValue)) (w : World) :
  match refusal w endpoint with
  | Some text => Client.get endpoint (Some ps) w = (Throw (Invalid_URL text), w)
  | None =>
      exists env qs,
        Client.get endpoint (Some ps) w
        = (Ok env, sent (Shop.GET w endpoint qs) env w)
        /\ (forall k v,
              In (k, v) qs <-> In (k, v) ps /\ v <> JUndefined /\ v <> JNull)
  end
  /\ ((forall k v, In (k, v) ps -> nullish v = true) ->
      Client.get endpoint (Some ps) w = Client.get endpoint None w).
Proof.
  split.
  - destruct (refusal w endpoint) as [text|] eqn:Hurl.
    + exact (get_refused _ _ _ _ Hurl).
    + destruct (get_exact endpoint (Some ps) w Hurl) as [env Hrun].
      exists env, (appended (Some ps)). split; [exact Hrun|].
      apply appended_keeps.
  - intros Hall. unfold Client.get, Client.on, Transport.get.
    rewrite (appended_nothing ps Hall). reflexivity.
Qed.

(** X3. A response that arrives in time with the JSON body [null] is
    turned into the internal-error envelope whatever its status: no
    [data], status 500, no [errors]. *)
Theorem null_body_resolves_as_failure (this : ApiClient) (target : Target)
  (options : RequestInit) (w : World) (st : Z) (body : JSValue) :
  let ex := exchange w (request_input this (token_in w) target options) in
  latency ex < timeout this ->
  outcome ex = Responds st (Parsed body) ->
  nullish body = true ->
  exists env,
    fst (request this target options w) = Ok env
    /\ data env = None /\ status env = 500 /\ errors env = None.
Proof.
  intros ex Hlat Hout Hnull. subst ex.
  destruct (request_by_exchange this target options w) as (env & Hrun & _ & Hfail).
  exists env. rewrite Hrun. split; [reflexivity|].
  apply Hfail. right. right. right. eauto.
Qed.

Lemma null_body_resolves_as_failure_witness :
  exists env,
    fst (request client (Path "/cart") no_options
           (world (always (answers 200 JNull)) State.initial)) = Ok env
    /\ data env = None /\ status env = 500 /\ errors env = None.
Proof.
  apply (null_body_resolves_as_failure client (Path "/cart") no_options
           (world (always (answers 200 JNull)) State.initial) 200 JNull);
    [vm_compute; reflexivity | reflexivity | reflexivity].
Defined.

(** X4. A 2xx response whose body is a falsy value other than [null]
    ([false], [0], the empty string) gives an envelope whose [data] is
    that value and whose message is "Success": a payload-returning method
    then rejects, with an error that says "Success". *)
Theorem falsy_body_rejects_with_Success {T} `{View T} (this : ApiClient)
  (target : Target) (options : RequestInit) (d : string) (w : World) (st : Z)
  (body : JSValue) :
  let ex := exchange w (request_input this (token_in w) target options) in
  latency ex < timeout this ->
  outcome ex = Responds st (Parsed body) ->
  200 <= st <= 299 ->
  nullish body = false ->
  truthy body = false ->
  fst (request this target options w)
  = Ok {| data := Some body; message := JStr "Success"; status := st;
          errors := None |}
  /\ fst ((response <- request this target options ;;
           data_or_throw (T:=T) response d) w)
     = Throw (new_Error (JStr "Success")).
Proof.
  intros ex Hlat Hout Hst Hnull Hfalsy. subst ex.
  destruct (request_by_exchange this target options w) as (env & Hrun & Hok & _).
  specialize (Hok st body Hlat Hout Hnull).
  replace ((200 <=? st) && (st <=? 299))%bool with true in Hok
    by (symmetry; apply andb_true_iff; split; apply Z.leb_le; lia).
  assert (Hprop : forall k, prop k body = JUndefined).
  { intros k. destruct body; try reflexivity; discriminate Hfalsy. }
  rewrite !Hprop in Hok. unfold js_or in Hok. cbn in Hok. subst env.
  unfold bind. rewrite Hrun. cbn. split; [reflexivity|].
  unfold data_or_throw. cbn. rewrite Hfalsy. reflexivity.
Qed.

End Edges.

Lemma falsy_body_rejects_with_Success_witness :
  fst (request client (Path "/cart") no_options
         (world (always (answers 200 (JBool false))) State.initial))
  = Ok {| data := Some (JBool false); message := JStr "Success"; status := 200;
          errors := None |}
  /\ fst ((response <- request client (Path "/cart") no_options ;;
           data_or_throw (T:=Cart) (H:=Reading.cart_) response
             "Failed to fetch cart")
            (world (always (answers 200 (JBool false))) State.initial))
     = Throw (new_Error (JStr "Success")).
Proof.
  apply (falsy_body_rejects_with_Success (H:=Reading.cart_) client (Path "/cart")
           no_options "Failed to fetch cart"
           (world (always (answers 200 (JBool false))) State.initial)
           200 (JBool false));
    [vm_compute; reflexivity | reflexivity | lia | reflexivity | reflexivity].
Defined.

(** ** What the status-keyed methods go by *)

Section StatusKeyed.
Context {V : Views}.

Lemma finishes_run (m : M unit) (rq_of : World -> Request) (d : string)
  (ds : list string) :
  Finishes m rq_of d -> In d ds ->
  forall w r w', m w = (r, w') ->
    exists rq env,
      w' = sent rq env w
      /\ match r with
         | Ok _ => status env = 200 \/ status env = 204
         | Throw e =>
             status env <> 200 /\ status env <> 204
             /\ exists d, In d ds
                          /\ e = new_Error (js_or (message env) (JStr d))
         end.
Proof.
  intros Hm Hd w r w' Hrun. destruct (Hm w) as (env & r0 & Hrun0 & Hr).
  rewrite Hrun0 in Hrun. inversion Hrun; subst. exists (rq_of w), env.
  split; [reflexivity|]. destruct r as [u | e]; [assumption|].
  destruct Hr as (H200 & H204 & He). eauto 6.
Qed.

(** X5. The nine methods that resolve with nothing make one call and
    go by the envelope's status alone: they fulfil exactly when it is 200
    or 204 (so a 201 or 202 with a payload rejects), and otherwise reject
    with the envelope's message or the method's own. *)
Theorem status_keyed_methods_go_by_status (c : ServiceCall) (w w' : World)
  (r : Completion unit) :
  status_keyed c = true ->
  perform c w = (r, w') ->
  exists rq env,
    w' = sent rq env w
    /\ match r with
       | Ok _ => status env = 200 \/ status env = 204
       | Throw e =>
           status env <> 200 /\ status env <> 204
           /\ exists d, In d (defaults c)
                        /\ e = new_Error (js_or (message env) (JStr d))
       end.
Proof.
  intros Hc. revert w r w'.
  destruct c; try discriminate Hc; cbn [perform defaults];
    lazymatch goal with
    | |- forall w r w', ?m w = _ -> _ =>
        let h := head_of m in unfold h
    end;
    (eapply finishes_run; [apply done_tail | left; reflexivity]);
    first [apply post_exact | apply delete_exact].
Qed.

(** X6. A response whose body does not parse (as the empty body of a
    204 No Content does not) never passes the status check, whatever its
    status: the envelope carries 500, and a status-keyed tail rejects. *)
Theorem unparsed_body_fails_status_check (this : ApiClient) (target : Target)
  (options : RequestInit) (d : string) (w : World) (st : Z) (e : Exn) :
  let ex := exchange w (request_input this (token_in w) target options) in
  latency ex < timeout this ->
  outcome ex = Responds st (ParseFails e) ->
  exists env,
    fst (request this target options w) = Ok env
    /\ status env = 500
    /\ fst ((response <- request this target options ;;
             done_or_throw response d) w)
       = Throw (new_Error (js_or (message env) (JStr d))).
Proof.
  intros ex Hlat Hout. subst ex.
  destruct (request_by_exchange this target options w) as (env & Hrun & _ & Hfail).
  destruct Hfail as (_ & Hst & _); [right; right; left; eauto|].
  exists env. unfold bind. rewrite Hrun. cbn [fst].
  split; [reflexivity|]. split; [assumption|].
  unfold done_or_throw. rewrite Hst. reflexivity.
Qed.

End StatusKeyed.

Lemma status_keyed_methods_go_by_status_witness :
  exists rq env,
    snd (perform (V:=Reading.by_name) Cart_clearCart
           (world (always (answers 201 cart_body)) State.initial))
    = sent rq env (world (always (answers 201 cart_body)) State.initial)
    /\ status env = 201
    /\ fst (perform (V:=Reading.by_name) Cart_clearCart
              (world (always (answers 201 cart_body)) State.initial))
       = Throw (new_Error (JStr "ok")).
Proof.
  pose (w := world (always (answers 201 cart_body)) State.initial).
  pose (run := perform (V:=Reading.by_name) Cart_clearCart w).
  destruct (status_keyed_methods_go_by_status (V:=Reading.by_name)
              Cart_clearCart w (snd run) (fst run) eq_refl
              (surjective_pairing run))
    as (rq & env & Hw & _).
  exists rq, env. split; [exact Hw|].
  assert (Ht : traffic (snd run) = traffic (sent rq env w)) by (rewrite Hw; reflexivity).
  vm_compute in Ht. inversion Ht. split; vm_compute; reflexivity.
Defined.

Lemma unparsed_body_fails_status_check_witness :
  exists env,
    fst (request client (Path "/cart")
           {| ri_method := Some "DELETE"; ri_headers := []; ri_body := NoBody |}
           (world (always (unreadable 204)) State.initial)) = Ok env
    /\ status env = 500
    /\ fst ((response <- request client (Path "/cart")
                           {| ri_method := Some "DELETE"; ri_headers := [];
                              ri_body := NoBody |} ;;
             done_or_throw response "Failed to clear cart")
              (world (always (unreadable 204)) State.initial))
       = Throw (new_Error (js_or (message env) (JStr "Failed to clear cart"))).
Proof.
  apply (unparsed_body_fails_status_check client (Path "/cart")
           {| ri_method := Some "DELETE"; ri_headers := []; ri_body := NoBody |}
           "Failed to clear cart"
           (world (always (unreadable 204)) State.initial) 204
           (JsError "SyntaxError" (JStr "Unexpected end of JSON input")));
    [vm_compute; reflexivity | reflexivity].
Defined.

(** ** When the payload methods fulfil *)

Section AcceptingFacts.
Context {V : Views}.







End AcceptingFacts.



Section AcceptingMethods.
Context {V : Views}.


End AcceptingMethods.


(** ** Methods that make two calls *)

Section TwoCalls.
Context {V : Views}.

(** A [GET] method where the platform takes the URL, and where it does
    not. *)
Lemma gets_reached {T} `{View T} (m : M T) (endpoint : string)
  (ps : list (string * JSValue)) (d : string) (w : World) :
  Gets m endpoint ps d -> refusal w endpoint = None ->
  Fetched m (Shop.GET w endpoint ps) d w.
Proof. intros Hm Hurl. specialize (Hm w). rewrite Hurl in Hm. exact Hm. Qed.

Lemma gets_refused {T} `{View T} (m : M T) (endpoint : string)
  (ps : list (string * JSValue)) (d : string) (w : World) (text : string) :
  Gets m endpoint ps d -> refusal w endpoint = Some text ->
  m w = (Throw (Invalid_URL text), w).
Proof. intros Hm Hurl. specialize (Hm w). rewrite Hurl in Hm. exact Hm. Qed.

Lemma reachable_sent (rq : Request) (env : Envelope) (w : World) :
  reachable w -> reachable (sent rq env w).
Proof. intros Hw endpoint. exact (Hw endpoint). Qed.

Lemma getProductById_fetches (id : string) :
  Gets (ProductService.getProductById id) (API_ENDPOINTS.PRODUCT_BY_ID id) []
    "Failed to fetch product".
Proof. exact (get_method_gets _ None _). Qed.

Lemma getProducts_fetches (filters : option (list (string * JSValue))) :
  Gets (ProductService.getProducts filters) API_ENDPOINTS.PRODUCTS
    (appended filters) "Failed to fetch products".
Proof. exact (get_method_gets _ filters _). Qed.

Lemma getAddressById_fetches {T} `{View T} (id : string) :
  Gets (AddressService.getAddressById_as (T:=T) id)
    (API_ENDPOINTS.ADDRESS_BY_ID id) [] "Failed to fetch address".
Proof. exact (get_method_gets _ None _). Qed.

Lemma createAddress_fetches (address : JSValue) :
  Fetches (AddressService.createAddress address)
    (fun w => Shop.POST w API_ENDPOINTS.ADDRESSES address)
    "Failed to create address".
Proof. apply data_tail. apply post_exact. Qed.




(** *** Object spread *)

Lemma assoc_set_prop_same (k : string) (v : JSValue)
  (ps : list (string * JSValue)) : assoc k (set_prop k v ps) = v.
Proof.
  induction ps as [| [k' v'] ps IH]; cbn.
  - rewrite String.eqb_refl. reflexivity.
  - destruct (String.eqb k k') eqn:Hk; cbn.
    + rewrite String.eqb_refl. reflexivity.
    + rewrite Hk. exact IH.
Qed.

Lemma assoc_set_prop_other (k k' : string) (v : JSValue)
  (ps : list (string * JSValue)) :
  k <> k' -> assoc k (set_prop k' v ps) = assoc k ps.
Proof.
  intros Hne. apply String.eqb_neq in Hne.
  induction ps as [| [k'' v''] ps IH]; cbn.
  - rewrite Hne. reflexivity.
  - destruct (String.eqb k' k'') eqn:Hk; cbn.
    + apply String.eqb_eq in Hk. subst k''. rewrite Hne. reflexivity.
    + destruct (String.eqb k k''); [reflexivity | exact IH].
Qed.

Lemma spread_keeps (base over : list (string * JSValue)) (k : string) :
  ~ In k (map fst over) -> assoc k (spread base over) = assoc k base.
Proof.
  unfold spread. revert base.
  induction over as [| [k' v'] over IH]; intros base Hout; [reflexivity|].
  cbn in *. rewrite IH by tauto.
  apply assoc_set_prop_other. intros ->. tauto.
Qed.

Lemma spread_overrides (base over : list (string * JSValue)) (k : string)
  (v : JSValue) :
  NoDup (map fst over) -> In (k, v) over -> assoc k (spread base over) = v.
Proof.
  unfold spread. revert base.
  induction over as [| [k' v'] over IH]; intros base Hnd Hin; [destruct Hin|].
  cbn in *. inversion Hnd as [| ? ? Hout Hnd']; subst.
  destruct Hin as [Heq | Hin].
  - inversion Heq; subst.
    change (assoc k (spread (set_prop k v base) over) = v).
    rewrite spread_keeps by assumption. apply assoc_set_prop_same.
  - apply IH; assumption.
Qed.

(** What [assoc] finds in an object literal whose values are read off
    [v] by the keys themselves. *)
Lemma assoc_copied (v : JSValue) (keys : list string)
  (rest : list (string * JSValue)) (k : string) :
  assoc k (map (fun key => (key, prop key v)) keys ++ rest)
  = if existsb (String.eqb k) keys then prop k v else assoc k rest.
Proof.
  induction keys as [| key keys IH]; [reflexivity|].
  cbn. destruct (String.eqb_spec k key) as [-> | Hne]; [reflexivity|].
  exact IH.
Qed.

(** X9. Where the platform takes the URL of the address,
    [duplicateAddress] first reads the address; when that call brings no
    data it rejects and nothing is created.  Otherwise it posts one new
    address.  In its body every property the modifications name has the
    modification's value.  Of the others, [isDefault] is false (the copy
    is the default address only when the modifications say so); each of
    [fullName], [addressLine1], [addressLine2], [city], [state],
    [postalCode], [country] and [phoneNumber] is what the payload fetched
    has under that name, [undefined] when it has nothing there; and there
    is no further property: neither the original's [id] nor its dates are
    copied. *)
Theorem duplicateAddress_copies_and_overrides (id : string)
  (modifications : list (string * JSValue)) (w w' : World)
  (r : Completion Address) :
  refusal w (API_ENDPOINTS.ADDRESS_BY_ID id) = None ->
  NoDup (map fst modifications) ->
  AddressService.duplicateAddress id modifications w = (r, w') ->
  let rq1 := Shop.GET w (API_ENDPOINTS.ADDRESS_BY_ID id) [] in
  exists env1,
    (has_data env1 = false
     /\ w' = sent rq1 env1 w
     /\ r = Throw (new_Error (js_or (message env1)
                                (JStr "Failed to fetch address"))))
    \/ (exists v body env2,
          data env1 = Some v /\ truthy v = true
          /\ w' = sent (Shop.POST w API_ENDPOINTS.ADDRESSES (JObj body)) env2
                    (sent rq1 env1 w)
          /\ (forall k x, In (k, x) modifications -> assoc k body = x)
          /\ (forall k, ~ In k (map fst modifications) ->
                assoc k body
                = if String.eqb k "isDefault" then JBool false
                  else if existsb (String.eqb k) copied_properties
                       then prop k v
                       else JUndefined)).
Proof.
  intros Hurl Hnd Hrun rq1. subst rq1.
  unfold AddressService.duplicateAddress, bind in Hrun.
  destruct (gets_reached _ _ _ _ w (getAddressById_fetches (T:=JSValue) id) Hurl)
    as (env1 & r1 & Hrun1 & Hr1).
  rewrite Hrun1 in Hrun. exists env1. destruct r1 as [original | e].
  - right. destruct Hr1 as (v & Hd & Hv & ->). cbv zeta in Hrun.
    match type of Hrun with
    | context [AddressService.createAddress (JObj ?b) ?w1] =>
        destruct (createAddress_fetches (JObj b) w1) as (env2 & r2 & Hrun2 & _);
        exists v, b, env2
    end.
    rewrite Hrun2 in Hrun. inversion Hrun; subst.
    split; [assumption|]. split; [assumption|]. split; [reflexivity|].
    split; [intros k x Hin; apply spread_overrides; assumption|].
    intros k Hout. rewrite spread_keeps by assumption.
    pose proof (assoc_copied v copied_properties [("isDefault", JBool false)] k)
      as Hcopied.
    unfold copied_properties at 1 in Hcopied. cbn [map app] in Hcopied.
    change (view v) with v. rewrite Hcopied.
    destruct (existsb (String.eqb k) copied_properties) eqn:Hk.
    + destruct (String.eqb_spec k "isDefault") as [-> | _];
        [discriminate Hk | reflexivity].
    + cbn. destruct (String.eqb k "isDefault"); reflexivity.
  - left. destruct Hr1 as [Hd ->]. inversion Hrun; subst. auto.
Qed.

End TwoCalls.

(** The platform of the scenarios takes every URL the client builds on
    the default base URL. *)
Lemma scenario_reachable (backend : list Request -> Request -> Exchange)
  (s : Store) : reachable (world backend s).
Proof. intros endpoint. reflexivity. Qed.


(** The address [home] has no [addressLine1], [state], [postalCode],
    [country] or [phoneNumber]: the copy has none either. *)
Lemma duplicateAddress_copies_and_overrides_witness :
  exists body env1 env2,
    traffic (snd (AddressService.duplicateAddress (V:=Reading.by_name) "addr-1"
                    [("city", JStr "Paris")] (world address_book State.initial)))
    = [(Shop.GET (world address_book State.initial)
          (API_ENDPOINTS.ADDRESS_BY_ID "addr-1") [], env1);
       (Shop.POST (world address_book State.initial) API_ENDPOINTS.ADDRESSES
          (JObj body), env2)]
    /\ assoc "city" body = JStr "Paris"
    /\ assoc "fullName" body = JStr "Ada Lovelace"
    /\ assoc "postalCode" body = JUndefined
    /\ assoc "isDefault" body = JBool false
    /\ assoc "id" body = JUndefined.
Proof.
  set (w := world address_book State.initial).
  set (run := AddressService.duplicateAddress (V:=Reading.by_name) "addr-1"
                [("city", JStr "Paris")] w).
  assert (Hnd : NoDup (map fst [("city", JStr "Paris")]))
    by (constructor; [intros [] | constructor]).
  assert (Hout : forall k, String.eqb k "city" = false ->
                           ~ In k (map fst [("city", JStr "Paris")])).
  { intros k Hk [Habs | []]. subst k. discriminate Hk. }
  destruct (duplicateAddress_copies_and_overrides (V:=Reading.by_name) "addr-1"
              [("city", JStr "Paris")] w (snd run) (fst run) eq_refl Hnd
              (surjective_pairing run))
    as [env1 [(_ & Hw & _) | (v & body & env2 & Hd & _ & Hw & Hover & Hrest)]].
  - apply (f_equal (fun w => List.length (traffic w))) in Hw.
    vm_compute in Hw. discriminate Hw.
  - assert (Hv : v = home).
    { assert (Ht : nth_error (traffic (snd run)) 0
                   = nth_error (traffic (sent (Shop.POST w API_ENDPOINTS.ADDRESSES
                                                 (JObj body)) env2
                                           (sent (Shop.GET w
                                                    (API_ENDPOINTS.ADDRESS_BY_ID
                                                       "addr-1") []) env1 w))) 0)
        by (rewrite Hw; reflexivity).
      vm_compute in Ht. inversion Ht; subst env1. cbn in Hd.
      inversion Hd. reflexivity. }
    subst v.
    exists body, env1, env2. rewrite Hw. split; [reflexivity|].
    split; [apply Hover; left; reflexivity|].
    repeat split;
      (rewrite Hrest by (apply Hout; reflexivity)); reflexivity.
Defined.

(** ** Multipart requests *)

Section Multipart.
Context {V : Views}.

Lemma upload_headers_no_content_type (w : World) (endpoint : string)
  (formData : list (string * FormValue)) :
  header "Content-Type" (rq_headers (UPLOAD w endpoint formData)) = None.
Proof.
  unfold UPLOAD, upload_input. cbn [rq_headers].
  destruct (String.eqb (token_in w) ""); reflexivity.
Qed.

Lemma post_headers_content_type (w : World) (endpoint : string) (d : JSValue) :
  header "Content-Type" (rq_headers (Shop.POST w endpoint d))
  = Some "application/json".
Proof.
  unfold Shop.POST, request_input, request_headers. cbn [rq_headers ri_headers].
  destruct (String.eqb (token_in w) ""); reflexivity.
Qed.

(** X10. [createReturn] makes one call.  With at least one image it is
    a multipart upload to [/returns/create] that sets no content type: the
    form holds every property of the request other than [images] whose
    value is not [undefined] ([items] as JSON text), and after them one
    [images] entry per file, in order.  With no image it is the JSON
    [POST] of the request as it is, to [/returns]. *)
Theorem createReturn_chooses_the_body (returnData : list (string * JSValue))
  (w w' : World) (r : Completion Return) :
  ReturnService.createReturn returnData w = (r, w') ->
  exists rq env,
    w' = sent rq env w
    /\ match assoc "images" returnData with
       | JArr (image :: images) =>
           exists fields,
             rq = UPLOAD w (API_ENDPOINTS.RETURNS ++ "/create")
                    (fields ++ map (fun f => ("images", FormFile f))
                                 (image :: images))
             /\ header "Content-Type" (rq_headers rq) = None
             /\ forall k x,
                  In (k, x) fields
                  <-> k <> "images"
                      /\ exists v, In (k, v) returnData /\ v <> JUndefined
                                   /\ x = if String.eqb k "items" then FormJson v
                                          else FormText v
       | _ =>
           rq = Shop.POST w API_ENDPOINTS.RETURNS (JObj returnData)
           /\ header "Content-Type" (rq_headers rq) = Some "application/json"
       end.
Proof.
  intros Hrun. unfold ReturnService.createReturn in Hrun.
  destruct (assoc "images" returnData) as [| | b | n | s | [| image images] | props]
    eqn:Himg; cbv beta iota zeta in Hrun;
    lazymatch type of Hrun with
    | bind (Client.post ?ep ?d) _ _ = _ =>
        destruct (data_tail (T:=Return) _ _ "Failed to create return request"
                    (post_exact ep d) w) as (env & r0 & Hrun0 & _);
        unfold sent in Hrun0; rewrite Hrun0 in Hrun; inversion Hrun; subst;
        eexists; exists env; split; [reflexivity|];
        split; [reflexivity | apply post_headers_content_type]
    | bind (Client.upload ?ep ?fd) _ _ = _ =>
        destruct (data_tail (T:=Return) _ _ "Failed to create return request"
                    (upload_exact ep fd) w) as (env & r0 & Hrun0 & _);
        unfold sent in Hrun0; rewrite Hrun0 in Hrun; inversion Hrun; subst;
        eexists; exists env; split; [reflexivity|]
    end.
  eexists. split; [reflexivity|].
  split; [apply upload_headers_no_content_type|].
  intros k x. rewrite in_map_iff. split.
  - intros ([k0 v0] & Heq & Hin). apply filter_In in Hin.
    destruct Hin as [Hin Hkeep]. cbn [fst snd] in *.
    inversion Heq; subst. apply andb_true_iff in Hkeep.
    destruct Hkeep as [Hk Hv]. apply negb_true_iff, String.eqb_neq in Hk.
    split; [assumption|]. exists v0. split; [assumption|].
    split; [|reflexivity]. intros ->. discriminate Hv.
  - intros (Hk & v & Hin & Hv & ->). exists (k, v). split; [reflexivity|].
    apply filter_In. split; [assumption|]. cbn [fst snd].
    apply andb_true_iff. split.
    + apply negb_true_iff, String.eqb_neq. assumption.
    + destruct v; try reflexivity. congruence.
Qed.

End Multipart.

Lemma createReturn_chooses_the_body_witness :
  exists env,
    snd (ReturnService.createReturn return_with_photos
           (world (always (answers 201 acknowledged)) State.initial))
    = sent (UPLOAD (world (always (answers 201 acknowledged)) State.initial)
              "/returns/create"
              [("orderId", FormText (JStr "order-1"));
               ("items", FormJson (JArr [JObj [("orderItemId", JStr "item-1")]]));
               ("returnReason", FormText (JStr "damaged"));
               ("images", FormFile (JStr "front.jpg"));
               ("images", FormFile (JStr "back.jpg"))])
        env (world (always (answers 201 acknowledged)) State.initial).
Proof.
  set (w := world (always (answers 201 acknowledged)) State.initial).
  set (run := ReturnService.createReturn return_with_photos w).
  destruct (createReturn_chooses_the_body return_with_photos
              w (snd run) (fst run) (surjective_pairing run))
    as (rq & env & Hw & _).
  exists env. rewrite Hw.
  assert (Ht : traffic (snd run) = traffic (sent rq env w)) by (rewrite Hw; reflexivity).
  vm_compute in Ht. inversion Ht. reflexivity.
Defined.

(** ** The container: sign-out, the busy flag and what is left alone *)

Section Container.
Context {V : Views}.

(** X11. For a render that is not signed in, the sign-in effect clears
    the user, the cart, the wishlist, the orders, the returns, the
    notifications and the applied promo, and nothing else: no call is
    made, no notice is shown, and the busy flag, the error and the auth
    token stay as they were. *)
Theorem sign_out_clears_the_account (seen : Store) (auth : Shop.Auth)
  (w : World) :
  Shop.signed_in auth = false ->
  exists w',
    Shop.syncUser seen auth w = (Ok tt, w')
    /\ store w'
       = {| cart := None; wishlist := None; user := None; orders := [];
            returns := []; notifications := []; appliedPromo := None;
            loading := loading (store w); error := error (store w) |}
    /\ traffic w' = traffic w /\ toasts w' = toasts w
    /\ console w' = console w /\ platform w' = platform w.
Proof.
  intros Hout. unfold Shop.syncUser, Shop.syncUser_during. rewrite Hout.
  exists (with_store
            {| cart := None; wishlist := None; user := None; orders := [];
               returns := []; notifications := []; appliedPromo := None;
               loading := loading (store w); error := error (store w) |} w).
  split; [reflexivity|]. split; [reflexivity|]. split; [reflexivity|].
  split; [reflexivity|]. split; reflexivity.
Qed.

Lemma finally_clears_loading {A} (body : M A) (w w' : World) (r : Completion A) :
  try_finally body (State.setLoading false) w = (r, w') ->
  loading (store w') = false.
Proof.
  unfold try_finally. destruct (body w) as [r1 w1]. cbn.
  intros Hrun. inversion Hrun. reflexivity.
Qed.

(** X12. Every mutation of the container that raises the busy flag
    lowers it again, whether it fulfils or rejects; marking a
    notification read is the one mutation that never touches the flag. *)
Theorem busy_flag_is_lowered (seen : Store) (m : Shop.Mutation) (w w' : World)
  (r : Completion unit) :
  Shop.invoke seen m w = (r, w') ->
  loading (store w')
  = match m with
    | Shop.MarkNotificationRead _ => loading (store w)
    | _ => false
    end.
Proof.
  intros Hrun.
  destruct m; cbn [Shop.invoke] in Hrun;
    lazymatch type of Hrun with
    | void ?m0 _ = _ =>
        unfold void, bind in Hrun;
        let Hm := fresh "Hm" in
        destruct (m0 w) as [[a | e] w1] eqn:Hm; inversion Hrun; subst;
        revert Hm;
        lazymatch goal with
        | |- ?f _ = _ -> _ => let h := head_of f in unfold h, Shop.guarded
        end;
        apply finally_clears_loading
    | Shop.markNotificationRead _ _ = _ =>
        assert (Hpres : Preserves (fun w => loading (store w))
                          (Shop.markNotificationRead id)) by preserving;
        exact (Hpres _ _ _ Hrun)
    | ?f _ = _ =>
        revert Hrun; let h := head_of f in unfold h, Shop.guarded;
        apply finally_clears_loading
    end.
Qed.

(** X13. No mutation of the container changes the error cell, the
    auth token or the configured base URL. *)
Theorem mutations_leave_error_and_token (seen : Store) (m : Shop.Mutation)
  (w w' : World) (r : Completion unit) :
  Shop.invoke seen m w = (r, w') ->
  error (store w') = error (store w) /\ platform w' = platform w.
Proof.
  intros Hrun.
  assert (He : Preserves (fun w => error (store w)) (Shop.invoke seen m))
    by (destruct m; cbn [Shop.invoke]; preserving).
  assert (Hp : Preserves platform (Shop.invoke seen m))
    by (destruct m; cbn [Shop.invoke]; preserving).
  split; [exact (He _ _ _ Hrun) | exact (Hp _ _ _ Hrun)].
Qed.

End Container.

Lemma sign_out_clears_the_account_witness :
  exists w',
    Shop.syncUser (V:=Reading.by_name) two_unread
      {| Shop.isSignedIn := false; Shop.clerkUser := None; Shop.userId := None;
         Shop.getToken := None |}
      (world (always stalls) two_unread) = (Ok tt, w')
    /\ store w'
       = {| cart := None; wishlist := None; user := None; orders := [];
            returns := []; notifications := []; appliedPromo := None;
            loading := false; error := None |}
    /\ traffic w' = [] /\ toasts w' = []
    /\ console w' = [] /\ platform w' = (None, Some "token-1").
Proof.
  apply (sign_out_clears_the_account (V:=Reading.by_name) two_unread
           {| Shop.isSignedIn := false; Shop.clerkUser := None;
              Shop.userId := None; Shop.getToken := None |}
           (world (always stalls) two_unread) eq_refl).
Defined.

Lemma busy_flag_is_lowered_witness :
  loading (store (snd (Shop.invoke (V:=Reading.by_name) State.initial
                         (Shop.CreateOrder "card" "addr-1")
                         (world (always (answers 404 not_found)) State.initial))))
  = false.
Proof.
  apply (busy_flag_is_lowered (V:=Reading.by_name) State.initial
           (Shop.CreateOrder "card" "addr-1")
           (world (always (answers 404 not_found)) State.initial) _ _
           (surjective_pairing _)).
Defined.

Lemma mutations_leave_error_and_token_witness :
  error (store (snd (Shop.invoke (V:=Reading.by_name) State.initial
                       (Shop.ToggleWishlist "P1")
                       (world (always (answers 404 not_found)) State.initial))))
  = None
  /\ platform (snd (Shop.invoke (V:=Reading.by_name) State.initial
                      (Shop.ToggleWishlist "P1")
                      (world (always (answers 404 not_found)) State.initial)))
     = (None, Some "token-1").
Proof.
  apply (mutations_leave_error_and_token (V:=Reading.by_name) State.initial
           (Shop.ToggleWishlist "P1")
           (world (always (answers 404 not_found)) State.initial) _ _
           (surjective_pairing _)).
Defined.

(** ** The container: runs of the mutations *)

Section MutationRuns.
Context {V : Views}.

(** The mutation shape, run: the busy flag is raised, the body runs, a
    rejection is shown, and the flag is lowered. *)
Lemma guarded_run {A} (body : M A) (fallback : string) (w : World) :
  Shop.guarded body fallback w
  = match body (busy true w) with
    | (Ok a, w1) => (Ok a, busy false w1)
    | (Throw e, w1) =>
        (Throw e, busy false (notified (toast_error (message_or e fallback)) w1))
    end.
Proof.
  unfold Shop.guarded, try_finally, try_catch, bind, busy.
  cbn [State.setLoading State.update modify snd].
  destruct (body _) as [[a | e] w1]; reflexivity.
Qed.

Lemma payload_has_data (env : Envelope) (v : JSValue) :
  data env = Some v -> truthy v = true -> payload env = Some v.
Proof. intros Hd Hv. unfold payload. rewrite Hd, Hv. reflexivity. Qed.

Lemma payload_no_data (env : Envelope) : has_data env = false -> payload env = None.
Proof.
  unfold has_data, payload. destruct (data env) as [v|]; [|reflexivity].
  intros ->. reflexivity.
Qed.

Lemma createOrder_fetches (orderData : JSValue) :
  Fetches (OrderService.createOrder orderData)
    (fun w => Shop.POST w API_ENDPOINTS.ORDERS orderData)
    "Failed to create order".
Proof. apply data_tail. apply post_exact. Qed.

(** X14. [createOrder] called by a render that saw a cart makes one
    call, the [POST] to [/orders] of an order built from that cart: one
    item per cart item, the address and the payment method.  When the
    call brings data, the order is put in front of the orders as they
    then stand, and the cart and the applied promo are cleared; the
    orders are not fetched again.  When it brings none, the method rejects
    and the orders, the cart and the promo stay as they were. *)
Theorem createOrder_places_one_order (seen : Store) (c : Cart)
  (paymentMethod addressId : string) (w w' : World) (r : Completion Order) :
  cart seen = Some c ->
  Shop.createOrder seen paymentMethod addressId w = (r, w') ->
  exists d items env,
    traffic w' = (traffic w ++ [(Shop.POST w API_ENDPOINTS.ORDERS d, env)])%list
    /\ prop "items" d = JArr items
    /\ map (prop "productId") items
       = map (fun item => JStr (ci_productId item)) (cart_items c)
    /\ prop "shippingAddressId" d = JStr addressId
    /\ prop "paymentMethod" d = JStr paymentMethod
    /\ match payload env with
       | Some order =>
           r = Ok order
           /\ orders (store w') = order :: orders (store w)
           /\ cart (store w') = None
           /\ appliedPromo (store w') = None
       | None =>
           r = Throw (new_Error (js_or (message env)
                                   (JStr "Failed to create order")))
           /\ orders (store w') = orders (store w)
           /\ cart (store w') = cart (store w)
           /\ appliedPromo (store w') = appliedPromo (store w)
       end.
Proof.
  intros Hcart Hrun. unfold Shop.createOrder in Hrun.
  rewrite guarded_run, Hcart in Hrun. cbv zeta in Hrun.
  unfold bind at 1 in Hrun.
  match type of Hrun with
  | context [OrderService.createOrder ?od ?w0] =>
      destruct (createOrder_fetches od w0) as (env & r1 & Hsvc & Hr1);
      exists od
  end.
  rewrite Hsvc in Hrun. eexists. exists env.
  destruct r1 as [order | e].
  - destruct Hr1 as (v & Hd & Hv & ->).
    rewrite (payload_has_data env v Hd Hv).
    cbn in Hrun. inversion Hrun; subst; clear Hrun. cbn.
    split; [reflexivity|]. split; [reflexivity|].
    split; [rewrite map_map; reflexivity|]. repeat split.
  - destruct Hr1 as [Hd ->]. rewrite (payload_no_data env Hd).
    cbn in Hrun. inversion Hrun; subst; clear Hrun. cbn.
    split; [reflexivity|]. split; [reflexivity|].
    split; [rewrite map_map; reflexivity|]. repeat split.
Qed.

End MutationRuns.

Lemma createOrder_places_one_order_witness :
  fst (Shop.createOrder (seen_with (Some one_item_cart) (Some FLAT50))
         "card" "addr-1"
         (world (always (answers 201 order_body))
            (seen_with (Some one_item_cart) (Some FLAT50))))
  = Ok order_9
  /\ store (snd (Shop.createOrder (seen_with (Some one_item_cart) (Some FLAT50))
                   "card" "addr-1"
                   (world (always (answers 201 order_body))
                      (seen_with (Some one_item_cart) (Some FLAT50)))))
     = {| cart := None; wishlist := None; user := None; orders := [order_9];
          returns := []; notifications := []; appliedPromo := None;
          loading := false; error := None |}.
Proof.
  set (seen := seen_with (Some one_item_cart) (Some FLAT50)).
  set (w := world (always (answers 201 order_body)) seen).
  set (run := Shop.createOrder seen "card" "addr-1" w).
  destruct (createOrder_places_one_order seen one_item_cart "card" "addr-1" w
              (snd run) (fst run) eq_refl (surjective_pairing run))
    as (d & items & env & Ht & _ & _ & _ & _ & Hout).
  vm_compute in Ht. inversion Ht; subst; clear Ht.
  cbv [payload data truthy] in Hout. destruct Hout as (Hr & _).
  split; [exact Hr | vm_compute; reflexivity].
Defined.

(** ** The loads, run *)

Section Loads.
Context {V : Views}.

Lemma load_run {T} `{View T} (m : M T) (endpoint : string)
  (ps : list (string * JSValue)) (d : string)
  (k : T -> M unit) (write : T -> Store -> Store) (label : string) :
  Gets m endpoint ps d ->
  (forall a w, k a w = (Ok tt, with_store (write a (store w)) w)) ->
  forall w, refusal w endpoint = None ->
    exists env,
      try_catch (bind m k) (fun error => console_error label error) w
      = (Ok tt, after_load write label d (Shop.GET w endpoint ps) env w).
Proof.
  intros Hm Hk w Hurl.
  destruct (gets_reached _ _ _ _ w Hm Hurl) as (env & r1 & Hrun & Hr1).
  exists env.
  unfold try_catch, bind. rewrite Hrun. unfold after_load.
  destruct r1 as [a | e].
  - destruct Hr1 as (v & Hd & Hv & ->).
    rewrite (payload_has_data _ _ Hd Hv), Hk. reflexivity.
  - destruct Hr1 as [Hd ->]. rewrite (payload_no_data _ Hd). reflexivity.
Qed.

(** Where the platform refuses the URL, a load makes no call: it logs
    the TypeError and fulfils. *)
Lemma load_refused {T} `{View T} (m : M T) (endpoint : string)
  (ps : list (string * JSValue)) (d : string) (k : T -> M unit)
  (label : string) (w : World) (text : string) :
  Gets m endpoint ps d ->
  refusal w endpoint = Some text ->
  try_catch (bind m k) (fun error => console_error label error) w
  = (Ok tt, with_console (console w ++ [(label, Invalid_URL text)]) w).
Proof.
  intros Hm Hurl. unfold try_catch, bind.
  rewrite (gets_refused _ _ _ _ w text Hm Hurl). reflexivity.
Qed.

Lemma loadCart_run (w : World) :
  refusal w API_ENDPOINTS.CART = None ->
  exists env,
    Shop.loadCart w
    = (Ok tt,
       after_load (fun c => with_cart (Some c)) "Error loading cart:"
         "Failed to fetch cart" (Shop.GET w API_ENDPOINTS.CART []) env w).
Proof.
  apply (load_run _ _ _ _ _ _ _ getCart_fetches). intros a w0. reflexivity.
Qed.

Lemma loadWishlist_run (w : World) :
  refusal w API_ENDPOINTS.WISHLIST = None ->
  exists env,
    Shop.loadWishlist w
    = (Ok tt,
       after_load (fun x => with_wishlist (Some x)) "Error loading wishlist:"
         "Failed to fetch wishlist" (Shop.GET w API_ENDPOINTS.WISHLIST []) env w).
Proof.
  apply (load_run _ _ _ _ _ _ _ getWishlist_fetches). intros a w0. reflexivity.
Qed.





(** What a load leaves and what it adds. *)
Lemma traffic_after_load {T} `{View T} (write : T -> Store -> Store)
  (label d : string) (rq : Request) (env : Envelope) (w : World) :
  traffic (after_load write label d rq env w) = (traffic w ++ [(rq, env)])%list.
Proof. unfold after_load. destruct (payload env); reflexivity. Qed.

Lemma store_after_load {T} `{View T} (write : T -> Store -> Store)
  (label d : string) (rq : Request) (env : Envelope) (w : World) :
  store (after_load write label d rq env w)
  = taken env (fun v => write (view v) (store w)) (store w).
Proof. unfold after_load, taken. destruct (payload env); reflexivity. Qed.

Lemma toasts_after_load {T} `{View T} (write : T -> Store -> Store)
  (label d : string) (rq : Request) (env : Envelope) (w : World) :
  toasts (after_load write label d rq env w) = toasts w.
Proof. unfold after_load. destruct (payload env); reflexivity. Qed.







Lemma refusal_with_toasts (t : list Toast) (w : World) (endpoint : string) :
  refusal (with_toasts t w) endpoint = refusal w endpoint.
Proof. reflexivity. Qed.



Lemma after_load_frame {T X} `{View T} (g : Store -> X)
  (write : T -> Store -> Store) (label d : string) (rq : Request)
  (env : Envelope) (w : World) :
  (forall a s, g (write a s) = g s) ->
  g (store (after_load write label d rq env w)) = g (store w).
Proof.
  intros Hg. rewrite store_after_load. unfold taken.
  destruct (payload env); [apply Hg | reflexivity].
Qed.

Lemma after_load_hit {T X} `{View T} (g : Store -> X) (h : T -> X)
  (write : T -> Store -> Store) (label d : string) (rq : Request)
  (env : Envelope) (w : World) :
  (forall a s, g (write a s) = h a) ->
  g (store (after_load write label d rq env w))
  = taken env (fun v => h (view v)) (g (store w)).
Proof.
  intros Hg. rewrite store_after_load. unfold taken.
  destruct (payload env); [apply Hg | reflexivity].
Qed.



End Loads.

(** Carries an observation of the store across the loads that leave it
    alone. *)
Ltac frames g :=
  rewrite ?(after_load_frame g)
    by (intros; try destruct (user _); reflexivity).

(** Unfolds the worlds a run goes through down to the lists and cells
    they hold. *)
Ltac worlds :=
  repeat progress
    (unfold busy, notified, sent;
     cbn [snd State.setLoading State.update modify traffic store toasts console
          with_store with_toasts with_traffic with_console
          cart wishlist user orders returns notifications appliedPromo loading
          error];
     rewrite ?traffic_after_load, ?toasts_after_load).

Section FanOut.
Context {V : Views}.


End FanOut.

Section SignInCells.
Context {V : Views}.

Lemma setupAuth_resumed_run (awaited : Completion (option string)) (w : World) :
  Shop.setupAuth_resumed awaited w
  = (Ok tt,
     with_console (console w ++ logged_by awaited)
       (with_clerkToken (token_after awaited w) w)).
Proof.
  unfold Shop.setupAuth_resumed, try_catch, bind, token_after, logged_by.
  destruct awaited as [[t|] | e]; cbn.
  - destruct (String.eqb t ""); cbn; destruct w; cbn; rewrite app_nil_r;
      reflexivity.
  - destruct w; cbn; rewrite app_nil_r; reflexivity.
  - destruct w; reflexivity.
Qed.


End SignInCells.


(** ** The auth token *)

Section AuthToken.
Context {V : Views}.

Lemma GET_authorization (w : World) (endpoint : string)
  (ps : list (string * JSValue)) :
  header "Authorization" (rq_headers (Shop.GET w endpoint ps))
  = if String.eqb (token_in w) "" then None
    else Some ("Bearer " ++ token_in w).
Proof.
  unfold Shop.GET, request_input, request_headers.
  cbn [rq_headers ri_headers no_options].
  destruct (String.eqb (token_in w) ""); reflexivity.
Qed.

Lemma GET_authorization_under (token : option string) (w : World)
  (endpoint : string) (ps : list (string * JSValue)) :
  header "Authorization"
    (rq_headers (Shop.GET (with_clerkToken token w) endpoint ps))
  = authorization token.
Proof.
  rewrite GET_authorization. unfold token_in, authorization.
  cbn [clerkToken with_clerkToken]. destruct token as [t|]; reflexivity.
Qed.

Lemma with_clerkToken_same (w : World) : with_clerkToken (clerkToken w) w = w.
Proof. destruct w; reflexivity. Qed.

(** [syncUser] with nothing in between is [syncUser] with a [getToken]
    that gave nothing. *)
Lemma syncUser_alone (seen : Store) (auth : Shop.Auth) :
  Shop.syncUser seen auth
  = Shop.syncUser_during (Shop.setupAuth_resumed (Ok None)) seen auth.
Proof. reflexivity. Qed.

(** The calls of a sign-in during which [setupAuth] goes on as the
    profile is awaited. *)
Lemma sign_in_calls (awaited : Completion (option string)) (seen : Store)
  (auth : Shop.Auth) (w w' : World) (r : Completion unit) :
  Shop.signed_in auth = true ->
  Shop.syncUser_during (Shop.setupAuth_resumed awaited) seen auth w = (r, w') ->
  r = Ok tt
  /\ clerkToken w' = token_after awaited w
  /\ exists calls,
       traffic w' = (traffic w ++ calls)%list
       /\ match calls with
          | [] => True
          | (rq0, _) :: rest =>
              rq0 = Shop.GET w API_ENDPOINTS.USER_PROFILE []
              /\ Forall
                   (fun call =>
                      header "Authorization" (rq_headers (fst call))
                      = authorization (token_after awaited w))
                   rest
          end.
Proof.
  intros Hsigned Hrun. unfold Shop.syncUser_during in Hrun.
  rewrite Hsigned in Hrun.
  unfold try_finally, try_catch in Hrun.
  unfold bind at 1 in Hrun. cbn [State.setLoading State.update modify] in Hrun.
  unfold bind at 1 in Hrun. cbn [State.setError State.update modify] in Hrun.
  unfold bind at 1 in Hrun. unfold Shop.awaiting in Hrun.
  match type of Hrun with
  | context [UserService.getProfile ?w0] =>
      pose proof (getProfile_fetches w0) as Hsvc
  end.
  change (refusal _ API_ENDPOINTS.USER_PROFILE)
    with (refusal w API_ENDPOINTS.USER_PROFILE) in Hsvc.
  destruct (refusal w API_ENDPOINTS.USER_PROFILE) as [text|].
  - rewrite Hsvc, setupAuth_resumed_run in Hrun. cbn in Hrun.
    inversion Hrun; subst; clear Hrun. cbn.
    split; [reflexivity|]. split; [reflexivity|].
    exists []. rewrite app_nil_r. split; [reflexivity | exact I].
  - destruct Hsvc as (env & r1 & Hsvc & Hr1).
    rewrite Hsvc, setupAuth_resumed_run in Hrun.
    cbn [fst snd traffic store toasts console clerkToken with_store with_toasts
         with_traffic with_console with_clerkToken cart wishlist user orders
         returns notifications appliedPromo loading error] in Hrun.
    destruct r1 as [profile | e].
    + unfold bind at 1 in Hrun.
      cbn [State.setUser State.setUser_with State.update modify] in Hrun.
      match type of Hrun with
      | context [Shop.Promise_all _ ?w2] =>
          destruct (fan_out_run seen w2) as (calls & w3 & Hall & Hc & Ht & Hp & _)
      end.
      rewrite Hall in Hrun. cbn in Hrun. inversion Hrun; subst; clear Hrun.
      unfold platform in Hp.
      assert (Htoken : clerkToken w3 = clerkToken
                                         (with_clerkToken (token_after awaited w) w))
        by (apply (f_equal snd) in Hp; exact Hp).
      cbn in Ht, Htoken |- *.
      split; [reflexivity|]. split; [exact Htoken|].
      exists ((Shop.GET w API_ENDPOINTS.USER_PROFILE [], env) :: calls).
      split; [rewrite Ht, <- app_assoc; reflexivity|].
      split; [reflexivity|].
      apply Forall_forall. intros call Hin.
      apply (in_map fst) in Hin. rewrite Hc in Hin.
      apply filter_In in Hin. destruct Hin as [Hin _].
      change (In (fst call)
                (Shop.fan_out (with_clerkToken (token_after awaited w) w)))
        in Hin.
      unfold Shop.fan_out in Hin. cbn [In] in Hin.
      repeat (destruct Hin as [<- | Hin];
              [apply GET_authorization_under|]).
      destruct Hin.
    + destruct Hr1 as [Hdata ->]. cbn in Hrun. inversion Hrun; subst; clear Hrun.
      cbn. split; [reflexivity|]. split; [reflexivity|].
      exists [(Shop.GET w API_ENDPOINTS.USER_PROFILE [], env)].
      split; [reflexivity|]. split; [reflexivity | constructor].
Qed.

(** X16. The two effects of a signed-in render, in either order of
    arrival.  The pair fulfils.  The profile request, when it is made, is
    the first call and carries the token as [setupAuth] found it: none
    after a [clearAuthToken] (no [getToken]), else the token held before,
    never the one this render's [getToken] gives.  Every later call of the
    sign-in carries the new token only when [getToken] settled while the
    profile was awaited and gave a non-empty token; when it settles after
    the loads have left, they carry the token held before.  In the end the
    token is the non-empty one [getToken] gave, the one held before when
    it gave nothing or rejected, and none without [getToken]. *)
Theorem setupAuth_governs_authorization (early : bool) (seen : Store)
  (auth : Shop.Auth) (w w' : World) (r : Completion unit) :
  Shop.signed_in auth = true ->
  Shop.effects early seen auth w = (r, w') ->
  let first :=
    match Shop.getToken auth with Some _ => clerkToken w | None => None end in
  let later :=
    match Shop.getToken auth with
    | Some awaited => if early then token_after awaited w else clerkToken w
    | None => None
    end in
  r = Ok tt
  /\ clerkToken w'
     = match Shop.getToken auth with
       | Some awaited => token_after awaited w
       | None => None
       end
  /\ exists calls,
       traffic w' = (traffic w ++ calls)%list
       /\ match calls with
          | [] => True
          | (rq0, _) :: rest =>
              rq0 = Shop.GET (with_clerkToken first w)
                      API_ENDPOINTS.USER_PROFILE []
              /\ header "Authorization" (rq_headers rq0) = authorization first
              /\ Forall
                   (fun call =>
                      header "Authorization" (rq_headers (fst call))
                      = authorization later)
                   rest
          end.
Proof.
  intros Hsigned Hrun first later. subst first later.
  assert (Hin : Shop.isSignedIn auth = true).
  { unfold Shop.signed_in in Hsigned.
    destruct (Shop.isSignedIn auth); [reflexivity | discriminate Hsigned]. }
  unfold Shop.effects, Shop.setupAuth in Hrun. rewrite Hin in Hrun.
  destruct (Shop.getToken auth) as [awaited|].
  - unfold bind at 1 in Hrun. cbn [ret] in Hrun. destruct early.
    + destruct (sign_in_calls _ _ _ _ _ _ Hsigned Hrun)
        as (Hr & Htoken & calls & Ht & Hcalls).
      split; [exact Hr|]. split; [exact Htoken|].
      exists calls. split; [exact Ht|].
      destruct calls as [| [rq0 env0] rest]; [exact I|].
      destruct Hcalls as [-> Hrest]. rewrite with_clerkToken_same.
      split; [reflexivity|]. split; [|exact Hrest].
      rewrite <- (with_clerkToken_same w) at 1. apply GET_authorization_under.
    + unfold bind in Hrun. rewrite syncUser_alone in Hrun.
      destruct (Shop.syncUser_during _ seen auth w) as [r1 w1] eqn:Hsync.
      destruct (sign_in_calls _ _ _ _ _ _ Hsigned Hsync)
        as (-> & Htoken & calls & Ht & Hcalls).
      rewrite setupAuth_resumed_run in Hrun. inversion Hrun; subst; clear Hrun.
      cbn [clerkToken traffic with_console with_clerkToken].
      split; [reflexivity|]. split.
      { unfold token_after in *. rewrite Htoken. reflexivity. }
      exists calls. split; [exact Ht|].
      destruct calls as [| [rq0 env0] rest]; [exact I|].
      destruct Hcalls as [-> Hrest]. rewrite with_clerkToken_same.
      split; [reflexivity|]. split; [|exact Hrest].
      rewrite <- (with_clerkToken_same w) at 1. apply GET_authorization_under.
  - unfold bind at 1 in Hrun. unfold bind at 1 in Hrun.
    cbn [clearAuthToken modify ret] in Hrun.
    assert (Hsync : Shop.syncUser_during (Shop.setupAuth_resumed (Ok None))
                      seen auth (with_clerkToken None w) = (r, w')).
    { destruct early; [exact Hrun|].
      unfold bind in Hrun. rewrite syncUser_alone in Hrun.
      destruct (Shop.syncUser_during _ seen auth (with_clerkToken None w))
        as [r1 w1] eqn:Hsync.
      destruct (sign_in_calls _ _ _ _ _ _ Hsigned Hsync) as (-> & _).
      exact Hrun. }
    destruct (sign_in_calls _ _ _ _ _ _ Hsigned Hsync)
      as (Hr & Htoken & calls & Ht & Hcalls).
    split; [exact Hr|]. split; [exact Htoken|].
    exists calls. split; [exact Ht|].
    destruct calls as [| [rq0 env0] rest]; [exact I|].
    destruct Hcalls as [-> Hrest].
    split; [reflexivity|]. split; [|exact Hrest].
    apply GET_authorization_under.
Qed.

End AuthToken.

(** The first sign-in with a [getToken] that settles after the loads
    have left: all seven calls go without [Authorization], and the token
    is there afterwards. *)
Lemma setupAuth_governs_authorization_witness :
  let w := with_clerkToken None (world knows_user State.initial) in
  let run := Shop.effects (V:=Reading.by_name) false State.initial
               signed_in_as_ada w in
  map (fun call => header "Authorization" (rq_headers (fst call)))
    (traffic (snd run))
  = repeat None 7
  /\ fst run = Ok tt
  /\ clerkToken (snd run) = Some "token-1".
Proof.
  intros w run.
  destruct (setupAuth_governs_authorization (V:=Reading.by_name) false
              State.initial signed_in_as_ada w (snd run) (fst run) eq_refl
              (surjective_pairing run))
    as (Hr & Htoken & _).
  split; [vm_compute; reflexivity|]. split; [exact Hr | exact Htoken].
Defined.

(** ** The container: what a mutation sends and what it leaves *)

Section Wishlist.
Context {V : Views}.

Lemma addToWishlist_fetches (productId : string) :
  Fetches (UserService.addToWishlist productId)
    (fun w => Shop.POST w API_ENDPOINTS.WISHLIST
                (JObj [("productId", JStr productId)]))
    "Failed to add to wishlist".
Proof. apply data_tail. apply post_exact. Qed.

Lemma removeFromWishlist_fetches (productId : string) :
  Fetches (UserService.removeFromWishlist productId)
    (fun w => DELETE w (API_ENDPOINTS.WISHLIST_ITEM productId))
    "Failed to remove from wishlist".
Proof. apply data_tail. apply delete_exact. Qed.

(** The check of the wishlist answers [false] when its call brings no
    data. *)
Lemma isProductInWishlist_run (productId : string) (w : World) :
  refusal w API_ENDPOINTS.WISHLIST = None ->
  exists env,
    UserService.isProductInWishlist productId w
    = (Ok (taken env
             (fun v => existsb (fun item => String.eqb (wi_productId item) productId)
                         (wl_items (view v)))
             false),
       sent (Shop.GET w API_ENDPOINTS.WISHLIST []) env w).
Proof.
  intros Hurl.
  destruct (gets_reached _ _ _ _ w getWishlist_fetches Hurl)
    as (env & r & Hrun & Hr).
  exists env.
  unfold UserService.isProductInWishlist, try_catch, bind. rewrite Hrun.
  unfold taken. destruct r as [x | e].
  - destruct Hr as (v & Hd & Hv & ->). rewrite (payload_has_data _ _ Hd Hv).
    reflexivity.
  - destruct Hr as [Hd _]. rewrite (payload_no_data _ Hd). reflexivity.
Qed.

(** X17. Where the platform takes the URL of the wishlist,
    [toggleWishlist] first asks the server for the wishlist, and
    takes the product as absent when that call brings no data; it then
    removes the product (a [DELETE]) when it found it and adds it (a
    [POST]) otherwise.  When that second call brings no data the method
    rejects, and the wishlist held is left as it was.  Otherwise the
    wishlist is fetched again and the method fulfils: the wishlist held
    afterwards is what that reload brought, or the one held before when
    the reload brought nothing. *)
Theorem toggleWishlist_goes_by_the_server (productId : string) (w w' : World)
  (r : Completion unit) :
  refusal w API_ENDPOINTS.WISHLIST = None ->
  Shop.toggleWishlist productId w = (r, w') ->
  exists env1 env2,
    let present :=
      taken env1
        (fun v => existsb (fun item => String.eqb (wi_productId item) productId)
                    (wl_items (view v)))
        false in
    let rq1 := Shop.GET w API_ENDPOINTS.WISHLIST [] in
    let rq2 :=
      if present then DELETE w (API_ENDPOINTS.WISHLIST_ITEM productId)
      else Shop.POST w API_ENDPOINTS.WISHLIST
             (JObj [("productId", JStr productId)]) in
    match payload env2 with
    | Some _ =>
        exists env3,
          traffic w' = (traffic w ++ [(rq1, env1); (rq2, env2); (rq1, env3)])%list
          /\ r = Ok tt
          /\ wishlist (store w')
             = taken env3 (fun v => Some (view v)) (wishlist (store w))
    | None =>
        traffic w' = (traffic w ++ [(rq1, env1); (rq2, env2)])%list
        /\ r = Throw (new_Error
                        (js_or (message env2)
                           (JStr (if present then "Failed to remove from wishlist"
                                  else "Failed to add to wishlist"))))
        /\ wishlist (store w') = wishlist (store w)
    end.
Proof.
  intros Hurl Hrun. unfold Shop.toggleWishlist in Hrun.
  rewrite guarded_run in Hrun.
  unfold bind at 1 in Hrun.
  destruct (isProductInWishlist_run productId (busy true w) Hurl) as [env1 Hc].
  rewrite Hc in Hrun. clear Hc. exists env1.
  destruct (taken env1 _ false) eqn:Hpresent; clear Hpresent;
    unfold bind at 1 2 in Hrun;
    lazymatch type of Hrun with
    | context [UserService.removeFromWishlist _ ?w1] =>
        destruct (removeFromWishlist_fetches productId w1)
          as (env2 & r2 & Hsvc & Hr2)
    | context [UserService.addToWishlist _ ?w1] =>
        destruct (addToWishlist_fetches productId w1)
          as (env2 & r2 & Hsvc & Hr2)
    end;
    rewrite Hsvc in Hrun; clear Hsvc; exists env2; cbv zeta;
    (destruct r2 as [x | e];
     [ destruct Hr2 as (v & Hd & Hv & _); rewrite (payload_has_data _ _ Hd Hv);
       cbn [toast.success toast.show modify] in Hrun;
       lazymatch type of Hrun with
       | context [Shop.loadWishlist ?w2] =>
           destruct (loadWishlist_run w2 Hurl) as [env3 Hload]
       end;
       rewrite Hload in Hrun; clear Hload; inversion Hrun; subst; clear Hrun;
       exists env3; split; [|split; [reflexivity|]]
     | destruct Hr2 as [Hd ->]; rewrite (payload_no_data _ Hd);
       inversion Hrun; subst; clear Hrun; split; [|split; [reflexivity|]] ]);
    worlds.
  all: try (rewrite <- !app_assoc; reflexivity).
  all: try reflexivity.
  all: rewrite (after_load_hit wishlist (fun x => Some x)) by reflexivity;
    reflexivity.
Qed.

End Wishlist.

Section CartMutations.
Context {V : Views}.

Lemma addToCart_fetches (item : CartService.AddToCartRequest) :
  Fetches (CartService.addToCart item)
    (fun w => Shop.POST w API_ENDPOINTS.CART (CartService.AddToCartRequest_json item))
    "Failed to add item to cart".
Proof. apply data_tail. apply post_exact. Qed.

Lemma updateCartItem_fetches (itemId : string) (quantity : number) :
  Fetches (CartService.updateCartItem itemId quantity)
    (fun w => PATCH w (API_ENDPOINTS.CART_ITEM itemId)
                (JObj [("quantity", JNum quantity)]))
    "Failed to update cart item".
Proof. apply data_tail. apply patch_exact. Qed.

Lemma removeFromCart_fetches (itemId : string) :
  Fetches (CartService.removeFromCart itemId)
    (fun w => DELETE w (API_ENDPOINTS.CART_ITEM itemId))
    "Failed to remove item from cart".
Proof. apply data_tail. apply delete_exact. Qed.

Lemma removePromoCode_fetches :
  Fetches CartService.removePromoCode
    (fun w => DELETE w (API_ENDPOINTS.CART ++ "/promo"))
    "Failed to remove promo code".
Proof. apply data_tail. apply delete_exact. Qed.

Lemma applyPromoCode_fetches (promoCode : string) :
  Fetches (CartService.applyPromoCode promoCode)
    (fun w => Shop.POST w (API_ENDPOINTS.CART ++ "/promo")
                (JObj [("promoCode", JStr promoCode)]))
    "Failed to apply promo code".
Proof. apply data_tail. apply post_exact. Qed.

(** A mutation of the cart: the call, then the reload, then steps that
    neither call nor touch the cart. *)
Lemma reloading_run {T} `{View T} (m : M T) (rq_of : World -> Request)
  (d : string) (after : M unit) (fallback : string) (w w' : World)
  (r : Completion unit) :
  Fetches m rq_of d ->
  rq_of (busy true w) = rq_of w ->
  refusal w API_ENDPOINTS.CART = None ->
  (forall w0, refusal w0 API_ENDPOINTS.CART = None ->
   exists env2 w1,
     after w0 = (Ok tt, w1)
     /\ traffic w1 = (traffic w0 ++ [(Shop.GET w0 API_ENDPOINTS.CART [], env2)])%list
     /\ cart (store w1) = taken env2 (fun v => Some (view v)) (cart (store w0))) ->
  Shop.guarded (m ;;; after) fallback w = (r, w') ->
  exists env1,
    match payload env1 with
    | Some _ =>
        exists env2,
          traffic w'
          = (traffic w ++ [(rq_of w, env1);
                           (Shop.GET w API_ENDPOINTS.CART [], env2)])%list
          /\ r = Ok tt
          /\ cart (store w') = taken env2 (fun v => Some (view v)) (cart (store w))
    | None =>
        traffic w' = (traffic w ++ [(rq_of w, env1)])%list
        /\ r = Throw (new_Error (js_or (message env1) (JStr d)))
        /\ cart (store w') = cart (store w)
    end.
Proof.
  intros Hm Hrq Hurl Hafter Hrun. rewrite guarded_run in Hrun.
  unfold bind at 1 in Hrun.
  destruct (Hm (busy true w)) as (env1 & r1 & Hsvc & Hr1).
  rewrite Hsvc, Hrq in Hrun. clear Hsvc. exists env1.
  destruct r1 as [x | e].
  - destruct Hr1 as (v & Hd & Hv & _). rewrite (payload_has_data _ _ Hd Hv).
    match type of Hrun with
    | context [after ?w1] =>
        destruct (Hafter w1 Hurl) as (env2 & w2 & Ha & Ht & Hc)
    end.
    rewrite Ha in Hrun. inversion Hrun; subst; clear Hrun. exists env2.
    worlds. rewrite Ht, Hc. worlds.
    split; [rewrite <- app_assoc; reflexivity|]. split; reflexivity.
  - destruct Hr1 as [Hd ->]. rewrite (payload_no_data _ Hd).
    inversion Hrun; subst; clear Hrun. worlds. repeat split.
Qed.

Lemma loadCart_reloads (w0 : World) :
  refusal w0 API_ENDPOINTS.CART = None ->
  exists env2 w1,
    Shop.loadCart w0 = (Ok tt, w1)
    /\ traffic w1 = (traffic w0 ++ [(Shop.GET w0 API_ENDPOINTS.CART [], env2)])%list
    /\ cart (store w1) = taken env2 (fun v => Some (view v)) (cart (store w0)).
Proof.
  intros Hurl.
  destruct (loadCart_run w0 Hurl) as [env2 Hload]. exists env2. eexists.
  split; [exact Hload|]. split; [apply traffic_after_load|].
  apply (after_load_hit cart (fun c => Some c)). reflexivity.
Qed.

Lemma reload_then (tail : M unit) :
  (forall w0, exists w1,
     tail w0 = (Ok tt, w1) /\ traffic w1 = traffic w0
     /\ cart (store w1) = cart (store w0)) ->
  forall w0, refusal w0 API_ENDPOINTS.CART = None ->
  exists env2 w1,
    (Shop.loadCart ;;; tail) w0 = (Ok tt, w1)
    /\ traffic w1 = (traffic w0 ++ [(Shop.GET w0 API_ENDPOINTS.CART [], env2)])%list
    /\ cart (store w1) = taken env2 (fun v => Some (view v)) (cart (store w0)).
Proof.
  intros Htail w0 Hurl.
  destruct (loadCart_reloads w0 Hurl) as (env2 & w1 & Hload & Ht & Hc).
  destruct (Htail w1) as (w2 & Hrun & Ht2 & Hc2).
  exists env2, w2. unfold bind. rewrite Hload.
  split; [exact Hrun|]. split; congruence.
Qed.

Lemma success_is_quiet (text : string) (w0 : World) :
  exists w1,
    toast.success text w0 = (Ok tt, w1) /\ traffic w1 = traffic w0
    /\ cart (store w1) = cart (store w0).
Proof. eexists. repeat split. Qed.

Lemma promo_reset_is_quiet (text : string) (w0 : World) :
  exists w1,
    (State.setAppliedPromo None ;;; toast.success text) w0 = (Ok tt, w1)
    /\ traffic w1 = traffic w0 /\ cart (store w1) = cart (store w0).
Proof. eexists. repeat split. Qed.

(** X18. Where the platform takes the URL of the cart, [addToCart],
    [removeFromCart], [updateCartQuantity] and [removePromoCode] make
    their own call and, when it brings data, fetch
    the cart again and fulfil: the cart held afterwards is what the reload
    brought (the answer of the mutation itself is dropped), or the one
    held before when the reload brought nothing.  When their own call
    brings no data they reject without reloading, and the cart is left as
    it was. *)
Theorem cart_mutations_show_the_reloaded_cart (seen : Store) (m : Shop.Mutation)
  (rq : Request) (w w' : World) (r : Completion unit) :
  refusal w API_ENDPOINTS.CART = None ->
  cart_request m w = Some rq ->
  Shop.invoke seen m w = (r, w') ->
  exists env1,
    match payload env1 with
    | Some _ =>
        exists env2,
          traffic w'
          = (traffic w ++ [(rq, env1);
                           (Shop.GET w API_ENDPOINTS.CART [], env2)])%list
          /\ r = Ok tt
          /\ cart (store w') = taken env2 (fun v => Some (view v)) (cart (store w))
    | None =>
        traffic w' = (traffic w ++ [(rq, env1)])%list
        /\ (exists e, r = Throw e)
        /\ cart (store w') = cart (store w)
    end.
Proof.
  intros Hurl Hrq Hrun.
  assert (Hgoal : exists env1 d,
    match payload env1 with
    | Some _ =>
        exists env2,
          traffic w'
          = (traffic w ++ [(rq, env1);
                           (Shop.GET w API_ENDPOINTS.CART [], env2)])%list
          /\ r = Ok tt
          /\ cart (store w') = taken env2 (fun v => Some (view v)) (cart (store w))
    | None =>
        traffic w' = (traffic w ++ [(rq, env1)])%list
        /\ r = Throw (new_Error (js_or (message env1) (JStr d)))
        /\ cart (store w') = cart (store w)
    end).
  { destruct m; try discriminate Hrq; cbn [cart_request] in Hrq;
      inversion Hrq; subst; clear Hrq; cbn [Shop.invoke] in Hrun;
      lazymatch type of Hrun with
      | ?f _ = _ => let h := head_of f in unfold h in Hrun
      end.
    - destruct (reloading_run _ _ _ _ _ w w' r (addToCart_fetches _) eq_refl Hurl
                  (reload_then _ (success_is_quiet _))
                  Hrun) as [env1 H1].
      exists env1. eexists. exact H1.
    - destruct (reloading_run _ _ _ _ _ w w' r (removeFromCart_fetches _) eq_refl Hurl
                  (reload_then _ (success_is_quiet _))
                  Hrun) as [env1 H1].
      exists env1. eexists. exact H1.
    - destruct (reloading_run _ _ _ _ _ w w' r (updateCartItem_fetches _ _) eq_refl Hurl
                  loadCart_reloads Hrun) as [env1 H1].
      exists env1. eexists. exact H1.
    - destruct (reloading_run _ _ _ _ _ w w' r removePromoCode_fetches eq_refl Hurl
                  (reload_then _ (promo_reset_is_quiet _))
                  Hrun) as [env1 H1].
      exists env1. eexists. exact H1. }
  destruct Hgoal as (env1 & d & H1). exists env1.
  destruct (payload env1); [exact H1|].
  destruct H1 as (Ht & Hr & Hc). eauto.
Qed.

End CartMutations.

Section Promo.
Context {V : Views}.

(** X19. Where the platform takes the URL of the cart,
    [applyPromoCode] posts the code and always lowers the busy flag.  It answers [true], and applies the promo, exactly when the call
    brings data and the code is, up to letter case, one of the three the
    component lists; a code the server accepts and the component does not
    list gives [false] with the promo untouched and no notice, although
    the cart has been reloaded; a call without data gives [false] with the
    promo and the cart untouched. *)
Theorem applyPromoCode_needs_server_and_list (code : string) (w w' : World)
  (r : Completion bool) :
  refusal w API_ENDPOINTS.CART = None ->
  Shop.applyPromoCode code w = (r, w') ->
  let rq := Shop.POST w (API_ENDPOINTS.CART ++ "/promo")
              (JObj [("promoCode", JStr code)]) in
  let known :=
    find (fun p => String.eqb (Text.toLowerCase (promo_code p))
                     (Text.toLowerCase code)) Shop.promoCodes in
  exists env1,
    loading (store w') = false
    /\ match payload env1 with
       | None =>
           traffic w' = (traffic w ++ [(rq, env1)])%list
           /\ r = Ok false
           /\ appliedPromo (store w') = appliedPromo (store w)
           /\ cart (store w') = cart (store w)
       | Some _ =>
           exists env2,
             traffic w'
             = (traffic w ++ [(rq, env1);
                              (Shop.GET w API_ENDPOINTS.CART [], env2)])%list
             /\ cart (store w')
                = taken env2 (fun v => Some (view v)) (cart (store w))
             /\ match known with
                | Some promo =>
                    r = Ok true /\ appliedPromo (store w') = Some promo
                | None =>
                    r = Ok false
                    /\ appliedPromo (store w') = appliedPromo (store w)
                    /\ toasts w' = toasts w
                end
       end.
Proof.
  intros Hurl Hrun rq known. subst rq known.
  unfold Shop.applyPromoCode, try_finally, try_catch in Hrun.
  unfold bind at 1 in Hrun. cbn [State.setLoading State.update modify] in Hrun.
  unfold bind at 1 in Hrun.
  match type of Hrun with
  | context [CartService.applyPromoCode _ ?w0] =>
      destruct (applyPromoCode_fetches code w0) as (env1 & r1 & Hsvc & Hr1)
  end.
  rewrite Hsvc in Hrun. clear Hsvc. exists env1.
  destruct r1 as [x | e].
  - destruct Hr1 as (v & Hd & Hv & _). rewrite (payload_has_data _ _ Hd Hv).
    unfold bind at 1 in Hrun.
    match type of Hrun with
    | context [Shop.loadCart ?w1] =>
        destruct (loadCart_run w1 Hurl) as [env2 Hload]
    end.
    rewrite Hload in Hrun. clear Hload.
    destruct (find _ Shop.promoCodes) as [promo|];
      cbn [bind ret State.setAppliedPromo State.update modify toast.success
           toast.show State.setLoading] in Hrun;
      inversion Hrun; subst; clear Hrun;
      (split; [reflexivity|]); exists env2; worlds;
      (split; [rewrite <- app_assoc; reflexivity|]);
      (split; [rewrite (after_load_hit cart (fun c => Some c)) by reflexivity;
               reflexivity|]);
      repeat split; frames appliedPromo; reflexivity.
  - destruct Hr1 as [Hd ->]. rewrite (payload_no_data _ Hd).
    cbn in Hrun. inversion Hrun; subst; clear Hrun. cbn. repeat split.
Qed.

End Promo.

(** ** The notices of the mutations *)

Section NoticeClaims.
Context {V : Views}.

(** [applyPromoCode], by what its own call brings. *)
Lemma applyPromoCode_caused (code : string) (w w' : World)
  (r : Completion bool) :
  Shop.applyPromoCode code w = (r, w') ->
  exists env rest,
    traffic w'
    = (traffic w
       ++ (Shop.POST w (API_ENDPOINTS.CART ++ "/promo")
             (JObj [("promoCode", JStr code)]), env) :: rest)%list
    /\ match payload env with
       | None =>
           r = Ok false
           /\ toasts w'
              = (toasts w
                 ++ [toast_error (js_or (message env)
                                    (JStr "Failed to apply promo code"))])%list
       | Some _ =>
           match find (fun p => String.eqb (Text.toLowerCase (promo_code p))
                                  (Text.toLowerCase code)) Shop.promoCodes with
           | Some _ =>
               r = Ok true
               /\ toasts w'
                  = (toasts w
                     ++ [toast_success "Promo code applied successfully"])%list
           | None => r = Ok false /\ toasts w' = toasts w
           end
       end.
Proof.
  intros Hrun.
  unfold Shop.applyPromoCode, try_finally, try_catch in Hrun.
  unfold bind at 1 in Hrun. cbn [State.setLoading State.update modify] in Hrun.
  unfold bind at 1 in Hrun.
  match type of Hrun with
  | context [CartService.applyPromoCode _ ?w0] =>
      destruct (applyPromoCode_fetches code w0) as (env1 & r1 & Hsvc & Hr1)
  end.
  rewrite Hsvc in Hrun. clear Hsvc. exists env1.
  destruct r1 as [x | e].
  - destruct Hr1 as (v & Hd & Hv & _). rewrite (payload_has_data _ _ Hd Hv).
    unfold bind at 1 in Hrun.
    match type of Hrun with
    | context [Shop.loadCart ?w1] =>
        destruct (loadCart_settles w1) as ([] & w2 & Hload);
        destruct (loadCart_sends _ _ _ Hload) as (calls & Ht & _);
        assert (Htoasts : toasts w2 = toasts w1)
          by (assert (Hpres : Preserves toasts Shop.loadCart) by preserving;
              exact (Hpres _ _ _ Hload))
    end.
    rewrite Hload in Hrun. clear Hload. exists calls.
    destruct (find _ Shop.promoCodes) as [promo|];
      cbn [bind ret State.setAppliedPromo State.update modify toast.success
           toast.show State.setLoading] in Hrun;
      inversion Hrun; subst; clear Hrun; cbn in Ht, Htoasts |- *;
      rewrite Ht, Htoasts, <- app_assoc; repeat split.
  - destruct Hr1 as [Hd ->]. rewrite (payload_no_data _ Hd).
    cbn in Hrun. inversion Hrun; subst; clear Hrun. exists []. cbn.
    repeat split.
Qed.

(** C7, as the code has it.  Every mutation method shows at most one
    notice per invocation and never both kinds.  [applyPromoCode] never
    rejects; every other method, when it rejects, shows exactly one
    failure notice, with the error's message.  A method that fulfils shows
    exactly one success notice, with three exceptions:
    [updateCartQuantity] and [markNotificationRead] show none, and
    [applyPromoCode] goes by what its own call, the [POST] of the code,
    brings: one failure notice, with the envelope's message or its own,
    when that call brings no data; otherwise one success notice when the
    code is, up to letter case, in the component's list, and no notice
    when it is not. *)
Theorem mutation_notices (seen : Store) (m : Shop.Mutation) (w w' : World)
  (r : Completion unit) :
  Shop.invoke seen m w = (r, w') ->
  exists new,
    toasts w' = (toasts w ++ new)%list
    /\ match r, m with
       | Throw _, Shop.ApplyPromoCode _ => False
       | Throw e, _ =>
           new = [toast_error (message_or e (Shop.failure_fallback m))]
       | Ok _, Shop.UpdateCartQuantity _ _
       | Ok _, Shop.MarkNotificationRead _ => new = []
       | Ok _, Shop.ApplyPromoCode code =>
           exists env rest,
             traffic w'
             = (traffic w
                ++ (Shop.POST w (API_ENDPOINTS.CART ++ "/promo")
                      (JObj [("promoCode", JStr code)]), env) :: rest)%list
             /\ new
                = match payload env with
                  | None =>
                      [toast_error (js_or (message env)
                                      (JStr (Shop.failure_fallback m)))]
                  | Some _ =>
                      match find
                              (fun p =>
                                 String.eqb (Text.toLowerCase (promo_code p))
                                   (Text.toLowerCase code))
                              Shop.promoCodes with
                      | Some _ => [toast_success "Promo code applied successfully"]
                      | None => []
                      end
                  end
       | Ok _, _ => one_success (Shop.success_texts m) new
       end.
Proof.
  intros Hrun.
  destruct m; cbn [Shop.invoke] in Hrun;
    try (unfold Shop.addToCart, Shop.removeFromCart, Shop.clearCart,
           Shop.toggleWishlist, Shop.updateUser, Shop.addAddress,
           Shop.updateAddress, Shop.deleteAddress, Shop.setDefaultAddress,
           Shop.createReturnRequest, Shop.removePromoCode in Hrun;
         match goal with
         | |- context [Shop.success_texts ?m] =>
             apply (guarded_notices
                      (fun _ => one_success (Shop.success_texts m))) in Hrun
         end;
         [ destruct Hrun as (new & Ht & Hnew); exists new;
           split; [exact Ht | destruct r; exact Hnew]
         | cbn [Shop.success_texts]; solve [shows] ]).
  - (* updateCartQuantity *)
    unfold Shop.updateCartQuantity in Hrun.
    apply (guarded_notices (fun _ new => new = [])) in Hrun;
      [ destruct Hrun as (new & Ht & Hnew); exists new;
        split; [exact Ht | destruct r; exact Hnew]
      | apply shows_quiet; preserving ].
  - (* createOrder *)
    unfold void, bind in Hrun.
    destruct (Shop.createOrder seen paymentMethod addressId w)
      as [[order | e] w1] eqn:Hcreate; inversion Hrun; subst; clear Hrun;
      unfold Shop.createOrder in Hcreate;
      apply (guarded_notices
               (fun _ => one_success ["Order placed successfully!"])) in Hcreate;
      try exact Hcreate; shows.
  - (* markNotificationRead *)
    unfold Shop.markNotificationRead in Hrun.
    apply (reported (fun _ new => new = [])) in Hrun;
      [ destruct Hrun as (new & Ht & Hnew); exists new;
        split; [exact Ht | destruct r; exact Hnew]
      | apply shows_quiet; preserving ].
  - (* applyPromoCode *)
    unfold void, bind in Hrun.
    destruct (Shop.applyPromoCode code w) as [[b | e] w1] eqn:Happly;
      inversion Hrun; subst; clear Hrun;
      destruct (applyPromoCode_caused _ _ _ _ Happly) as (env & rest & Ht & Hby).
    + cbn [Shop.failure_fallback].
      destruct (payload env) eqn:Hpayload;
        [destruct (find _ Shop.promoCodes) eqn:Hfind|];
        destruct Hby as [_ Htoasts].
      * exists [toast_success "Promo code applied successfully"].
        split; [exact Htoasts|]. exists env, rest.
        rewrite Hpayload. split; [exact Ht | reflexivity].
      * exists []. rewrite app_nil_r.
        split; [exact Htoasts|]. exists env, rest.
        rewrite Hpayload. split; [exact Ht | reflexivity].
      * eexists. split; [exact Htoasts|]. exists env, rest.
        rewrite Hpayload. split; [exact Ht | reflexivity].
    + exfalso. destruct (payload env);
        [destruct (find _ Shop.promoCodes)|];
        destruct Hby as [Habs _]; discriminate Habs.
Qed.

End NoticeClaims.

(** An unlisted code that the server accepts: [applyPromoCode] fulfils
    and shows nothing. *)
Lemma mutation_notices_witness :
  let w := world (always (answers 200 cart_body)) State.initial in
  let run := Shop.invoke (V:=Reading.by_name) State.initial
               (Shop.ApplyPromoCode "SPRING") w in
  fst run = Ok tt
  /\ toasts (snd run) = []
  /\ exists new,
       toasts (snd run) = (toasts w ++ new)%list
       /\ match fst run, Shop.ApplyPromoCode "SPRING" with
          | Throw _, Shop.ApplyPromoCode _ => False
          | Throw e, _ =>
              new = [toast_error
                       (message_or e
                          (Shop.failure_fallback (Shop.ApplyPromoCode "SPRING")))]
          | Ok _, Shop.UpdateCartQuantity _ _
          | Ok _, Shop.MarkNotificationRead _ => new = []
          | Ok _, Shop.ApplyPromoCode code =>
              exists env rest,
                traffic (snd run)
                = (traffic w
                   ++ (Shop.POST w (API_ENDPOINTS.CART ++ "/promo")
                         (JObj [("promoCode", JStr code)]), env) :: rest)%list
                /\ new
                   = match payload env with
                     | None =>
                         [toast_error
                            (js_or (message env)
                               (JStr (Shop.failure_fallback
                                        (Shop.ApplyPromoCode "SPRING"))))]
                     | Some _ =>
                         match find
                                 (fun p =>
                                    String.eqb (Text.toLowerCase (promo_code p))
                                      (Text.toLowerCase code))
                                 Shop.promoCodes with
                         | Some _ =>
                             [toast_success "Promo code applied successfully"]
                         | None => []
                         end
                     end
          | Ok _, _ =>
              one_success (Shop.success_texts (Shop.ApplyPromoCode "SPRING")) new
          end.
Proof.
  intros w run. split; [vm_compute; reflexivity|].
  split; [vm_compute; reflexivity|].
  apply (mutation_notices (V:=Reading.by_name) State.initial
           (Shop.ApplyPromoCode "SPRING") w (snd run) (fst run)
           (surjective_pairing run)).
Defined.

Section Lookups.
Context {V : Views}.

Lemma getOrderById_fetches (id : string) :
  Gets (OrderService.getOrderById id) (API_ENDPOINTS.ORDER_BY_ID id) []
    "Failed to fetch order".
Proof. exact (get_method_gets _ None _). Qed.

(** A lookup of the container: the call, with a failure shown and
    answered with nothing. *)
Lemma lookup_run {T} `{View T} (m : M T) (endpoint : string)
  (ps : list (string * JSValue)) (d fallback : string) (w : World) :
  Gets m endpoint ps d ->
  match refusal w endpoint with
  | Some text =>
      try_catch (x <- m ;; ret (Some x))
        (fun error => toast.error (message_or error fallback) ;;; ret None) w
      = (Ok None, notified (toast_error (JStr text)) w)
  | None =>
      exists env,
        let w1 := sent (Shop.GET w endpoint ps) env w in
        try_catch (x <- m ;; ret (Some x))
          (fun error => toast.error (message_or error fallback) ;;; ret None) w
        = match payload env with
          | Some v => (Ok (Some (view v)), w1)
          | None =>
              (Ok None,
               notified (toast_error (js_or (message env) (JStr d))) w1)
          end
  end.
Proof.
  intros Hm. specialize (Hm w). destruct (refusal w endpoint) as [text|].
  - unfold try_catch, bind. rewrite Hm. reflexivity.
  - destruct Hm as (env & r & Hrun & Hr). exists env.
    unfold try_catch, bind. rewrite Hrun. destruct r as [x | e].
    + destruct Hr as (v & Hd & Hv & ->). rewrite (payload_has_data _ _ Hd Hv).
      reflexivity.
    + destruct Hr as [Hd ->]. rewrite (payload_no_data _ Hd). reflexivity.
Qed.

(** X20. [getOrder] and [getProductById] of the container never
    reject.  Where the platform takes the URL they make one call and
    answer with the payload when it brings data; otherwise they answer
    with nothing and show one failure notice, with the envelope's message
    or their own.  Where the platform refuses the URL they make no call,
    answer with nothing and show the TypeError's message. *)
Theorem lookups_answer_nothing_on_failure (id : string) (w : World) :
  match refusal w (API_ENDPOINTS.ORDER_BY_ID id) with
  | Some text =>
      Shop.getOrder id w = (Ok None, notified (toast_error (JStr text)) w)
  | None =>
      exists env,
        let w1 := sent (Shop.GET w (API_ENDPOINTS.ORDER_BY_ID id) []) env w in
        Shop.getOrder id w
        = match payload env with
          | Some v => (Ok (Some v), w1)
          | None =>
              (Ok None,
               notified (toast_error (js_or (message env)
                                        (JStr "Failed to fetch order"))) w1)
          end
  end
  /\ match refusal w (API_ENDPOINTS.PRODUCT_BY_ID id) with
     | Some text =>
         Shop.getProductById id w
         = (Ok None, notified (toast_error (JStr text)) w)
     | None =>
         exists env,
           let w1 :=
             sent (Shop.GET w (API_ENDPOINTS.PRODUCT_BY_ID id) []) env w in
           Shop.getProductById id w
           = match payload env with
             | Some v => (Ok (Some (view v)), w1)
             | None =>
                 (Ok None,
                  notified (toast_error (js_or (message env)
                                           (JStr "Failed to fetch product"))) w1)
             end
     end.
Proof.
  split.
  - exact (lookup_run _ _ _ _ "Failed to fetch order" w
             (getOrderById_fetches id)).
  - exact (lookup_run _ _ _ _ "Failed to fetch product" w
             (getProductById_fetches id)).
Qed.

End Lookups.

Section Atomicity.
Context {V : Views}.

Lemma settles_bind {A B} (m : M A) (k : A -> M B) :
  Settles m -> (forall a, Settles (k a)) -> Settles (bind m k).
Proof.
  intros Hm Hk w. unfold bind. destruct (Hm w) as (a & w1 & ->). apply Hk.
Qed.

Lemma settles_modify (f : World -> World) : Settles (modify f).
Proof. intros w. unfold modify. eauto. Qed.

Lemma atomic_throw {A} (e : Exn) : Atomic (throw (A:=A) e).
Proof. intros w e' w' Hrun. inversion Hrun. reflexivity. Qed.

Lemma atomic_quiet {A} (m : M A) : Preserves store m -> Atomic m.
Proof. intros Hm w e w' Hrun. exact (Hm _ _ _ Hrun). Qed.

Lemma atomic_then {A B} (m : M A) (k : A -> M B) :
  Atomic m -> (forall a, Settles (k a)) -> Atomic (bind m k).
Proof.
  intros Hm Hk w e w' Hrun. unfold bind in Hrun.
  destruct (m w) as [[a | e1] w1] eqn:Hmw.
  - destruct (Hk a w1) as (b & w2 & Hkw). rewrite Hkw in Hrun. discriminate Hrun.
  - inversion Hrun; subst. exact (Hm _ _ _ Hmw).
Qed.

Lemma atomic_after {A B} (m : M A) (k : A -> M B) :
  Preserves store m -> (forall a, Atomic (k a)) -> Atomic (bind m k).
Proof.
  intros Hm Hk w e w' Hrun. unfold bind in Hrun.
  destruct (m w) as [[a | e1] w1] eqn:Hmw.
  - rewrite (Hk a _ _ _ Hrun). exact (Hm _ _ _ Hmw).
  - inversion Hrun; subst. exact (Hm _ _ _ Hmw).
Qed.

Lemma atomic_if {A} (b : bool) (m1 m2 : M A) :
  Atomic m1 -> Atomic m2 -> Atomic (if b then m1 else m2).
Proof. destruct b; auto. Qed.

(** The mutation shape lowers the busy flag and changes nothing else
    when its body rejects having changed nothing. *)
Lemma guarded_atomic {A} (body : M A) (fallback : string) (w w' : World)
  (e : Exn) :
  Atomic body ->
  Shop.guarded body fallback w = (Throw e, w') ->
  store w' = store (busy false w).
Proof.
  intros Hbody Hrun. rewrite guarded_run in Hrun.
  destruct (body (busy true w)) as [[a | e1] w1] eqn:Hb; inversion Hrun; subst.
  pose proof (Hbody _ _ _ Hb) as Hs. unfold busy, notified in *.
  cbn [snd State.setLoading State.update modify store with_store with_toasts] in *.
  rewrite Hs. reflexivity.
Qed.

End Atomicity.

Ltac settling :=
  repeat lazymatch goal with
    | |- Settles (bind _ _) => apply settles_bind; [|intros ?]
    | |- Settles (ret _) => apply settles_ret
    | |- Settles Shop.loadCart => apply loadCart_settles
    | |- Settles Shop.loadWishlist => apply loadWishlist_settles
    | |- Settles Shop.loadReturns => apply loadReturns_settles
    | |- Settles (Shop.loadAddresses _) => apply loadAddresses_settles
    | |- Settles (modify _) => apply settles_modify
    | |- Settles ?m => let h := head_of m in unfold h
    end.

Ltac atomic :=
  lazymatch goal with
  | |- Atomic (throw _) => apply atomic_throw
  | |- Atomic (match ?x with _ => _ end) => destruct x; atomic
  | |- Atomic (let _ := _ in _) => cbv zeta; atomic
  | |- Atomic (bind (UserService.isProductInWishlist _) _) =>
      apply atomic_after; [preserving | intros ?; atomic]
  | |- Atomic (bind (if _ then _ else _) _) =>
      apply atomic_then; [apply atomic_if; atomic | intros ?; settling]
  | |- Atomic (bind _ _) =>
      apply atomic_then; [apply atomic_quiet; preserving | intros ?; settling]
  end.

Section AtomicMutations.
Context {V : Views}.

(** X21. A mutation of the container that rejects has changed no
    state cell other than the busy flag, which it lowers
    ([markNotificationRead] leaves even that alone): the cart, the
    wishlist, the user, the orders, the returns, the notifications, the
    applied promo and the error are as they were. *)
Theorem rejected_mutations_change_no_cell (seen : Store) (m : Shop.Mutation)
  (w w' : World) (e : Exn) :
  Shop.invoke seen m w = (Throw e, w') ->
  store w'
  = match m with
    | Shop.MarkNotificationRead _ => store w
    | _ => store (busy false w)
    end.
Proof.
  intros Hrun.
  destruct m; cbn [Shop.invoke] in Hrun;
    lazymatch type of Hrun with
    | void (Shop.applyPromoCode ?code) _ = _ =>
        unfold void, bind in Hrun;
        destruct (Shop.applyPromoCode code w) as [[b | e1] w1] eqn:Hm;
        [ discriminate Hrun
        | destruct (applyPromoCode_notices _ _ _ _ Hm)
            as (new & _ & [[Habs _] | [Habs _]]); discriminate Habs ]
    | void ?m0 _ = _ =>
        unfold void, bind in Hrun;
        destruct (m0 w) as [[a | e1] w1] eqn:Hm; inversion Hrun; subst;
        revert Hm;
        lazymatch goal with
        | |- ?f _ = _ -> _ => let h := head_of f in unfold h
        end;
        apply guarded_atomic; atomic
    | Shop.markNotificationRead _ _ = _ => idtac
    | ?f _ = _ =>
        revert Hrun; let h := head_of f in unfold h;
        apply guarded_atomic; atomic
    end.
  unfold Shop.markNotificationRead, try_catch in Hrun.
  match type of Hrun with
  | context [match ?b w with _ => _ end] =>
      assert (Hb : Atomic b) by atomic;
      destruct (b w) as [[a | e1] w1] eqn:Hbw
  end.
  - discriminate Hrun.
  - cbn in Hrun. inversion Hrun; subst. cbn. exact (Hb _ _ _ Hbw).
Qed.

End AtomicMutations.

Lemma toggleWishlist_goes_by_the_server_witness :
  fst (Shop.toggleWishlist (V:=Reading.by_name) "P1"
         (world posts_only State.initial)) = Ok tt
  /\ map (fun call => rq_method (fst call))
       (traffic (snd (Shop.toggleWishlist (V:=Reading.by_name) "P1"
                        (world posts_only State.initial))))
     = [None; Some "POST"; None].
Proof.
  set (run := Shop.toggleWishlist (V:=Reading.by_name) "P1"
                (world posts_only State.initial)).
  destruct (toggleWishlist_goes_by_the_server (V:=Reading.by_name) "P1"
              (world posts_only State.initial) (snd run) (fst run)
              eq_refl (surjective_pairing run)) as (env1 & env2 & H).
  cbv zeta in H. destruct (payload env2).
  - destruct H as (env3 & _ & Hr & _).
    split; [exact Hr | vm_compute; reflexivity].
  - destruct H as (Ht & _). apply (f_equal (@List.length _)) in Ht.
    vm_compute in Ht. discriminate Ht.
Defined.

Lemma cart_mutations_show_the_reloaded_cart_witness :
  fst (Shop.invoke (V:=Reading.by_name) State.initial
         (Shop.UpdateCartQuantity "item-1" 3)
         (world (always (answers 200 cart_body)) State.initial)) = Ok tt
  /\ option_map cart_total
       (cart (store (snd (Shop.invoke (V:=Reading.by_name) State.initial
                            (Shop.UpdateCartQuantity "item-1" 3)
                            (world (always (answers 200 cart_body))
                               State.initial)))))
     = Some 30%float.
Proof.
  set (w := world (always (answers 200 cart_body)) State.initial).
  set (run := Shop.invoke (V:=Reading.by_name) State.initial
                (Shop.UpdateCartQuantity "item-1" 3) w).
  destruct (cart_mutations_show_the_reloaded_cart (V:=Reading.by_name)
              State.initial (Shop.UpdateCartQuantity "item-1" 3)
              (PATCH w (API_ENDPOINTS.CART_ITEM "item-1")
                 (JObj [("quantity", JNum 3)]))
              w (snd run) (fst run) eq_refl eq_refl (surjective_pairing run))
    as (env1 & H).
  destruct (payload env1).
  - destruct H as (env2 & _ & Hr & _).
    split; [exact Hr | vm_compute; reflexivity].
  - destruct H as (Ht & _). apply (f_equal (@List.length _)) in Ht.
    vm_compute in Ht. discriminate Ht.
Defined.

Lemma applyPromoCode_needs_server_and_list_witness :
  fst (Shop.applyPromoCode (V:=Reading.by_name) "flat50"
         (world (always (answers 200 cart_body)) State.initial)) = Ok true
  /\ appliedPromo
       (store (snd (Shop.applyPromoCode (V:=Reading.by_name) "flat50"
                      (world (always (answers 200 cart_body)) State.initial))))
     = Some FLAT50.
Proof.
  set (w := world (always (answers 200 cart_body)) State.initial).
  set (run := Shop.applyPromoCode (V:=Reading.by_name) "flat50" w).
  destruct (applyPromoCode_needs_server_and_list (V:=Reading.by_name) "flat50"
              w (snd run) (fst run) eq_refl (surjective_pairing run))
    as (env1 & _ & H).
  destruct (payload env1).
  - destruct H as (env2 & _ & _ & Hk). exact Hk.
  - destruct H as (Ht & _). apply (f_equal (@List.length _)) in Ht.
    vm_compute in Ht. discriminate Ht.
Defined.

Lemma rejected_mutations_change_no_cell_witness :
  store (snd (Shop.invoke (V:=Reading.by_name)
                (seen_with (Some one_item_cart) (Some FLAT50))
                (Shop.CreateOrder "card" "addr-1")
                (world (always (answers 404 not_found))
                   (seen_with (Some one_item_cart) (Some FLAT50)))))
  = seen_with (Some one_item_cart) (Some FLAT50).
Proof.
  apply (rejected_mutations_change_no_cell (V:=Reading.by_name)
           (seen_with (Some one_item_cart) (Some FLAT50))
           (Shop.CreateOrder "card" "addr-1")
           (world (always (answers 404 not_found))
              (seen_with (Some one_item_cart) (Some FLAT50)))
           _ (new_Error (JStr "Not found"))).
  apply run_eta. vm_compute. reflexivity.
Defined.

(** ** Arguments that are dropped, replaced or never sent *)

Section Arguments.
Context {V : Views}.

(** X22. [deleteAccount] makes one [DELETE] of the profile with no
    body: the password it is given is never sent, so the call is the same
    whatever the password.  It fulfils exactly when the envelope's status
    is 200 or 204. *)
Theorem deleteAccount_never_sends_the_password (password : string) (w : World) :
  exists env r,
    UserService.deleteAccount password w
    = (r, sent (DELETE w API_ENDPOINTS.USER_PROFILE) env w)
    /\ rq_body (DELETE w API_ENDPOINTS.USER_PROFILE) = NoBody
    /\ (forall other, UserService.deleteAccount other w
                      = UserService.deleteAccount password w)
    /\ (r = Ok tt <-> status env = 200 \/ status env = 204).
Proof.
  destruct (done_tail _ _ "Failed to delete account"
              (delete_exact API_ENDPOINTS.USER_PROFILE) w)
    as (env & r & Hrun & Hr).
  exists env, r. split; [exact Hrun|]. split; [reflexivity|].
  split; [reflexivity|].
  destruct r as [[] | e].
  - split; auto.
  - destruct Hr as (H200 & H204 & _).
    split; [discriminate | intros [? | ?]; contradiction].
Qed.

Lemma assoc_appended (k : string) (ps : list (string * JSValue)) :
  nullish (assoc k ps) = false ->
  assoc k (appended (Some ps)) = assoc k ps.
Proof.
  unfold appended. induction ps as [| [k' v'] ps IH]; [reflexivity|].
  cbn [assoc filter snd]. destruct (String.eqb k k') eqn:Hk.
  - intros Hv. rewrite Hv. cbn. rewrite Hk. reflexivity.
  - intros Hv. destruct (nullish v'); cbn; [|rewrite Hk]; apply IH; assumption.
Qed.

(** X23. Where the platform takes the client's URLs: in
    [getProductsByCategory] and [getProductsByBrand] the category and the
    brand given as arguments are what is sent, whatever the filters say
    about them.  In [searchProducts] it is the other way
    round: the query is sent as [q] only when the filters name no [q]; a
    [q] among the filters replaces the query. *)
Theorem named_arguments_and_filters (w : World)
  (filters : option (list (string * JSValue))) :
  reachable w ->
  (forall category, exists env r qs,
     ProductService.getProductsByCategory category filters w
     = (r, sent (Shop.GET w API_ENDPOINTS.PRODUCTS qs) env w)
     /\ assoc "category" qs = JStr category)
  /\ (forall brand, exists env r qs,
        ProductService.getProductsByBrand brand filters w
        = (r, sent (Shop.GET w API_ENDPOINTS.PRODUCTS qs) env w)
        /\ assoc "brand" qs = JStr brand)
  /\ (forall query, exists env r qs,
        ProductService.searchProducts query filters w
        = (r, sent (Shop.GET w API_ENDPOINTS.SEARCH_PRODUCTS qs) env w)
        /\ (~ In "q" (map fst (ProductService.own filters)) ->
            assoc "q" qs = JStr query)
        /\ (forall x, NoDup (map fst (ProductService.own filters)) ->
                      In ("q", x) (ProductService.own filters) ->
                      nullish x = false -> assoc "q" qs = x)).
Proof.
  intros Hreach. split; [|split].
  - intros category.
    destruct (gets_reached _ _ _ _ w
                (getProducts_fetches
                   (Some (set_prop "category" (JStr category)
                            (ProductService.own filters)))) (Hreach _))
      as (env & r & Hrun & _).
    exists env, r. eexists. split; [exact Hrun|].
    rewrite assoc_appended; rewrite assoc_set_prop_same; reflexivity.
  - intros brand.
    destruct (gets_reached _ _ _ _ w
                (getProducts_fetches
                   (Some (set_prop "brand" (JStr brand)
                            (ProductService.own filters)))) (Hreach _))
      as (env & r & Hrun & _).
    exists env, r. eexists. split; [exact Hrun|].
    rewrite assoc_appended; rewrite assoc_set_prop_same; reflexivity.
  - intros query.
    destruct (gets_reached _ _ _ _ w
                (get_method_gets (T:=ProductSearchResponse)
                   API_ENDPOINTS.SEARCH_PRODUCTS
                   (Some (spread [("q", JStr query)] (ProductService.own filters)))
                   "Failed to search products") (Hreach _))
      as (env & r & Hrun & _).
    exists env, r. eexists. split; [exact Hrun|]. split.
    + intros Hout. rewrite assoc_appended; rewrite spread_keeps by assumption;
        reflexivity.
    + intros x Hnd Hin Hx.
      rewrite assoc_appended; rewrite (spread_overrides _ _ "q" x) by assumption;
        [reflexivity | assumption].
Qed.

(** X24. An optional argument is sent only when it is truthy: an empty
    status or address id, and a limit or a cart value that is zero or not
    a number, make the very call that is made when the argument is left
    out. *)
Theorem falsy_optional_arguments_are_dropped :
  (forall page limit,
     OrderService.getOrders page limit (Some "")
     = OrderService.getOrders page limit None)
  /\ (forall page limit,
        ReturnService.getReturns page limit (Some "")
        = ReturnService.getReturns page limit None)
  /\ CartService.calculateShipping (Some "") = CartService.calculateShipping None
  /\ (forall n, truthy (JNum n) = false ->
        ProductService.getFeaturedProducts (Some n)
        = ProductService.getFeaturedProducts None
        /\ ProductService.getBestsellers (Some n)
           = ProductService.getBestsellers None
        /\ forall addressId,
             AddressService.calculateShippingCost addressId (Some n)
             = AddressService.calculateShippingCost addressId None).
Proof.
  split; [reflexivity|]. split; [reflexivity|]. split; [reflexivity|].
  intros n Hn.
  unfold ProductService.getFeaturedProducts, ProductService.getBestsellers,
    ProductService.limit_params, AddressService.calculateShippingCost,
    when_truthy, optional.
  rewrite Hn. repeat split.
Qed.

End Arguments.

(** Filters that name a category and a [q] of their own: the category
    given as argument is sent, and the query given as argument is not. *)
Lemma named_arguments_and_filters_witness :
  let w := world (always (answers 200 cart_body)) State.initial in
  let filters := Some [("category", JStr "hats"); ("q", JStr "boots")] in
  (exists env r qs,
     ProductService.getProductsByCategory (V:=Reading.by_name) "shoes" filters w
     = (r, sent (Shop.GET w API_ENDPOINTS.PRODUCTS qs) env w)
     /\ assoc "category" qs = JStr "shoes")
  /\ (exists env r qs,
        ProductService.searchProducts (V:=Reading.by_name) "sandals" filters w
        = (r, sent (Shop.GET w API_ENDPOINTS.SEARCH_PRODUCTS qs) env w)
        /\ assoc "q" qs = JStr "boots").
Proof.
  intros w filters.
  destruct (named_arguments_and_filters (V:=Reading.by_name) w filters
              (scenario_reachable _ _)) as (Hcategory & _ & Hsearch).
  split; [exact (Hcategory "shoes")|].
  destruct (Hsearch "sandals") as (env & r & qs & Hrun & _ & Hq).
  exists env, r, qs. split; [exact Hrun|]. apply Hq.
  - repeat constructor; cbn; intuition discriminate.
  - right. left. reflexivity.
  - reflexivity.
Defined.

(** ** The two downloads *)

Section Downloads.

(** X25. [downloadInvoice] and [downloadReturnLabel] call [fetch]
    themselves, with an [Authorization] header even when there is no
    token.  They leave no trace in the record of the transport client and
    are bound by no timeout; a rejection of [fetch] is passed on as it is,
    a response outside 2xx rejects with the method's own message whatever
    the body says, and a 2xx response is handed over unread. *)
Theorem downloads_go_around_the_client (id : string) (w : World) :
  let invoice :=
    {| rq_base := baseURL (apiClient w);
       rq_target := Path (API_ENDPOINTS.ORDER_BY_ID id ++ "/invoice");
       rq_method := Some "GET";
       rq_headers := [("Authorization", "Bearer " ++ token_in w)];
       rq_body := NoBody |} in
  let label :=
    {| rq_base := baseURL (apiClient w);
       rq_target := Path (API_ENDPOINTS.RETURN_BY_ID id ++ "/label/download");
       rq_method := Some "GET";
       rq_headers := [("Authorization", "Bearer " ++ token_in w)];
       rq_body := NoBody |} in
  (snd (OrderService.downloadInvoice id w) = w
   /\ (forall e, outcome (exchange w invoice) = Rejects e ->
         fst (OrderService.downloadInvoice id w) = Throw e)
   /\ (forall st body, outcome (exchange w invoice) = Responds st body ->
         fst (OrderService.downloadInvoice id w)
         = if ((200 <=? st) && (st <=? 299))%bool
           then Ok {| r_status := st; r_json := body |}
           else Throw (new_Error (JStr "Failed to download invoice"))))
  /\ (snd (ReturnService.downloadReturnLabel id w) = w
      /\ (forall e, outcome (exchange w label) = Rejects e ->
            fst (ReturnService.downloadReturnLabel id w) = Throw e)
      /\ (forall st body, outcome (exchange w label) = Responds st body ->
            fst (ReturnService.downloadReturnLabel id w)
            = if ((200 <=? st) && (st <=? 299))%bool
              then Ok {| r_status := st; r_json := body |}
              else Throw (new_Error (JStr "Failed to download return label")))).
Proof.
  cbv zeta. unfold exchange. split.
  - unfold OrderService.downloadInvoice, bearer, fetch_direct, bind,
      current_token, gets, ret, throw.
    destruct (outcome _) as [e | st body].
    + split; [reflexivity|]. split; [intros e' He; inversion He; reflexivity|].
      intros st body He. discriminate He.
    + unfold ok. cbn [r_status].
      split; [destruct ((200 <=? st) && (st <=? 299))%bool; reflexivity|].
      split; [intros e He; discriminate He|].
      intros st' body' He. inversion He; subst.
      destruct ((200 <=? st') && (st' <=? 299))%bool; reflexivity.
  - unfold ReturnService.downloadReturnLabel, bearer, fetch_direct, bind,
      current_token, gets, ret, throw.
    destruct (outcome _) as [e | st body].
    + split; [reflexivity|]. split; [intros e' He; inversion He; reflexivity|].
      intros st body He. discriminate He.
    + unfold ok. cbn [r_status].
      split; [destruct ((200 <=? st) && (st <=? 299))%bool; reflexivity|].
      split; [intros e He; discriminate He|].
      intros st' body' He. inversion He; subst.
      destruct ((200 <=? st') && (st' <=? 299))%bool; reflexivity.
Qed.

End Downloads.

(** ** More of the container and of [upload] *)

Section Refreshes.
Context {V : Views}.

Lemma clearCart_finishes :
  Finishes CartService.clearCart (fun w => DELETE w API_ENDPOINTS.CART)
    "Failed to clear cart".
Proof. apply done_tail. apply delete_exact. Qed.

(** X26. [clearCart] of the container makes one call, the [DELETE] of
    the cart, and does not fetch the cart again: when the envelope's
    status is 200 or 204 it fulfils and the cart held becomes empty,
    otherwise it rejects and the cart held stays as it was. *)
Theorem clearCart_empties_without_reload (w w' : World) (r : Completion unit) :
  Shop.clearCart w = (r, w') ->
  exists env,
    traffic w' = (traffic w ++ [(DELETE w API_ENDPOINTS.CART, env)])%list
    /\ loading (store w') = false
    /\ match r with
       | Ok _ => (status env = 200 \/ status env = 204)
                 /\ cart (store w') = None
       | Throw e =>
           status env <> 200 /\ status env <> 204
           /\ e = new_Error (js_or (message env) (JStr "Failed to clear cart"))
           /\ cart (store w') = cart (store w)
       end.
Proof.
  intros Hrun. unfold Shop.clearCart in Hrun. rewrite guarded_run in Hrun.
  unfold bind at 1 in Hrun.
  destruct (clearCart_finishes (busy true w)) as (env & r1 & Hsvc & Hr1).
  rewrite Hsvc in Hrun. clear Hsvc. exists env.
  destruct r1 as [[] | e]; cbn in Hrun; inversion Hrun; subst; clear Hrun; cbn.
  - split; [reflexivity|]. split; [reflexivity|]. split; [exact Hr1 | reflexivity].
  - destruct Hr1 as (H200 & H204 & ->).
    split; [reflexivity|]. split; [reflexivity|]. repeat split; assumption.
Qed.

(** A refresh of the container: the call, with the payload written or
    the failure reported. *)
Lemma refresh_run {T} `{View T} (m : M T) (endpoint : string)
  (ps : list (string * JSValue)) (d : string) (write : T -> Store -> Store)
  (k : T -> M unit) (w : World) :
  Gets m endpoint ps d ->
  (forall a w0, k a w0 = (Ok tt, with_store (write a (store w0)) w0)) ->
  match refusal w endpoint with
  | Some text =>
      Shop.guarded (x <- m ;; k x) d w
      = (Throw (Invalid_URL text),
         busy false (notified (toast_error (JStr text)) (busy true w)))
  | None =>
      exists env,
        let w1 := sent (Shop.GET w endpoint ps) env (busy true w) in
        match payload env with
        | Some v =>
            Shop.guarded (x <- m ;; k x) d w
            = (Ok tt, busy false (with_store (write (view v) (store w1)) w1))
        | None =>
            Shop.guarded (x <- m ;; k x) d w
            = (Throw (new_Error (js_or (message env) (JStr d))),
               busy false
                 (notified (toast_error (js_or (message env) (JStr d))) w1))
        end
  end.
Proof.
  intros Hm Hk. specialize (Hm (busy true w)).
  change (refusal (busy true w) endpoint) with (refusal w endpoint) in Hm.
  destruct (refusal w endpoint) as [text|].
  - rewrite guarded_run. unfold bind. rewrite Hm. reflexivity.
  - destruct Hm as (env & r & Hrun & Hr). exists env. cbv zeta.
    rewrite guarded_run. unfold bind. rewrite Hrun. destruct r as [x | e].
    + destruct Hr as (v & Hd & Hv & ->). rewrite (payload_has_data _ _ Hd Hv).
      rewrite Hk. reflexivity.
    + destruct Hr as [Hd ->]. rewrite (payload_no_data _ Hd). reflexivity.
Qed.

(** X27. [getOrders] and [getReturns] of the container make the call
    the loads of the sign-in make, but report a failure instead of logging
    it.  Where the platform takes the URL: when the call brings no data
    they reject, show one failure notice and leave the collection as it
    was; when it brings data the collection becomes what it brought.
    Where the platform refuses the URL they make no call, reject with the
    TypeError and show its message.  The busy flag is lowered in every
    case. *)
Theorem refreshes_report_failures (w : World) :
  match refusal w API_ENDPOINTS.ORDERS with
  | Some text =>
      Shop.getOrders w
      = (Throw (Invalid_URL text),
         busy false (notified (toast_error (JStr text)) w))
  | None =>
      exists env,
        let w1 :=
          sent (Shop.GET w API_ENDPOINTS.ORDERS Shop.page_1_of_50) env w in
        match payload env with
        | Some v =>
            Shop.getOrders w
            = (Ok tt,
               with_store (with_orders (ol_orders (view v))
                             (store (busy false w))) w1)
        | None =>
            Shop.getOrders w
            = (Throw (new_Error (js_or (message env)
                                   (JStr "Failed to fetch orders"))),
               busy false
                 (notified (toast_error (js_or (message env)
                                           (JStr "Failed to fetch orders"))) w1))
        end
  end
  /\ match refusal w API_ENDPOINTS.RETURNS with
     | Some text =>
         Shop.getReturns w
         = (Throw (Invalid_URL text),
            busy false (notified (toast_error (JStr text)) w))
     | None =>
         exists env,
           let w1 :=
             sent (Shop.GET w API_ENDPOINTS.RETURNS Shop.page_1_of_50) env w in
           match payload env with
           | Some v =>
               Shop.getReturns w
               = (Ok tt,
                  with_store (with_returns (rl_returns (view v))
                                (store (busy false w))) w1)
           | None =>
               Shop.getReturns w
               = (Throw (new_Error (js_or (message env)
                                      (JStr "Failed to fetch returns"))),
                  busy false
                    (notified (toast_error (js_or (message env)
                                              (JStr "Failed to fetch returns")))
                       w1))
           end
     end.
Proof.
  split.
  - exact (refresh_run _ _ _ _ (fun x => with_orders (ol_orders x)) _ w
             getOrders_fetches (fun a w0 => eq_refl)).
  - exact (refresh_run _ _ _ _ (fun x => with_returns (rl_returns x)) _ w
             getReturns_fetches (fun a w0 => eq_refl)).
Qed.

End Refreshes.

Section Uploads.

(** X28. [upload] resolves like [request] does, with messages of its
    own: on a body that parses to a value other than [null] it falls back
    to "Upload successful" and "Upload failed".  Unlike [request] it does
    not tell a timeout from any other failure: whenever [fetch] rejects
    with an error, the abort of the timeout included, the envelope's
    message is that error's message, or "Upload error" when it has none. *)
Theorem upload_normalizes_with_its_own_messages (this : ApiClient)
  (endpoint : string) (formData : list (string * FormValue)) (w : World) :
  let ex := exchange w (upload_input this (token_in w) endpoint formData) in
  (forall st body,
     latency ex < timeout this ->
     outcome ex = Responds st (Parsed body) ->
     nullish body = false ->
     fst (upload this endpoint formData w)
     = Ok (if ((200 <=? st) && (st <=? 299))%bool then
             {| data := Some (js_or (prop "data" body) body);
                message := js_or (prop "message" body) (JStr "Upload successful");
                status := st;
                errors := None |}
           else
             {| data := None;
                message := js_or (prop "message" body) (JStr "Upload failed");
                status := st;
                errors := Some (js_or (prop "errors" body) (JArr [])) |}))
  /\ (forall name m,
        latency ex < timeout this ->
        outcome ex = Rejects (JsError name m) ->
        fst (upload this endpoint formData w)
        = Ok {| data := None; message := js_or m (JStr "Upload error");
                status := 500; errors := None |})
  /\ (timeout this < latency ex ->
      fst (upload this endpoint formData w)
      = Ok {| data := None;
              message := js_or (message_or AbortError "") (JStr "Upload error");
              status := 500; errors := None |}).
Proof.
  cbv zeta. unfold exchange. split; [|split].
  - intros st body Hlat Hout Hbody. run_request.
    apply Z.ltb_lt in Hlat. rewrite Hlat, Hout. cbn [r_json r_status].
    unfold ok. cbn [r_status]. rewrite Hbody.
    destruct ((200 <=? st) && (st <=? 299))%bool; reflexivity.
  - intros name m Hlat Hout. run_request.
    apply Z.ltb_lt in Hlat. rewrite Hlat, Hout. reflexivity.
  - intros Hslow. run_request.
    assert (Hge : (latency
                     (server w (map fst (traffic w))
                        (upload_input this (token_in w) endpoint formData))
                   <? timeout this) = false) by (apply Z.ltb_ge; lia).
    rewrite Hge. reflexivity.
Qed.

End Uploads.

Lemma clearCart_empties_without_reload_witness :
  fst (Shop.clearCart
         (world (always (unreadable 204))
            (seen_with (Some one_item_cart) None)))
  = Throw (new_Error (JStr "Unexpected end of JSON input"))
  /\ cart (store (snd (Shop.clearCart
                         (world (always (unreadable 204))
                            (seen_with (Some one_item_cart) None)))))
     = Some one_item_cart.
Proof.
  set (w := world (always (unreadable 204)) (seen_with (Some one_item_cart) None)).
  set (run := Shop.clearCart w).
  destruct (clearCart_empties_without_reload w (snd run) (fst run)
              (surjective_pairing run)) as (env & Ht & _ & Hr).
  vm_compute in Ht. inversion Ht; subst; clear Ht.
  destruct (fst run) as [u | e] eqn:Hrun.
  - destruct Hr as [[H200 | H204] _]; discriminate.
  - destruct Hr as (_ & _ & -> & Hc). split; [reflexivity | exact Hc].
Defined.
